(** * consumer.py: the RabbitMQ -> Splunk forwarder

    A shallow embedding of [src/python/consumer.py] and the properties of its
    relay engine: the payload transformer ([add_event]), the delivery path
    ([send_to_splunk]), the worker callback ([rabbit_callback]), the broker
    topology set-up ([add_vhost], [start]) and the throughput aggregator (the
    loop of [main]).

    Python values are modelled as the interpreter has them: unbounded [int]
    as [Z], [float] as IEEE binary64 ([spec_float] at precision 53), [str] as
    [string], [bytes] as [list byte], [dict] as an insertion-ordered
    association list, exceptions as an error result. *)

From Stdlib Require Import ZArith NArith List String Ascii Strings.Byte Bool Lia.
From Stdlib Require Import DecimalString.
From Stdlib Require Import Floats.SpecFloat.
From stdpp Require Import base option list strings gmap.

Set Warnings "-register-all".

Local Open Scope string_scope.
Local Open Scope list_scope.
Local Open Scope Z_scope.

(** ** Python values *)

(** [float]: IEEE 754 binary64. *)
Definition prec : Z := 53.
Definition emax : Z := 1024.
Abbreviation float := spec_float.

(** [str]: the text's UTF-8 code units. The program only compares text
    with ASCII literals and concatenates it; both commute with that
    encoding. *)
Abbreviation str := string.

(** [bytes]. *)
Abbreviation bytes := (list byte).

(** What [json.loads] returns (and [json.dumps] accepts): [None], [bool],
    [int], [float], [str], [list], and [dict] with [str] keys in insertion
    order. *)
Inductive json : Type :=
| JNone
| JBool (b : bool)
| JInt (n : Z)
| JFloat (f : float)
| JStr (s : str)
| JList (items : list json)
| JDict (entries : list (str * json)).

Abbreviation dict := (list (str * json)).

(** ** Exceptions *)

(** The exception classes the program can meet. [RequestException msg]
    stands for [requests.exceptions.RequestException] and its subclasses
    ([ConnectionError], [Timeout], [HTTPError], ...); [SystemExit code] is
    what [sys.exit(code)] raises. *)
Inductive exn : Type :=
| AttributeError
| TypeError
| ValueError
| KeyError
| OverflowError
| ZeroDivisionError
| UnicodeDecodeError
| JSONDecodeError
| BadGzipFile
| RequestException (msg : str)
| ConnectionRefusedError
| AMQPError (code : Z)
| OtherError (name : str)
| SystemExit (code : Z).

(** A computation that returns or raises. *)
Inductive result (A : Type) : Type :=
| Ok (a : A)
| Raised (e : exn).
Arguments Ok {A} a.
Arguments Raised {A} e.

Definition rbind {A B} (r : result A) (k : A -> result B) : result B :=
  match r with
  | Ok a => k a
  | Raised e => Raised e
  end.

Declare Scope result_scope.
Delimit Scope result_scope with res.
Notation "x <-? r ; k" := (rbind r (fun x => k))
  (at level 100, r at next level, k at level 200, right associativity) : result_scope.

Definition is_ok {A} (r : result A) : bool :=
  match r with Ok _ => true | Raised _ => false end.

(** [map f xs] forced from left to right, as ["".join(map(f, xs))] forces
    it: the first element on which [f] raises ends the traversal. *)
Fixpoint map_result {A B} (f : A -> result B) (xs : list A) : result (list B) :=
  match xs with
  | [] => Ok []
  | x :: rest =>
      rbind (f x) (fun y => rbind (map_result f rest) (fun ys => Ok (y :: ys)))
  end.

(** ** Numbers: [int(x)] and [/] *)

(** The integer [n] as an exact (not yet rounded) binary value. *)
Definition Z2SF (n : Z) : float :=
  match n with
  | Z0 => S754_zero false
  | Zpos p => S754_finite false p 0
  | Zneg p => S754_finite true p 0
  end.

(** [float.__trunc__]: the integer part, rounding toward zero. *)
Definition float_trunc (f : float) : result Z :=
  match f with
  | S754_zero _ => Ok 0
  | S754_infinity _ => Raised OverflowError
  | S754_nan => Raised ValueError
  | S754_finite s m e =>
      let a := match e with
               | Z0 => Zpos m
               | Zpos _ => Z.shiftl (Zpos m) e
               | Zneg _ => Z.shiftr (Zpos m) (- e)
               end in
      Ok (if s then - a else a)
  end.

(** [a / b] on two [int]s (true division): the binary64 nearest to the
    exact quotient, ties to even; [ZeroDivisionError] for [b = 0] and
    [OverflowError] when the quotient is out of the range of a float. *)
Definition py_true_div (a b : Z) : result float :=
  if b =? 0 then Raised ZeroDivisionError
  else match SFdiv prec emax (Z2SF a) (Z2SF b) with
       | S754_infinity _ => Raised OverflowError
       | S754_nan => Raised OverflowError
       | q => Ok q
       end.

(** The float [m * 2^e], rounded to binary64. *)
Definition float_of_bits (m e : Z) : float := binary_normalize prec emax m e false.

(** ** Dictionaries *)

Fixpoint dict_get (d : dict) (k : str) : option json :=
  match d with
  | [] => None
  | (k', v) :: rest => if String.eqb k' k then Some v else dict_get rest k
  end.

(** [k in d] *)
Definition dict_contains (d : dict) (k : str) : bool :=
  match dict_get d k with Some _ => true | None => false end.

(** [d[k] = v]: an existing key keeps its position, a new key goes last. *)
Fixpoint dict_set (d : dict) (k : str) (v : json) : dict :=
  match d with
  | [] => [(k, v)]
  | (k', v') :: rest =>
      if String.eqb k' k then (k', v) :: rest else (k', v') :: dict_set rest k v
  end.

(** ** The interpreter and the libraries

    The library calls of the program that are not code of this repository.
    Each is a function of its arguments that returns or raises; the
    development holds for every such behaviour. *)
Class PyRuntime : Type := {
  (** [gzip.decompress(data)] *)
  gzip_decompress : bytes -> result bytes;
  (** [data.decode('utf-8')] *)
  decode_utf8 : bytes -> result str;
  (** [json.loads(s)] *)
  json_loads : str -> result json;
  (** [json.dumps(obj)] *)
  json_dumps : json -> str;
  (** [int(s)] for a [str] *)
  int_of_str : str -> result Z
}.

(** [int(x)] for a value read from JSON. *)
Definition py_int `{PyRuntime} (x : json) : result Z :=
  match x with
  | JInt n => Ok n
  | JBool b => Ok (if b then 1 else 0)
  | JFloat f => float_trunc f
  | JStr s => int_of_str s
  | JNone | JList _ | JDict _ => Raised TypeError
  end.

(** [x.keys()]: only a [dict] has the method. *)
Definition keys (x : json) : result (list str) :=
  match x with
  | JDict d => Ok (map fst d)
  | _ => Raised AttributeError
  end.

(** [x[k]] for a [str] key [k]. *)
Definition getitem (x : json) (k : str) : result json :=
  match x with
  | JDict d => match dict_get d k with Some v => Ok v | None => Raised KeyError end
  | _ => Raised TypeError
  end.

(** [k in ks] *)
Definition contains (ks : list str) (k : str) : bool :=
  existsb (String.eqb k) ks.

(** [isinstance(x, list)] *)
Definition isinstance_list (x : json) : bool :=
  match x with JList _ => true | _ => false end.

(** ["".join(parts)] *)
Definition join (parts : list str) : str := String.concat "" parts.

(** ** Configuration ([get_config]) *)

Record config : Type := {
  rabbitmq_user : str;
  rabbitmq_password : str;
  rabbitmq_server : str;
  rabbitmq_amqp_port : str;
  rabbitmq_http_port : str;
  rabbitmq_vhost : str;
  rabbitmq_exchange : str;
  splunk_url : str;
  splunk_token : str;
  threads : Z;
  verbose : bool;
  debug : bool
}.

(** ** Effects of a worker *)

(** What [session.post] sends. *)
Record request : Type := {
  req_url : str;
  req_verify : bool;
  req_data : str;
  req_headers : list (str * str)
}.

(** What it returns. *)
Record response : Type := {
  status_code : Z;
  reason : str
}.

(** The lines a worker prints. *)
Inductive log_line : Type :=
| LogSending (json_str : str)
| LogConnectivityError (error : exn)
| LogFailure (reason : str) (status_code : Z)
| LogDot.

(** The observable actions of a worker, in the order it performs them. *)
Inductive event : Type :=
| Print (line : log_line)
| Post (req : request)
| BasicAck (delivery_tag : Z)
| QueuePut (process_num : Z) (session_count : nat).

(** A computation that performs actions and then returns or raises. *)
Definition io (A : Type) : Type := (list event * result A)%type.

Definition ret {A} (a : A) : io A := ([], Ok a).
Definition raise {A} (e : exn) : io A := ([], Raised e).
Definition lift {A} (r : result A) : io A := ([], r).
Definition emit (ev : event) : io unit := ([ev], Ok tt).

Definition bind {A B} (m : io A) (k : A -> io B) : io B :=
  match m with
  | (t, Ok a) => let '(t', r) := k a in (t ++ t', r)
  | (t, Raised e) => (t, Raised e)
  end.

(** [try: m except <class> as e: h e] *)
Definition try_except {A} (m : io A) (catches : exn -> bool) (h : exn -> io A) : io A :=
  match m with
  | (t, Raised e) =>
      if catches e then let '(t', r) := h e in (t ++ t', r) else (t, Raised e)
  | (t, Ok a) => (t, Ok a)
  end.

Declare Scope io_scope.
Delimit Scope io_scope with io.
Notation "x <- m ;; k" := (bind m (fun x => k))
  (at level 100, m at next level, k at level 200, right associativity) : io_scope.
Notation "m ;;; k" := (bind m (fun _ => k))
  (at level 100, k at level 200, right associativity) : io_scope.

Definition trace {A} (m : io A) : list event := fst m.
Definition outcome {A} (m : io A) : result A := snd m.

(** [sys.exit(code)] *)
Definition sys_exit {A} (code : Z) : io A := raise (SystemExit code).

(** [print(line)] of a process whose standard output takes every line;
    [print_on] below is the [print] that can raise. *)
Definition print (line : log_line) : io unit := emit (Print line).

(** ** requests *)

(** [except requests.exceptions.RequestException] *)
Definition is_RequestException (e : exn) : bool :=
  match e with RequestException _ => true | _ => false end.

(** [Response.raise_for_status()]: raises [HTTPError] (a
    [RequestException]) for a status in 400..599, and for no other. *)
Definition raise_for_status (reply : response) : result unit :=
  if (400 <=? status_code reply) && (status_code reply <? 600)
  then Raised (RequestException "HTTPError")
  else Ok tt.

(** [Response.ok]: whether [raise_for_status] passes. *)
Definition ok (reply : response) : bool := is_ok (raise_for_status reply).

(** The ingestion endpoint: what one [session.post] returns or raises. *)
Definition endpoint : Type := request -> result response.

(** [session.post(url, verify=..., data=..., headers=...)] *)
Definition session_post (splunk : endpoint) (req : request) : io response :=
  bind (emit (Post req)) (fun _ => lift (splunk req)).

(** ** [class RabbitToSplunk] *)

(** A message as the broker hands it to the callback:
    [method.delivery_tag], [properties.content_encoding] ([None] when the
    publisher set none) and [body]. *)
Record RawMessage : Type := {
  delivery_tag : Z;
  content_encoding : option str;
  body : bytes
}.

(** The fields of [self] that the callback reads. *)
Record RabbitToSplunk : Type := {
  self_config : config;
  self_process_num : Z
}.

Section Worker.
Context `{PyRuntime}.

(** The dict that [add_event] builds before serialising it
    (consumer.py:118-125). *)
Definition build_event (json_data : json) : result dict :=
  (let event := [("event", json_data)] in
   ks <-? keys json_data;
   event <-? (if contains ks "device_time"
              then (d <-? getitem json_data "device_time";
                    n <-? py_int d;
                    t <-? py_true_div n 1000;
                    Ok (dict_set event "time" (JFloat t)))
              else Ok event);
   ks <-? keys json_data;
   event <-? (if contains ks "device_name"
              then (v <-? getitem json_data "device_name";
                    Ok (dict_set event "host" v))
              else Ok event);
   ks <-? keys json_data;
   event <-? (if contains ks "product_name"
              then (v <-? getitem json_data "product_name";
                    Ok (dict_set event "source" v))
              else Ok event);
   Ok event)%res.

(** [RabbitToSplunk.add_event] (consumer.py:112-129). *)
Definition add_event (json_data : json) : result str :=
  (event <-? build_event json_data;
   let event_str := json_dumps (JDict event) in
   Ok event_str)%res.

(** The decoding step of [send_to_splunk] (consumer.py:145-152). *)
Definition decode_body (content_encoding : option str) (body : bytes) : result str :=
  if decide (content_encoding = Some "gzip")
  then (json_str <-? gzip_decompress body; decode_utf8 json_str)%res
  else decode_utf8 body.

(** Parsing, and wrapping a value that is not a list (consumer.py:158-161). *)
Definition load_events (json_str : str) : result (list json) :=
  (json_data <-? json_loads json_str;
   Ok (match json_data with
       | JList items => items
       | _ => [json_data]
       end))%res.

(** The batch: one serialised record per element (consumer.py:164). *)
Definition event_list (json_data : list json) : result (list str) :=
  map_result add_event json_data.

(** The request that carries a batch (consumer.py:169-172). *)
Definition splunk_request (cfg : config) (event_data : str) : request :=
  {| req_url := splunk_url cfg;
     req_verify := false;
     req_data := event_data;
     req_headers := [("Authorization", "Splunk " +:+ splunk_token cfg)] |}.

(** [RabbitToSplunk.send_to_splunk] (consumer.py:132-186). *)
Definition send_to_splunk (self : RabbitToSplunk) (splunk : endpoint)
    (content_encoding : option str) (body : bytes) : io nat :=
  (let cfg := self_config self in
   json_str <- lift (decode_body content_encoding body);;
   (if debug cfg then print (LogSending json_str) else ret tt);;;
   json_data <- lift (load_events json_str);;
   events <- lift (event_list json_data);;
   let event_data := join events in
   reply <- try_except
              (reply <- session_post splunk (splunk_request cfg event_data);;
               lift (raise_for_status reply);;;
               ret reply)
              is_RequestException
              (fun error => print (LogConnectivityError error);;; sys_exit 1);;
   (if negb (ok reply)
    then (print (LogFailure (reason reply) (status_code reply));;; sys_exit 1)
    else ret tt);;;
   (if verbose cfg then print LogDot else ret tt);;;
   ret (length json_data))%io.

(** [RabbitToSplunk.rabbit_callback] (consumer.py:188-196). *)
Definition rabbit_callback (self : RabbitToSplunk) (splunk : endpoint)
    (msg : RawMessage) : io unit :=
  (session_count <- send_to_splunk self splunk (content_encoding msg) (body msg);;
   emit (BasicAck (delivery_tag msg));;;
   emit (QueuePut (self_process_num self) session_count))%io.

(** [channel.start_consuming()] over the messages the broker delivers, each
    with the endpoint as it answers at that moment: the callback runs on
    one message at a time, and the first exception ends the loop. *)
Fixpoint start_consuming (self : RabbitToSplunk)
    (deliveries : list (endpoint * RawMessage)) : io unit :=
  match deliveries with
  | [] => ret tt
  | (splunk, msg) :: rest =>
      (rabbit_callback self splunk msg;;; start_consuming self rest)%io
  end.

End Worker.

(** ** The aggregator: the reporting loop of [main] (consumer.py:323-346) *)

(** The counters of the loop. *)
Record AggregateState : Type := {
  total_msg_count : Z;
  last_total_msg_count : Z;
  total_session_count : Z;
  last_total_session_count : Z;
  last_time : Z
}.

(** The values interpolated into one printed status line. *)
Record report : Type := {
  rep_exchange : str;
  rep_total_messages : Z;
  rep_msg_per_second : float;
  rep_sessions_per_second : Z
}.

(** The counters before the loop; [now] is [int(time.time())] at that
    moment. *)
Definition initial_state (now : Z) : AggregateState :=
  {| total_msg_count := 0;
     last_total_msg_count := 0;
     total_session_count := 0;
     last_total_session_count := 0;
     last_time := now |}.

(** One iteration of the [while True] loop: [metric] is what
    [result_queue.get()] returns and [now] what [int(time.time())] returns
    after it. The status line, when one is printed, is the second
    component. *)
Definition aggregate_step (cfg : config) (st : AggregateState)
    (metric : Z * nat) (now : Z) : result (AggregateState * option report) :=
  (let '(process_num, session_count) := metric in
   let total_msg_count := total_msg_count st + 1 in
   let total_session_count := total_session_count st + Z.of_nat session_count in
   let delta_time := now - last_time st in
   if 5 <=? delta_time
   then
     msg_per_second <-?
       py_true_div (total_msg_count - last_total_msg_count st) delta_time;
     sessions_per_second <-?
       py_true_div (total_session_count - last_total_session_count st) delta_time;
     whole_sessions <-? float_trunc sessions_per_second;
     Ok ({| total_msg_count := total_msg_count;
            last_total_msg_count := total_msg_count;
            total_session_count := total_session_count;
            last_total_session_count := total_session_count;
            last_time := now |},
         Some {| rep_exchange := rabbitmq_exchange cfg;
                 rep_total_messages := total_msg_count;
                 rep_msg_per_second := msg_per_second;
                 rep_sessions_per_second := whole_sessions |})
   else
     Ok ({| total_msg_count := total_msg_count;
            last_total_msg_count := last_total_msg_count st;
            total_session_count := total_session_count;
            last_total_session_count := last_total_session_count st;
            last_time := last_time st |},
         None))%res.

(** The loop over the metrics received so far, each with the clock reading
    that follows it; the printed lines are collected in order. *)
Fixpoint aggregate_loop (cfg : config) (st : AggregateState)
    (inputs : list ((Z * nat) * Z)) : result (AggregateState * list report) :=
  match inputs with
  | [] => Ok (st, [])
  | (metric, now) :: rest =>
      (r <-? aggregate_step cfg st metric now;
       let '(st', line) := r in
       r' <-? aggregate_loop cfg st' rest;
       let '(st'', lines) := r' in
       Ok (st'', match line with Some l => l :: lines | None => lines end))%res
  end.

(** ** The broker and the topology set-up

    The state of a RabbitMQ broker that the set-up reads and writes, with
    the declaration rules of AMQP 0-9-1: declaring an entity that is absent
    creates it, declaring one that exists with the same attributes changes
    nothing, and declaring one that exists with other attributes is refused
    (406 PRECONDITION_FAILED). *)

Record exchange_decl : Type := {
  exchange_type : str;
  exchange_durable : bool;
  exchange_auto_delete : bool;
  exchange_internal : bool
}.

Record queue_decl : Type := {
  queue_durable : bool;
  queue_exclusive : bool;
  queue_auto_delete : bool
}.

#[global] Instance exchange_decl_eq_dec : EqDecision exchange_decl.
Proof. solve_decision. Defined.

#[global] Instance queue_decl_eq_dec : EqDecision queue_decl.
Proof. solve_decision. Defined.

(** Exchanges and queues are named within a virtual host; a binding is
    (virtual host, queue, exchange, routing key). [listening] tells whether
    the broker accepts connections. *)
Record broker : Type := {
  listening : bool;
  users : gmap str str;
  vhosts : gset str;
  exchanges : gmap (str * str) exchange_decl;
  queues : gmap (str * str) queue_decl;
  bindings : gset (str * str * str * str)
}.

Definition with_vhosts (b : broker) (vs : gset str) : broker :=
  {| listening := listening b; users := users b; vhosts := vs;
     exchanges := exchanges b; queues := queues b; bindings := bindings b |}.

Definition with_exchanges (b : broker) (es : gmap (str * str) exchange_decl) : broker :=
  {| listening := listening b; users := users b; vhosts := vhosts b;
     exchanges := es; queues := queues b; bindings := bindings b |}.

Definition with_queues (b : broker) (qs : gmap (str * str) queue_decl) : broker :=
  {| listening := listening b; users := users b; vhosts := vhosts b;
     exchanges := exchanges b; queues := qs; bindings := bindings b |}.

Definition with_bindings (b : broker) (bs : gset (str * str * str * str)) : broker :=
  {| listening := listening b; users := users b; vhosts := vhosts b;
     exchanges := exchanges b; queues := queues b; bindings := bs |}.

(** The per-channel settings of a consumer. *)
Record channel : Type := {
  channel_vhost : str;
  prefetch_count : Z
}.

Definition authenticated (b : broker) (user password : str) : bool :=
  bool_decide (users b !! user = Some password).

(** [requests.put(url, auth=HTTPBasicAuth(user, password))] on
    [/api/vhosts/<name>] of the management API of this broker: a connection
    error when the broker is down, 401 for bad credentials, else the
    virtual host exists afterwards (201 when created, 204 when it was
    there). These are the answers that the state of the broker decides;
    [add_vhost_on] below takes any answer and any exception. The state
    lists what clients declare: the exchanges a broker keeps of its own in
    every virtual host (the default exchange and [amq.*]) are not in it. *)
Definition put_vhost (b : broker) (user password name : str)
    : result (broker * response) :=
  if negb (listening b) then Raised (RequestException "ConnectionError")
  else if negb (authenticated b user password)
  then Ok (b, {| status_code := 401; reason := "Unauthorized" |})
  else if bool_decide (name ∈ vhosts b)
  then Ok (b, {| status_code := 204; reason := "No Content" |})
  else Ok (with_vhosts b ({[name]} ∪ vhosts b),
           {| status_code := 201; reason := "Created" |}).

(** [add_vhost] (consumer.py:224-247). *)
Definition add_vhost (cfg : config) (b : broker) : result broker :=
  match put_vhost b (rabbitmq_user cfg) (rabbitmq_password cfg) (rabbitmq_vhost cfg) with
  | Raised error => Raised (SystemExit 1)
  | Ok (b', reply) => if negb (ok reply) then Raised (SystemExit 1) else Ok b'
  end.

(** [pika.BlockingConnection(pika.URLParameters(connection_str))] followed
    by [connection.channel()]: refused when the broker is down, for bad
    credentials, or for a virtual host that does not exist. The broker of
    the model is the one that [server] names, reached on both of its ports:
    [server] and [amqp_port] are not arguments, and the AMQP listener is up
    when the management API is. A connection that cannot be opened is
    reported by [pika] with its own [AMQPConnectionError]. *)
Definition connect (b : broker) (user password vhost : str) : result channel :=
  if negb (listening b) then Raised (OtherError "AMQPConnectionError")
  else if authenticated b user password && bool_decide (vhost ∈ vhosts b)
  then Ok {| channel_vhost := vhost; prefetch_count := 0 |}
  else Raised (AMQPError 403).

(** [channel.exchange_declare(exchange=..., durable=...)]; the exchange
    type defaults to ['direct']. The names a broker reserves (the empty
    name and [amq.*]) are declared like any other here. *)
Definition exchange_declare (b : broker) (ch : channel) (exchange : str)
    (durable : bool) : result broker :=
  let wanted := {| exchange_type := "direct"; exchange_durable := durable;
                   exchange_auto_delete := false; exchange_internal := false |} in
  match exchanges b !! (channel_vhost ch, exchange) with
  | Some found =>
      if bool_decide (found = wanted) then Ok b else Raised (AMQPError 406)
  | None =>
      Ok (with_exchanges b (<[(channel_vhost ch, exchange) := wanted]> (exchanges b)))
  end.

(** [channel.queue_declare(queue=...)]: not durable, not exclusive, not
    auto-deleted. *)
Definition queue_declare (b : broker) (ch : channel) (queue : str) : result broker :=
  let wanted := {| queue_durable := false; queue_exclusive := false;
                   queue_auto_delete := false |} in
  match queues b !! (channel_vhost ch, queue) with
  | Some found =>
      if bool_decide (found = wanted) then Ok b else Raised (AMQPError 406)
  | None =>
      Ok (with_queues b (<[(channel_vhost ch, queue) := wanted]> (queues b)))
  end.

(** [channel.queue_bind(queue=..., exchange=..., routing_key=...)]: 404
    when the queue or the exchange does not exist. *)
Definition queue_bind (b : broker) (ch : channel) (queue exchange routing_key : str)
    : result broker :=
  match queues b !! (channel_vhost ch, queue),
        exchanges b !! (channel_vhost ch, exchange) with
  | Some _, Some _ =>
      Ok (with_bindings b
            ({[(channel_vhost ch, queue, exchange, routing_key)]} ∪ bindings b))
  | _, _ => Raised (AMQPError 404)
  end.

(** [channel.basic_qos(prefetch_count=...)] *)
Definition basic_qos (ch : channel) (count : Z) : channel :=
  {| channel_vhost := channel_vhost ch; prefetch_count := count |}.

(** The set-up part of [RabbitToSplunk.start] (consumer.py:67-104), before
    it starts consuming: the broker afterwards, and the channel the worker
    consumes on. *)
Definition start (cfg : config) (b : broker) : result (broker * channel) :=
  (ch <-? match connect b (rabbitmq_user cfg) (rabbitmq_password cfg)
                  (rabbitmq_vhost cfg) with
          | Raised ConnectionRefusedError => Raised (SystemExit 1)
          | r => r
          end;
   let exchange := rabbitmq_exchange cfg in
   b <-? exchange_declare b ch exchange true;
   let queue := exchange +:+ "_q" in
   b <-? queue_declare b ch queue;
   b <-? queue_bind b ch queue exchange "";
   let ch := basic_qos ch 10 in
   Ok (b, ch))%res.

(** One launch of the consumer up to the point where a worker consumes:
    [add_vhost] in [main], then [start] in the worker. *)
Definition topology_initializer (cfg : config) (b : broker) : result (broker * channel) :=
  (b <-? add_vhost cfg b; start cfg b)%res.

(** ** An executable runtime

    Executable models of the five library calls, used to run the program on
    sample messages. [Json.loads] and [Json.dumps] follow the grammar, the
    escapes and the number formats of Python's [json] module with its
    default options; [Utf8.decode] is the strict UTF-8 decoder;
    [Gzip.decompress] inflates the members of a gzip file (RFC 1952, RFC
    1951) and checks their CRC-32 and length; [PyInt.of_str] reads the
    ASCII forms that [int] accepts. *)

Module Text.

Definition codes (s : str) : list Z :=
  map (fun c => Z.of_N (N_of_ascii c)) (list_ascii_of_string s).

Definition of_codes (cs : list Z) : str :=
  string_of_list_ascii (map (fun z => ascii_of_N (Z.to_N z)) cs).

Definition of_bytes (bs : bytes) : list Z :=
  map (fun b => Z.of_N (Byte.to_N b)) bs.

(** The bytes of an ASCII literal. *)
Definition encode (s : str) : bytes := list_byte_of_string s.

(** [s] with every apostrophe replaced by a double quote. *)
Definition dq (s : str) : str :=
  of_codes (map (fun c => if c =? 39 then 34 else c) (codes s)).

Definition decimal (n : Z) : str := NilZero.string_of_int (Z.to_int n).

Fixpoint strip_prefix (p cs : list Z) : option (list Z) :=
  match p, cs with
  | [], _ => Some cs
  | a :: p', c :: cs' => if a =? c then strip_prefix p' cs' else None
  | _ :: _, [] => None
  end.

Definition is_digit (c : Z) : bool := (48 <=? c) && (c <=? 57).

Fixpoint take_digits (cs : list Z) : list Z * list Z :=
  match cs with
  | c :: rest =>
      if is_digit c
      then let '(ds, rest') := take_digits rest in (c :: ds, rest')
      else ([], cs)
  | [] => ([], [])
  end.

Definition digits_value (ds : list Z) : Z :=
  fold_left (fun a d => 10 * a + (d - 48)) ds 0.

End Text.

Module Utf8.

Definition is_cont (b : Z) : bool := (128 <=? b) && (b <=? 191).

Definition between (lo hi b : Z) : bool := (lo <=? b) && (b <=? hi).

(** Well-formed UTF-8: shortest forms only, no surrogates, at most
    U+10FFFF. *)
Fixpoint valid (bs : list Z) : bool :=
  match bs with
  | [] => true
  | b0 :: rest =>
      if b0 <? 128 then valid rest
      else if between 194 223 b0 then
        match rest with
        | b1 :: rest' => is_cont b1 && valid rest'
        | _ => false
        end
      else if between 224 239 b0 then
        match rest with
        | b1 :: b2 :: rest' =>
            (if b0 =? 224 then between 160 191 b1
             else if b0 =? 237 then between 128 159 b1
             else is_cont b1)
            && is_cont b2 && valid rest'
        | _ => false
        end
      else if between 240 244 b0 then
        match rest with
        | b1 :: b2 :: b3 :: rest' =>
            (if b0 =? 240 then between 144 191 b1
             else if b0 =? 244 then between 128 143 b1
             else is_cont b1)
            && is_cont b2 && is_cont b3 && valid rest'
        | _ => false
        end
      else false
  end.

(** [bytes.decode('utf-8')] *)
Definition decode (bs : bytes) : result str :=
  if valid (Text.of_bytes bs) then Ok (string_of_list_byte bs)
  else Raised UnicodeDecodeError.

(** The code units of one code point. *)
Definition encode_code_point (cp : Z) : list Z :=
  if cp <? 128 then [cp]
  else if cp <? 2048 then [192 + cp / 64; 128 + cp mod 64]
  else if cp <? 65536 then [224 + cp / 4096; 128 + (cp / 64) mod 64; 128 + cp mod 64]
  else [240 + cp / 262144; 128 + (cp / 4096) mod 64; 128 + (cp / 64) mod 64;
        128 + cp mod 64].

(** The first code point of a text and the rest of it. *)
Definition next_code_point (cs : list Z) : option (Z * list Z) :=
  match cs with
  | [] => None
  | b0 :: rest =>
      if b0 <? 192 then Some (b0, rest)
      else if b0 <? 224 then
        match rest with
        | b1 :: rest' => Some ((b0 - 192) * 64 + (b1 - 128), rest')
        | _ => Some (b0, rest)
        end
      else if b0 <? 240 then
        match rest with
        | b1 :: b2 :: rest' =>
            Some ((b0 - 224) * 4096 + (b1 - 128) * 64 + (b2 - 128), rest')
        | _ => Some (b0, rest)
        end
      else
        match rest with
        | b1 :: b2 :: b3 :: rest' =>
            Some ((b0 - 240) * 262144 + (b1 - 128) * 4096 + (b2 - 128) * 64
                  + (b3 - 128), rest')
        | _ => Some (b0, rest)
        end
  end.

End Utf8.

Module PyFloat.

(** [float(text)] for the decimal [m * 10^e] with sign [neg]: the nearest
    binary64, ties to even; out of range gives an infinity. *)
Definition of_decimal (neg : bool) (m e : Z) : float :=
  if m =? 0 then S754_zero neg
  else
    let sm := if neg then - m else m in
    match e with
    | Zneg _ => SFdiv prec emax (Z2SF sm) (Z2SF (10 ^ (- e)))
    | _ => binary_normalize prec emax (sm * 10 ^ e) 0 false
    end.

Definition float_eqb (a b : float) : bool :=
  match a, b with
  | S754_zero s, S754_zero s' => Bool.eqb s s'
  | S754_infinity s, S754_infinity s' => Bool.eqb s s'
  | S754_nan, S754_nan => true
  | S754_finite s m e, S754_finite s' m' e' =>
      Bool.eqb s s' && Pos.eqb m m' && (e =? e')
  | _, _ => false
  end.

(** The exact value of a positive finite float as a fraction. *)
Definition fraction (m : positive) (e : Z) : Z * Z :=
  match e with
  | Zneg _ => (Zpos m, 2 ^ (- e))
  | _ => (Zpos m * 2 ^ e, 1)
  end.

(** [scaled num den j] is [num / den * 10^j] as a fraction. *)
Definition scaled (num den j : Z) : Z * Z :=
  match j with
  | Zneg _ => (num, den * 10 ^ (- j))
  | _ => (num * 10 ^ j, den)
  end.

(** The [p] with [10^(p-1) <= num/den < 10^p]. *)
Fixpoint decimal_point_below (fuel : nat) (num den j : Z) : Z :=
  match fuel with
  | O => 1 - j
  | S fuel' =>
      if den <=? num * 10 ^ j then 1 - j
      else decimal_point_below fuel' num den (j + 1)
  end.

Definition decimal_point (num den : Z) : Z :=
  if den <=? num
  then Z.of_nat (String.length (Text.decimal (num / den)))
  else decimal_point_below 400 num den 1.

Fixpoint strip_trailing_zeros_rev (ds : list Z) : list Z :=
  match ds with
  | 48 :: rest => strip_trailing_zeros_rev rest
  | _ => ds
  end.

Definition strip_trailing_zeros (ds : list Z) : list Z :=
  match rev (strip_trailing_zeros_rev (rev ds)) with
  | [] => [48]
  | ds' => ds'
  end.

(** The shortest digit string that reads back as the float: for
    [k = 1, 2, ...] digits, the two [k]-digit decimals around the value,
    the nearer first. The result is (digits, decimal point). *)
Fixpoint shortest_digits (fuel : nat) (k : Z) (m : positive) (e : Z) (p : Z)
    : list Z * Z :=
  let '(num, den) := fraction m e in
  let '(n, d) := scaled num den (k - p) in
  let lo := n / d in
  let r := n mod d in
  let hi := lo + 1 in
  let nearer_first :=
    if 2 * r <? d then [lo; hi]
    else if d <? 2 * r then [hi; lo]
    else if Z.even lo then [lo; hi] else [hi; lo] in
  let reads_back c :=
    float_eqb (of_decimal false c (p - k)) (S754_finite false m e) in
  match filter reads_back nearer_first with
  | c :: _ =>
      let ds := Text.codes (Text.decimal c) in
      (strip_trailing_zeros ds, p + (Z.of_nat (length ds) - k))
  | [] =>
      match fuel with
      | O => ([48], 1)
      | S fuel' => shortest_digits fuel' (k + 1) m e p
      end
  end.

Definition zeros (n : Z) : list Z := repeat 48 (Z.to_nat n).

(** [repr(f)] *)
Definition repr (f : float) : str :=
  match f with
  | S754_nan => "nan"
  | S754_infinity s => if s then "-inf" else "inf"
  | S754_zero s => if s then "-0.0" else "0.0"
  | S754_finite s m e =>
      let '(num, den) := fraction m e in
      let '(ds, decpt) := shortest_digits 17 1 m e (decimal_point num den) in
      let n := Z.of_nat (length ds) in
      let body :=
        if (decpt <=? -4) || (16 <? decpt) then
          let ex := decpt - 1 in
          let mant := match ds with
                      | [d] => [d]
                      | d :: rest => d :: 46 :: rest
                      | [] => []
                      end in
          let ex_digits := Text.codes (Text.decimal (Z.abs ex)) in
          mant ++ [101; if ex <? 0 then 45 else 43]
               ++ (if Z.abs ex <? 10 then [48] else []) ++ ex_digits
        else if decpt <=? 0 then [48; 46] ++ zeros (- decpt) ++ ds
        else if n <=? decpt then ds ++ zeros (decpt - n) ++ [46; 48]
        else firstn (Z.to_nat decpt) ds ++ [46] ++ skipn (Z.to_nat decpt) ds in
      Text.of_codes ((if s then [45] else []) ++ body)
  end.

End PyFloat.

Module Json.

Definition is_ws (c : Z) : bool :=
  (c =? 32) || (c =? 9) || (c =? 10) || (c =? 13).

Fixpoint skip_ws (cs : list Z) : list Z :=
  match cs with
  | c :: rest => if is_ws c then skip_ws rest else cs
  | [] => []
  end.

Definition hex_digit (c : Z) : option Z :=
  if Text.is_digit c then Some (c - 48)
  else if (97 <=? c) && (c <=? 102) then Some (c - 87)
  else if (65 <=? c) && (c <=? 70) then Some (c - 55)
  else None.

(** The four hex digits of a [\uXXXX] escape. *)
Definition hex4 (cs : list Z) : option (Z * list Z) :=
  match cs with
  | a :: b :: c :: d :: rest =>
      match hex_digit a, hex_digit b, hex_digit c, hex_digit d with
      | Some x, Some y, Some z, Some w =>
          Some (((x * 16 + y) * 16 + z) * 16 + w, rest)
      | _, _, _, _ => None
      end
  | _ => None
  end.

Definition simple_escape (c : Z) : option Z :=
  if (c =? 34) || (c =? 92) || (c =? 47) then Some c
  else if c =? 98 then Some 8
  else if c =? 102 then Some 12
  else if c =? 110 then Some 10
  else if c =? 114 then Some 13
  else if c =? 116 then Some 9
  else None.

(** A string body up to its closing quote (strict mode: no raw control
    characters); [acc] holds the text read so far, reversed. *)
Fixpoint scan_string (fuel : nat) (cs : list Z) (acc : list Z)
    : option (str * list Z) :=
  match fuel with
  | O => None
  | S fuel' =>
      match cs with
      | [] => None
      | c :: rest =>
          if c =? 34 then Some (Text.of_codes (rev acc), rest)
          else if c <? 32 then None
          else if c =? 92 then
            match rest with
            | [] => None
            | e :: rest' =>
                if e =? 117 then
                  match hex4 rest' with
                  | None => None
                  | Some (u, rest'') =>
                      let pair :=
                        if (55296 <=? u) && (u <=? 56319) then
                          match rest'' with
                          | 92 :: 117 :: more =>
                              match hex4 more with
                              | Some (u2, rest3) =>
                                  if (56320 <=? u2) && (u2 <=? 57343)
                                  then Some (65536 + (u - 55296) * 1024 + (u2 - 56320),
                                             rest3)
                                  else None
                              | None => None
                              end
                          | _ => None
                          end
                        else None in
                      let '(cp, next) := match pair with
                                         | Some r => r
                                         | None => (u, rest'')
                                         end in
                      scan_string fuel' next (rev (Utf8.encode_code_point cp) ++ acc)
                  end
                else
                  match simple_escape e with
                  | Some ch => scan_string fuel' rest' (ch :: acc)
                  | None => None
                  end
            end
          else scan_string fuel' rest (c :: acc)
      end
  end.

(** A number: an optional minus sign, an integer part without leading
    zeros, an optional fraction and an optional exponent, each with at
    least one digit; an [int] when it has neither fraction nor exponent,
    else a [float]. *)
Definition scan_number (cs : list Z) : option (json * list Z) :=
  let '(neg, cs1) := match cs with
                     | 45 :: rest => (true, rest)
                     | _ => (false, cs)
                     end in
  let int_part :=
    match cs1 with
    | 48 :: rest => Some ([48], rest)
    | c :: _ => if Text.is_digit c then Some (Text.take_digits cs1) else None
    | [] => None
    end in
  match int_part with
  | None => None
  | Some (ids, rest) =>
      let '(fds, rest) := match rest with
                          | 46 :: r =>
                              match Text.take_digits r with
                              | ([], _) => ([], rest)
                              | (ds, r') => (ds, r')
                              end
                          | _ => ([], rest)
                          end in
      let '(ex, rest) := match rest with
                         | c :: r =>
                             if (c =? 101) || (c =? 69) then
                               let '(eneg, r1) := match r with
                                                  | 45 :: r' => (true, r')
                                                  | 43 :: r' => (false, r')
                                                  | _ => (false, r)
                                                  end in
                               match Text.take_digits r1 with
                               | ([], _) => (None, rest)
                               | (eds, r') =>
                                   (Some (if eneg then - Text.digits_value eds
                                          else Text.digits_value eds), r')
                               end
                             else (None, rest)
                         | [] => (None, rest)
                         end in
      match fds, ex with
      | [], None =>
          let n := Text.digits_value ids in
          Some (JInt (if neg then - n else n), rest)
      | _, _ =>
          let e := match ex with Some e => e | None => 0 end in
          Some (JFloat (PyFloat.of_decimal neg (Text.digits_value (ids ++ fds))
                          (e - Z.of_nat (length fds))), rest)
      end
  end.

(** One JSON value at the head of [cs], and the text after it. Keys that
    repeat keep the position of the first and the value of the last. *)
Fixpoint scan_value (fuel : nat) (cs : list Z) : option (json * list Z) :=
  match fuel with
  | O => None
  | S fuel' =>
      match cs with
      | [] => None
      | c :: rest =>
          if c =? 34 then
            match scan_string (S (length rest)) rest [] with
            | Some (s, rest') => Some (JStr s, rest')
            | None => None
            end
          else if c =? 123 then
            match skip_ws rest with
            | 125 :: rest' => Some (JDict [], rest')
            | rest' => scan_members fuel' rest' []
            end
          else if c =? 91 then
            match skip_ws rest with
            | 93 :: rest' => Some (JList [], rest')
            | rest' => scan_items fuel' rest' []
            end
          else
            match Text.strip_prefix (Text.codes "null") cs,
                  Text.strip_prefix (Text.codes "true") cs,
                  Text.strip_prefix (Text.codes "false") cs,
                  Text.strip_prefix (Text.codes "NaN") cs,
                  Text.strip_prefix (Text.codes "Infinity") cs,
                  Text.strip_prefix (Text.codes "-Infinity") cs with
            | Some r, _, _, _, _, _ => Some (JNone, r)
            | _, Some r, _, _, _, _ => Some (JBool true, r)
            | _, _, Some r, _, _, _ => Some (JBool false, r)
            | _, _, _, Some r, _, _ => Some (JFloat S754_nan, r)
            | _, _, _, _, Some r, _ => Some (JFloat (S754_infinity false), r)
            | _, _, _, _, _, Some r => Some (JFloat (S754_infinity true), r)
            | _, _, _, _, _, _ => scan_number cs
            end
      end
  end
with scan_items (fuel : nat) (cs : list Z) (acc : list json)
    : option (json * list Z) :=
  match fuel with
  | O => None
  | S fuel' =>
      match scan_value fuel' cs with
      | None => None
      | Some (v, rest) =>
          match skip_ws rest with
          | 93 :: rest' => Some (JList (rev (v :: acc)), rest')
          | 44 :: rest' => scan_items fuel' (skip_ws rest') (v :: acc)
          | _ => None
          end
      end
  end
with scan_members (fuel : nat) (cs : list Z) (acc : dict)
    : option (json * list Z) :=
  match fuel with
  | O => None
  | S fuel' =>
      match cs with
      | 34 :: rest =>
          match scan_string (S (length rest)) rest [] with
          | None => None
          | Some (k, rest1) =>
              match skip_ws rest1 with
              | 58 :: rest2 =>
                  match scan_value fuel' (skip_ws rest2) with
                  | None => None
                  | Some (v, rest3) =>
                      let acc' := dict_set acc k v in
                      match skip_ws rest3 with
                      | 125 :: rest' => Some (JDict acc', rest')
                      | 44 :: rest' => scan_members fuel' (skip_ws rest') acc'
                      | _ => None
                      end
                  end
              | _ => None
              end
          end
      | _ => None
      end
  end.

(** [json.loads(s)] *)
Definition loads (s : str) : result json :=
  let cs := Text.codes s in
  match scan_value (S (length cs)) (skip_ws cs) with
  | Some (v, rest) =>
      match skip_ws rest with
      | [] => Ok v
      | _ => Raised JSONDecodeError
      end
  | None => Raised JSONDecodeError
  end.

Definition hex_char (d : Z) : Z := if d <? 10 then 48 + d else 87 + d.

(** [\uXXXX] *)
Definition u_escape (u : Z) : list Z :=
  [92; 117; hex_char (u / 4096); hex_char ((u / 256) mod 16);
   hex_char ((u / 16) mod 16); hex_char (u mod 16)].

Definition escape_code_point (cp : Z) : list Z :=
  if cp =? 34 then [92; 34]
  else if cp =? 92 then [92; 92]
  else if cp =? 10 then [92; 110]
  else if cp =? 13 then [92; 114]
  else if cp =? 9 then [92; 116]
  else if cp =? 8 then [92; 98]
  else if cp =? 12 then [92; 102]
  else if (32 <=? cp) && (cp <=? 126) then [cp]
  else if cp <? 65536 then u_escape cp
  else u_escape (55296 + (cp - 65536) / 1024) ++ u_escape (56320 + (cp - 65536) mod 1024).

Fixpoint escape (fuel : nat) (cs : list Z) : list Z :=
  match fuel with
  | O => []
  | S fuel' =>
      match Utf8.next_code_point cs with
      | None => []
      | Some (cp, rest) => escape_code_point cp ++ escape fuel' rest
      end
  end.

(** A [str] as a JSON string, with [ensure_ascii]. *)
Definition dumps_str (s : str) : list Z :=
  let cs := Text.codes s in [34] ++ escape (length cs) cs ++ [34].

Definition dumps_float (f : float) : list Z :=
  match f with
  | S754_nan => Text.codes "NaN"
  | S754_infinity s => Text.codes (if s then "-Infinity" else "Infinity")
  | _ => Text.codes (PyFloat.repr f)
  end.

Definition comma_join (parts : list (list Z)) : list Z :=
  match parts with
  | [] => []
  | p :: rest => p ++ flat_map (fun q => [44; 32] ++ q) rest
  end.

(** The text of a value with the default separators [", "] and [": "]. *)
Fixpoint dumps_codes (v : json) : list Z :=
  match v with
  | JNone => Text.codes "null"
  | JBool b => Text.codes (if b then "true" else "false")
  | JInt n => Text.codes (Text.decimal n)
  | JFloat f => dumps_float f
  | JStr s => dumps_str s
  | JList items => [91] ++ comma_join (map dumps_codes items) ++ [93]
  | JDict entries =>
      [123]
      ++ comma_join (map (fun kv => dumps_str (fst kv) ++ [58; 32] ++ dumps_codes (snd kv))
                       entries)
      ++ [125]
  end.

(** [json.dumps(obj)] *)
Definition dumps (v : json) : str := Text.of_codes (dumps_codes v).

End Json.

Module PyInt.

(** The ASCII white space that [int] skips. *)
Definition is_space (c : Z) : bool :=
  (c =? 32) || ((9 <=? c) && (c <=? 13)).

Fixpoint lstrip (cs : list Z) : list Z :=
  match cs with
  | c :: rest => if is_space c then lstrip rest else cs
  | [] => []
  end.

Definition strip (cs : list Z) : list Z := rev (lstrip (rev (lstrip cs))).

(** Digits, single underscores allowed between them. *)
Fixpoint digits (cs : list Z) (acc : Z) (after_digit : bool) : option Z :=
  match cs with
  | [] => if after_digit then Some acc else None
  | c :: rest =>
      if Text.is_digit c then digits rest (10 * acc + (c - 48)) true
      else if (c =? 95) && after_digit then
        match rest with
        | d :: _ => if Text.is_digit d then digits rest acc false else None
        | [] => None
        end
      else None
  end.

(** [int(s)] for an ASCII [s]: optional surrounding white space, an
    optional sign, decimal digits. *)
Definition of_str (s : str) : result Z :=
  let cs := strip (Text.codes s) in
  let '(neg, ds) := match cs with
                    | 45 :: rest => (true, rest)
                    | 43 :: rest => (false, rest)
                    | _ => (false, cs)
                    end in
  match digits ds 0 false with
  | Some n => Ok (if neg then - n else n)
  | None => Raised ValueError
  end.

End PyInt.

Module Gzip.

(** The bits of the stream, least significant bit of each byte first. *)
Definition bits_of_byte (b : Z) : list Z :=
  map (fun i => (b / 2 ^ i) mod 2) [0; 1; 2; 3; 4; 5; 6; 7].

Definition bits_of (bs : list Z) : list Z := flat_map bits_of_byte bs.

(** An [n]-bit field, least significant bit first. *)
Fixpoint take_bits (n : nat) (bits : list Z) : option (Z * list Z) :=
  match n with
  | O => Some (0, bits)
  | S n' =>
      match bits with
      | [] => None
      | b :: rest =>
          match take_bits n' rest with
          | Some (v, rest') => Some (b + 2 * v, rest')
          | None => None
          end
      end
  end.

(** Skip to the next byte boundary. *)
Definition align (bits : list Z) : list Z :=
  skipn (Nat.modulo (length bits) 8) bits.

Fixpoint take_bytes (n : nat) (bits : list Z) (out : list Z)
    : option (list Z * list Z) :=
  match n with
  | O => Some (out, bits)
  | S n' =>
      match take_bits 8 bits with
      | Some (b, rest) => take_bytes n' rest (b :: out)
      | None => None
      end
  end.

(** A canonical Huffman code: how many symbols have each length 1..15,
    and the symbols ordered by length, then by value. *)
Record table : Type := {
  counts : list Z;
  symbols : list Z
}.

Definition code_lengths : list Z := [1; 2; 3; 4; 5; 6; 7; 8; 9; 10; 11; 12; 13; 14; 15].

Definition with_index (lengths : list Z) : list (Z * Z) :=
  combine (map Z.of_nat (seq 0 (length lengths))) lengths.

Definition symbols_of_length (lengths : list Z) (l : Z) : list Z :=
  map fst (filter (fun il => snd il =? l) (with_index lengths)).

(** Whether the lengths over-subscribe the code space. *)
Fixpoint over_subscribed (cs : list Z) (left : Z) : bool :=
  match cs with
  | [] => false
  | c :: rest =>
      let left := 2 * left - c in
      if left <? 0 then true else over_subscribed rest left
  end.

Definition construct (lengths : list Z) : option table :=
  let cs := map (fun l => Z.of_nat (length (symbols_of_length lengths l))) code_lengths in
  if over_subscribed cs 1 then None
  else Some {| counts := cs;
               symbols := flat_map (symbols_of_length lengths) code_lengths |}.

(** One symbol: the code is read a bit at a time, most significant bit
    first. *)
Fixpoint decode_from (cs : list Z) (syms : list Z) (bits : list Z)
    (code first index : Z) : option (Z * list Z) :=
  match cs with
  | [] => None
  | count :: cs' =>
      match bits with
      | [] => None
      | b :: rest =>
          let code := code + b in
          if code - count <? first
          then match nth_error syms (Z.to_nat (index + (code - first))) with
               | Some sym => Some (sym, rest)
               | None => None
               end
          else decode_from cs' syms rest (2 * code) (2 * (first + count)) (index + count)
      end
  end.

Definition decode (t : table) (bits : list Z) : option (Z * list Z) :=
  decode_from (counts t) (symbols t) bits 0 0 0.

Definition length_base : list Z :=
  [3; 4; 5; 6; 7; 8; 9; 10; 11; 13; 15; 17; 19; 23; 27; 31; 35; 43; 51; 59; 67; 83;
   99; 115; 131; 163; 195; 227; 258].
Definition length_extra : list Z :=
  [0; 0; 0; 0; 0; 0; 0; 0; 1; 1; 1; 1; 2; 2; 2; 2; 3; 3; 3; 3; 4; 4; 4; 4; 5; 5; 5; 5; 0].
Definition dist_base : list Z :=
  [1; 2; 3; 4; 5; 7; 9; 13; 17; 25; 33; 49; 65; 97; 129; 193; 257; 385; 513; 769;
   1025; 1537; 2049; 3073; 4097; 6145; 8193; 12289; 16385; 24577].
Definition dist_extra : list Z :=
  [0; 0; 0; 0; 1; 1; 2; 2; 3; 3; 4; 4; 5; 5; 6; 6; 7; 7; 8; 8; 9; 9; 10; 10; 11; 11;
   12; 12; 13; 13].

(** Append [len] bytes, each a copy of the byte [dist] back; [out] is the
    output so far, newest byte first. *)
Fixpoint copy (len : nat) (dist : nat) (out : list Z) : list Z :=
  match len with
  | O => out
  | S len' => copy len' dist (nth (dist - 1) out 0 :: out)
  end.

(** The literals and matches of one compressed block. *)
Fixpoint inflate_codes (fuel : nat) (lt dt : table) (bits : list Z) (out : list Z)
    : option (list Z * list Z) :=
  match fuel with
  | O => None
  | S fuel' =>
      match decode lt bits with
      | None => None
      | Some (sym, bits) =>
          if sym <? 256 then inflate_codes fuel' lt dt bits (sym :: out)
          else if sym =? 256 then Some (out, bits)
          else
            let i := Z.to_nat (sym - 257) in
            match nth_error length_base i, nth_error length_extra i with
            | Some lb, Some le =>
                match take_bits (Z.to_nat le) bits with
                | None => None
                | Some (eb, bits) =>
                    match decode dt bits with
                    | None => None
                    | Some (ds, bits) =>
                        match nth_error dist_base (Z.to_nat ds),
                              nth_error dist_extra (Z.to_nat ds) with
                        | Some db, Some de =>
                            match take_bits (Z.to_nat de) bits with
                            | None => None
                            | Some (xb, bits) =>
                                let dist := Z.to_nat (db + xb) in
                                if (length out <? dist)%nat then None
                                else inflate_codes fuel' lt dt bits
                                       (copy (Z.to_nat (lb + eb)) dist out)
                            end
                        | _, _ => None
                        end
                    end
                end
            | _, _ => None
            end
      end
  end.

Definition fixed_lengths : list Z :=
  repeat 8 144 ++ repeat 9 112 ++ repeat 7 24 ++ repeat 8 8.

Definition fixed_dist_lengths : list Z := repeat 5 30.

Definition code_length_order : list Z :=
  [16; 17; 18; 0; 8; 7; 9; 6; 10; 5; 11; 4; 12; 3; 13; 2; 14; 1; 15].

Fixpoint read_fields (n : nat) (width : nat) (bits : list Z)
    : option (list Z * list Z) :=
  match n with
  | O => Some ([], bits)
  | S n' =>
      match take_bits width bits with
      | None => None
      | Some (v, rest) =>
          match read_fields n' width rest with
          | Some (vs, rest') => Some (v :: vs, rest')
          | None => None
          end
      end
  end.

(** The literal/length and distance code lengths of a dynamic block,
    newest first in [acc]. *)
Fixpoint read_lengths (fuel : nat) (lencode : table) (total : nat) (bits : list Z)
    (acc : list Z) : option (list Z * list Z) :=
  if (total <=? length acc)%nat then Some (rev acc, bits)
  else
    match fuel with
    | O => None
    | S fuel' =>
        match decode lencode bits with
        | None => None
        | Some (sym, bits) =>
            if sym <? 16 then read_lengths fuel' lencode total bits (sym :: acc)
            else
              let '(width, base, value) :=
                if sym =? 16 then (2%nat, 3, match acc with l :: _ => Some l | [] => None end)
                else if sym =? 17 then (3%nat, 3, Some 0)
                else (7%nat, 11, Some 0) in
              match value, take_bits width bits with
              | Some l, Some (extra, bits) =>
                  let n := Z.to_nat (base + extra) in
                  if (total <? length acc + n)%nat then None
                  else read_lengths fuel' lencode total bits (repeat l n ++ acc)
              | _, _ => None
              end
        end
    end.

Definition dynamic_tables (bits : list Z) : option (table * table * list Z) :=
  match take_bits 5 bits with
  | None => None
  | Some (hlit, bits) =>
      match take_bits 5 bits with
      | None => None
      | Some (hdist, bits) =>
          match take_bits 4 bits with
          | None => None
          | Some (hclen, bits) =>
              let nlen := Z.to_nat (hlit + 257) in
              let ndist := Z.to_nat (hdist + 1) in
              if (286 <? nlen)%nat || (30 <? ndist)%nat then None
              else
                match read_fields (Z.to_nat (hclen + 4)) 3 bits with
                | None => None
                | Some (cls, bits) =>
                    let by_symbol :=
                      map (fun sym =>
                             match filter (fun ol => fst ol =? sym)
                                     (combine code_length_order cls) with
                             | ol :: _ => snd ol
                             | [] => 0
                             end)
                          (map Z.of_nat (seq 0 19)) in
                    match construct by_symbol with
                    | None => None
                    | Some lencode =>
                        match read_lengths (nlen + ndist) lencode (nlen + ndist) bits [] with
                        | None => None
                        | Some (lengths, bits) =>
                            if nth 256 lengths 0 =? 0 then None
                            else
                              match construct (firstn nlen lengths),
                                    construct (skipn nlen lengths) with
                              | Some lt, Some dt => Some (lt, dt, bits)
                              | _, _ => None
                              end
                        end
                    end
                end
          end
      end
  end.

(** The blocks of a DEFLATE stream: stored (0), fixed codes (1), dynamic
    codes (2). *)
Fixpoint inflate_blocks (fuel : nat) (bits : list Z) (out : list Z)
    : option (list Z * list Z) :=
  match fuel with
  | O => None
  | S fuel' =>
      match take_bits 1 bits with
      | None => None
      | Some (final, bits) =>
          match take_bits 2 bits with
          | None => None
          | Some (btype, bits) =>
              let block :=
                if btype =? 0 then
                  match take_bits 16 (align bits) with
                  | None => None
                  | Some (len, bits) =>
                      match take_bits 16 bits with
                      | None => None
                      | Some (nlen, bits) =>
                          if len + nlen =? 65535
                          then take_bytes (Z.to_nat len) bits out
                          else None
                      end
                  end
                else if btype =? 1 then
                  match construct fixed_lengths, construct fixed_dist_lengths with
                  | Some lt, Some dt => inflate_codes (length bits) lt dt bits out
                  | _, _ => None
                  end
                else if btype =? 2 then
                  match dynamic_tables bits with
                  | Some (lt, dt, bits) => inflate_codes (length bits) lt dt bits out
                  | None => None
                  end
                else None in
              match block with
              | None => None
              | Some (out, bits) =>
                  if final =? 1 then Some (out, bits)
                  else inflate_blocks fuel' bits out
              end
          end
      end
  end.

(** CRC-32 (polynomial 0xEDB88320, reflected). *)
Definition crc32_byte (crc b : Z) : Z :=
  fold_left (fun c _ => if Z.odd c then Z.lxor (Z.shiftr c 1) 3988292384
                        else Z.shiftr c 1)
            (repeat tt 8) (Z.lxor crc b).

Definition crc32 (data : list Z) : Z :=
  Z.lxor (fold_left crc32_byte data 4294967295) 4294967295.

Fixpoint skip_zero_terminated (bs : list Z) : option (list Z) :=
  match bs with
  | [] => None
  | b :: rest => if b =? 0 then Some rest else skip_zero_terminated rest
  end.

Definition skip_if (flag : bool) (f : list Z -> option (list Z)) (bs : list Z)
    : option (list Z) :=
  if flag then f bs else Some bs.

(** The member header: magic 1f 8b, method 8, flags, and the optional
    fields the flags announce. *)
Definition skip_header (bs : list Z) : option (list Z) :=
  match bs with
  | 31 :: 139 :: 8 :: flg :: _ :: _ :: _ :: _ :: _ :: _ :: rest =>
      let flag i := Z.testbit flg i in
      match skip_if (flag 2)
              (fun bs => match bs with
                         | lo :: hi :: more =>
                             let n := Z.to_nat (lo + 256 * hi) in
                             if (length more <? n)%nat then None else Some (skipn n more)
                         | _ => None
                         end) rest with
      | None => None
      | Some rest =>
          match skip_if (flag 3) skip_zero_terminated rest with
          | None => None
          | Some rest =>
              match skip_if (flag 4) skip_zero_terminated rest with
              | None => None
              | Some rest =>
                  skip_if (flag 1)
                    (fun bs => match bs with _ :: _ :: more => Some more | _ => None end)
                    rest
              end
          end
      end
  | _ => None
  end.

Fixpoint skip_zeros (bs : list Z) : list Z :=
  match bs with
  | 0 :: rest => skip_zeros rest
  | _ => bs
  end.

(** The members of a gzip file, one after the other; each ends with the
    CRC-32 and the length of its data. *)
Fixpoint members (fuel : nat) (bs : list Z) (out : list Z) : option (list Z) :=
  match fuel with
  | O => None
  | S fuel' =>
      match bs with
      | [] => Some out
      | _ =>
          match skip_header bs with
          | None => None
          | Some rest =>
              let bits := bits_of rest in
              match inflate_blocks (S (length bits)) bits [] with
              | None => None
              | Some (data_rev, bits) =>
                  let data := rev data_rev in
                  match take_bits 32 (align bits) with
                  | None => None
                  | Some (crc, bits) =>
                      match take_bits 32 bits with
                      | None => None
                      | Some (isize, bits) =>
                          if (crc =? crc32 data)
                             && (isize =? Z.of_nat (length data) mod 4294967296)
                          then members fuel' (skip_zeros (skipn (length rest - length bits / 8)
                                                            rest))
                                 (out ++ data)
                          else None
                      end
                  end
              end
          end
      end
  end.

(** [gzip.decompress(data)] *)
Definition decompress (data : bytes) : result bytes :=
  let bs := Text.of_bytes data in
  match members (S (length bs)) bs [] with
  | Some out =>
      Ok (omap (fun z => Byte.of_N (Z.to_N z)) out)
  | None => Raised BadGzipFile
  end.

(** The bytes written as hexadecimal digits. *)
Fixpoint unhex (cs : list Z) : bytes :=
  match cs with
  | a :: b :: rest =>
      match Json.hex_digit a, Json.hex_digit b with
      | Some x, Some y =>
          match Byte.of_N (Z.to_N (16 * x + y)) with
          | Some byte => byte :: unhex rest
          | None => []
          end
      | _, _ => []
      end
  | _ => []
  end.

End Gzip.

(** The runtime made of these models. *)
#[global] Instance sample_runtime : PyRuntime := {|
  gzip_decompress := Gzip.decompress;
  decode_utf8 := Utf8.decode;
  json_loads := Json.loads;
  json_dumps := Json.dumps;
  int_of_str := PyInt.of_str
|}.

(** ** Reading a trace *)

(** The delivery tags acknowledged in a trace, in order. *)
Fixpoint acked (t : list event) : list Z :=
  match t with
  | [] => []
  | BasicAck tag :: rest => tag :: acked rest
  | _ :: rest => acked rest
  end.

(** The requests posted in a trace, in order. *)
Fixpoint posted (t : list event) : list request :=
  match t with
  | [] => []
  | Post req :: rest => req :: posted rest
  | _ :: rest => posted rest
  end.

(** The metrics put on the result queue in a trace, in order. *)
Fixpoint metrics (t : list event) : list (Z * nat) :=
  match t with
  | [] => []
  | QueuePut process_num session_count :: rest =>
      (process_num, session_count) :: metrics rest
  | _ :: rest => metrics rest
  end.

(** A status that [raise_for_status] rejects: 4xx or 5xx. *)
Definition error_status (code : Z) : Prop := 400 <= code < 600.

(** A 2xx status. *)
Definition success_status (code : Z) : Prop := 200 <= code < 300.

(** The lines a debugging worker prints before it parses. *)
Definition debug_lines (cfg : config) (json_str : str) : list event :=
  if debug cfg then [Print (LogSending json_str)] else [].

(** The line a verbose worker prints after a delivery. *)
Definition verbose_lines (cfg : config) : list event :=
  if verbose cfg then [Print LogDot] else [].

(** The number of JSON values a parsed body carries: the length of a
    list, one for anything else. *)
Definition json_count (v : json) : nat :=
  match v with
  | JList items => length items
  | _ => 1%nat
  end.

(** [isinstance(x, dict)] *)
Definition is_dict (x : json) : bool :=
  match x with JDict _ => true | _ => false end.

(** Concatenation with nothing in between. *)
Definition concat_no_separator (parts : list str) : str :=
  fold_right String.append "" parts.

(** ** The stages of a delivery *)

Section Stages.
Context `{PyRuntime}.

(** The [time] entry of a record, when the payload has [device_time]. *)
Definition time_field (d : dict) : result dict :=
  match dict_get d "device_time" with
  | None => Ok []
  | Some x =>
      (n <-? py_int x;
       t <-? py_true_div n 1000;
       Ok [("time", JFloat t)])%res
  end.

(** The entry [to] of a record, copied from the payload's entry [from]
    when it has one. *)
Definition copied_field (d : dict) (from to : str) : dict :=
  match dict_get d from with
  | Some v => [(to, v)]
  | None => []
  end.

(** The batch of a message: what [send_to_splunk] has computed when it
    posts (consumer.py:145-164), as the parsed elements and their
    serialised records. *)
Definition delivery_batch (content_encoding : option str) (body : bytes)
    : result (list json * list str) :=
  (json_str <-? decode_body content_encoding body;
   json_data <-? load_events json_str;
   events <-? event_list json_data;
   Ok (json_data, events))%res.

End Stages.

(** ** The aggregator's run *)

(** The records delivered that a run of metrics reports in all. *)
Definition sessions_of (inputs : list ((Z * nat) * Z)) : Z :=
  fold_right (fun i acc => Z.of_nat (snd (fst i)) + acc) 0 inputs.

(** The counters of a run from the start: the window never runs ahead of
    the totals. *)
Definition window_within_totals (st : AggregateState) : Prop :=
  0 <= last_total_msg_count st <= total_msg_count st
  /\ 0 <= last_total_session_count st <= total_session_count st.

(** ** The provisioned broker *)

(** The attributes [start] declares the exchange and the queue with. *)
Definition declared_exchange : exchange_decl :=
  {| exchange_type := "direct"; exchange_durable := true;
     exchange_auto_delete := false; exchange_internal := false |}.

Definition declared_queue : queue_decl :=
  {| queue_durable := false; queue_exclusive := false; queue_auto_delete := false |}.

(** What a successful launch leaves on the broker. *)
Definition provisioned (cfg : config) (b : broker) : Prop :=
  listening b = true
  /\ users b !! rabbitmq_user cfg = Some (rabbitmq_password cfg)
  /\ rabbitmq_vhost cfg ∈ vhosts b
  /\ exchanges b !! (rabbitmq_vhost cfg, rabbitmq_exchange cfg) = Some declared_exchange
  /\ queues b !! (rabbitmq_vhost cfg, rabbitmq_exchange cfg +:+ "_q") = Some declared_queue
  /\ (rabbitmq_vhost cfg, rabbitmq_exchange cfg +:+ "_q", rabbitmq_exchange cfg, "")
       ∈ bindings b.

(** ** Sample data *)

Definition sample_config : config :=
  {| rabbitmq_user := "guest";
     rabbitmq_password := "guest";
     rabbitmq_server := "localhost";
     rabbitmq_amqp_port := "5672";
     rabbitmq_http_port := "15672";
     rabbitmq_vhost := "dx";
     rabbitmq_exchange := "alerts";
     splunk_url := "https://splunk.example:8088/services/collector";
     splunk_token := "00000000-0000-0000-0000-000000000000";
     threads := 2;
     verbose := false;
     debug := false |}.

Definition sample_worker : RabbitToSplunk :=
  {| self_config := sample_config; self_process_num := 0 |}.

(** An endpoint that answers every request with the same status. *)
Definition always (code : Z) (why : str) : endpoint :=
  fun _ => Ok {| status_code := code; reason := why |}.

(** An endpoint that cannot be reached. *)
Definition unreachable : endpoint :=
  fun _ => Raised (RequestException "ConnectionError").

(** An identity-tagged message with the given text as its body. *)
Definition plain_message (tag : Z) (text : str) : RawMessage :=
  {| delivery_tag := tag; content_encoding := None; body := Text.encode text |}.

(** A message with three objects. *)
Definition three_events_text : str :=
  Text.dq "[{'device_time': 1500000, 'device_name': 'sa-1', 'product_name': 'Security Analytics'}, {'a': 1}, {'device_time': '1500000'}]".

Definition three_events : RawMessage := plain_message 7 three_events_text.

(** What the worker posts for it. *)
Definition three_events_wire : str :=
  Text.dq "{'event': {'device_time': 1500000, 'device_name': 'sa-1', 'product_name': 'Security Analytics'}, 'time': 1500.0, 'host': 'sa-1', 'source': 'Security Analytics'}{'event': {'a': 1}}{'event': {'device_time': '1500000'}, 'time': 1500.0}".

(** The same text as [gzip.compress] writes it (level 9, no time stamp). *)
Definition three_events_gzip : bytes :=
  Gzip.unhex (Text.codes
    "1f8b08000000000002038bae564a492dcb4c4e8d2fc9cc4d55b25230343500011d0598785e22585ca93851d75009285c50949f529a5c02170f4e4d2e2dca2ca95470cc4bcca92cc94c2e56aad551a8564a04190666a15aa004b541a9361600c859f50e7d000000").

(** A message with two small objects. *)
Definition two_events : RawMessage := plain_message 8 (Text.dq "[{'a': 1}, {'b': 2}]").

(** A message with an element that is not an object. *)
Definition number_among_events : RawMessage := plain_message 9 (Text.dq "[{'a': 1}, 5]").

(** The float 1500000.75. *)
Definition fractional_time : float := float_of_bits 6000003 (-2).

(** A broker that has only its default user. *)
Definition fresh_broker : broker :=
  {| listening := true;
     users := {[ "guest" := "guest" ]};
     vhosts := ∅;
     exchanges := ∅;
     queues := ∅;
     bindings := ∅ |}.

(** The broker after one launch on [fresh_broker]. *)
Definition provisioned_broker : broker :=
  {| listening := true;
     users := {[ "guest" := "guest" ]};
     vhosts := {[ "dx" ]};
     exchanges := {[ ("dx", "alerts") := declared_exchange ]};
     queues := {[ ("dx", "alerts_q") := declared_queue ]};
     bindings := {[ ("dx", "alerts_q", "alerts", "") ]} |}.


(** ** [configparser]

    The content of a parsed INI file, as [ConfigParser.read] leaves it: the
    options of the [DEFAULT] section and those of each named section, the
    option names in lower case and the values as written in the file. *)
Record ConfigParser : Type := {
  parser_defaults : gmap str str;
  parser_sections : gmap str (gmap str str)
}.

(** What [config.read(config_file)] finds: a file it cannot open (it
    returns the empty list), a file it parses, or a file that makes the
    parser raise. *)
Inductive read_outcome : Type :=
| Unreadable
| Parsed (cp : ConfigParser)
| Malformed (error : exn).

(** The files of the host, by name. *)
Definition filesystem : Type := str -> read_outcome.

Definition NoSectionError : exn := OtherError "NoSectionError".
Definition NoOptionError : exn := OtherError "NoOptionError".
Definition InterpolationSyntaxError : exn := OtherError "InterpolationSyntaxError".
Definition InterpolationMissingOptionError : exn :=
  OtherError "InterpolationMissingOptionError".
Definition InterpolationDepthError : exn := OtherError "InterpolationDepthError".

(** [c.lower()] for an ASCII letter. *)
Definition ascii_lower (c : ascii) : ascii :=
  let n := N_of_ascii c in
  if ((65 <=? n) && (n <=? 90))%N then ascii_of_N (n + 32) else c.

(** [s.lower()] on ASCII text, which the option names and the words of
    [BOOLEAN_STATES] are; the default [optionxform]. *)
Fixpoint lower (s : str) : str :=
  match s with
  | EmptyString => EmptyString
  | String c rest => String (ascii_lower c) (lower rest)
  end.

(** ["%" in s] *)
Fixpoint has_percent (s : str) : bool :=
  match s with
  | EmptyString => false
  | String c rest => Ascii.eqb c "%" || has_percent rest
  end.

(** The name inside [%(name)s]: the text after ["%("] up to the first
    [")"], which must not be empty and must be followed by ["s"]; with it,
    the text after the reference. *)
Fixpoint reference_name (s : str) : option (str * str) :=
  match s with
  | EmptyString => None
  | String c rest =>
      if Ascii.eqb c ")" then
        match rest with
        | String c' after => if Ascii.eqb c' "s" then Some (EmptyString, after) else None
        | EmptyString => None
        end
      else
        match reference_name rest with
        | Some (name, after) => Some (String c name, after)
        | None => None
        end
  end.

(** The options a section sees: its own, then those of [DEFAULT]. *)
Definition chain_lookup (cp : ConfigParser) (section opt : str) : option str :=
  match parser_sections cp !! section with
  | Some own =>
      match own !! opt with
      | Some value => Some value
      | None => parser_defaults cp !! opt
      end
  | None => parser_defaults cp !! opt
  end.

(** The loop of [BasicInterpolation._interpolate_some] over the text of a
    value: ["%%"] stands for ["%"], [%(name)s] for the value of the option
    [name], handed to [nested] when it holds a ["%"]; any other use of
    ["%"] is an error. [fuel] bounds the characters still to read. *)
Fixpoint interpolate_scan (nested : str -> result str) (lookup : str -> option str)
    (fuel : nat) (rest : str) : result str :=
  match fuel with
  | O => Ok EmptyString
  | S fuel' =>
      match rest with
      | EmptyString => Ok EmptyString
      | String c rest1 =>
          if Ascii.eqb c "%" then
            match rest1 with
            | String c1 rest2 =>
                if Ascii.eqb c1 "%" then
                  (r <-? interpolate_scan nested lookup fuel' rest2;
                   Ok (String "%" r))%res
                else if Ascii.eqb c1 "(" then
                  match reference_name rest2 with
                  | Some (String n name, after) =>
                      match lookup (lower (String n name)) with
                      | None => Raised InterpolationMissingOptionError
                      | Some v =>
                          (v' <-? (if has_percent v then nested v else Ok v);
                           r <-? interpolate_scan nested lookup fuel' after;
                           Ok (v' +:+ r))%res
                      end
                  | _ => Raised InterpolationSyntaxError
                  end
                else Raised InterpolationSyntaxError
            | EmptyString => Raised InterpolationSyntaxError
            end
          else (r <-? interpolate_scan nested lookup fuel' rest1;
                Ok (String c r))%res
      end
  end.

(** [_interpolate_some]: [depth] is how many levels of reference are still
    allowed; [MAX_INTERPOLATION_DEPTH] is 10. *)
Fixpoint interpolate_some (depth : nat) (lookup : str -> option str)
    (rest : str) : result str :=
  match depth with
  | O => Raised InterpolationDepthError
  | S depth' =>
      interpolate_scan (interpolate_some depth' lookup) lookup
        (String.length rest) rest
  end.

(** [before_get]: the value of an option as [get] returns it. *)
Definition interpolate (lookup : str -> option str) (value : str) : result str :=
  interpolate_some 10 lookup value.

(** [config.get(section, option)] *)
Definition config_get (cp : ConfigParser) (section opt : str) : result str :=
  match parser_sections cp !! section with
  | None =>
      if String.eqb section "DEFAULT"
      then match parser_defaults cp !! lower opt with
           | Some value => interpolate (chain_lookup cp section) value
           | None => Raised NoOptionError
           end
      else Raised NoSectionError
  | Some _ =>
      match chain_lookup cp section (lower opt) with
      | Some value => interpolate (chain_lookup cp section) value
      | None => Raised NoOptionError
      end
  end.

(** [config.getint(section, option)]: [int] of the text. *)
Definition config_getint `{PyRuntime} (cp : ConfigParser) (section opt : str)
    : result Z :=
  (value <-? config_get cp section opt; int_of_str value)%res.

(** [BOOLEAN_STATES] *)
Definition boolean_state (word : str) : option bool :=
  if String.eqb word "1" || String.eqb word "yes" || String.eqb word "true"
     || String.eqb word "on" then Some true
  else if String.eqb word "0" || String.eqb word "no" || String.eqb word "false"
          || String.eqb word "off" then Some false
  else None.

(** [config.getboolean(section, option)] *)
Definition config_getboolean (cp : ConfigParser) (section opt : str) : result bool :=
  (value <-? config_get cp section opt;
   match boolean_state (lower value) with
   | Some b => Ok b
   | None => Raised ValueError
   end)%res.

(** ** The supervising process *)

(** What the health check posts. *)
Record health_request : Type := {
  health_url : str;
  health_headers : list (str * str);
  health_json : json;
  health_verify : bool
}.

(** The messages the supervising process prints, one constructor for
    each, with the values it interpolates; a message of several [print]
    calls is one line here. *)
Inductive supervisor_line : Type :=
| LineConfigUnreadable (config_file : str)
| LineVhostRefused (url : str) (error : exn)
| LineVhostFailed (reply : response)
| LineSplunkHTTPError (error : exn)
| LineSplunkConnectionError (error : exn)
| LineSplunkException (error : exn)
| LineWaiting
| LineStatus (line : report)
| LineInterrupted.

(** The observable actions of the supervising process: a message
    printed, the health check posted (whatever comes back), a worker
    process started, killed or joined. *)
Inductive supervisor_event : Type :=
| SPrint (line : supervisor_line)
| SPost (req : health_request)
| SStart (process_num : Z)
| SKill (process_num : Z)
| SJoin (process_num : Z).

(** A computation of the supervising process. *)
Definition sup (A : Type) : Type := (list supervisor_event * result A)%type.

Definition sup_bind {A B} (m : sup A) (k : A -> sup B) : sup B :=
  match m with
  | (t, Ok a) => let '(t', r) := k a in (t ++ t', r)
  | (t, Raised e) => (t, Raised e)
  end.

Definition sup_emit (ev : supervisor_event) : sup unit := ([ev], Ok tt).
Definition sup_lift {A} (r : result A) : sup A := ([], r).

Declare Scope sup_scope.
Delimit Scope sup_scope with sup.
Notation "x <-- m ;; k" := (sup_bind m (fun x => k))
  (at level 100, m at next level, k at level 200, right associativity) : sup_scope.
Notation "m >>> k" := (sup_bind m (fun _ => k))
  (at level 100, k at level 200, right associativity) : sup_scope.

Section Supervisor.
Context `{PyRuntime}.

(** [get_config] (consumer.py:199-222). *)
Definition get_config (files : filesystem) (config_file : str) : sup config :=
  match files config_file with
  | Malformed error => ([], Raised error)
  | Unreadable =>
      ([SPrint (LineConfigUnreadable config_file)], Raised (SystemExit 1))
  | Parsed cp =>
      sup_lift
        (user <-? config_get cp "rabbitmq" "user";
         password <-? config_get cp "rabbitmq" "password";
         server <-? config_get cp "rabbitmq" "server";
         amqp_port <-? config_get cp "rabbitmq" "amqp_port";
         http_port <-? config_get cp "rabbitmq" "http_port";
         vhost <-? config_get cp "rabbitmq" "vhost";
         exchange <-? config_get cp "rabbitmq" "exchange";
         url <-? config_get cp "splunk" "url";
         token <-? config_get cp "splunk" "token";
         threads <-? config_getint cp "general" "threads";
         verbose <-? config_getboolean cp "general" "verbose";
         debug <-? config_getboolean cp "general" "debug";
         Ok {| rabbitmq_user := user;
               rabbitmq_password := password;
               rabbitmq_server := server;
               rabbitmq_amqp_port := amqp_port;
               rabbitmq_http_port := http_port;
               rabbitmq_vhost := vhost;
               rabbitmq_exchange := exchange;
               splunk_url := url;
               splunk_token := token;
               threads := threads;
               verbose := verbose;
               debug := debug |})%res
  end.

End Supervisor.

(** The URL of the virtual host on the management API
    (consumer.py:229-234). *)
Definition vhost_url (cfg : config) : str :=
  "http://" +:+ rabbitmq_server cfg +:+ ":" +:+ rabbitmq_http_port cfg
  +:+ "/api/vhosts/" +:+ rabbitmq_vhost cfg.

(** [add_vhost] with the lines it prints (consumer.py:224-247). *)
Definition add_vhost_printing (cfg : config) (b : broker) : sup broker :=
  match put_vhost b (rabbitmq_user cfg) (rabbitmq_password cfg) (rabbitmq_vhost cfg) with
  | Raised error =>
      ([SPrint (LineVhostRefused (vhost_url cfg) error)], Raised (SystemExit 1))
  | Ok (b', reply) =>
      if negb (ok reply)
      then ([SPrint (LineVhostFailed reply)], Raised (SystemExit 1))
      else ([], Ok b')
  end.

(** [except requests.exceptions.HTTPError]; the argument of
    [RequestException] names the class of the exception. *)
Definition is_HTTPError (e : exn) : bool :=
  match e with
  | RequestException class => String.eqb class "HTTPError"
  | _ => false
  end.

(** [except requests.exceptions.ConnectionError]: the class and its
    subclasses. *)
Definition is_ConnectionError (e : exn) : bool :=
  match e with
  | RequestException class =>
      String.eqb class "ConnectionError" || String.eqb class "ProxyError"
      || String.eqb class "SSLError" || String.eqb class "ConnectTimeout"
  | _ => false
  end.

(** The ingestion endpoint as the health check sees it. *)
Definition health_endpoint : Type := health_request -> result response.

(** The request of the health check (consumer.py:256-260). *)
Definition health_check_request (cfg : config) : health_request :=
  {| health_url := splunk_url cfg;
     health_headers := [("Authorization", "Splunk " +:+ splunk_token cfg)];
     health_json := JDict [("event", JStr "Splunk connectivity check")];
     health_verify := false |}.

(** [test_splunk_connection] (consumer.py:249-275). *)
Definition test_splunk_connection (cfg : config) (splunk : health_endpoint) : sup unit :=
  let req := health_check_request cfg in
  match (reply <-? splunk req; raise_for_status reply)%res with
  | Ok _ => ([SPost req], Ok tt)
  | Raised error =>
      if is_HTTPError error
      then ([SPost req; SPrint (LineSplunkHTTPError error)], Raised (SystemExit 1))
      else if is_ConnectionError error
      then ([SPost req; SPrint (LineSplunkConnectionError error)], Raised (SystemExit 1))
      else if is_RequestException error
      then ([SPost req; SPrint (LineSplunkException error)], Raised (SystemExit 1))
      else ([SPost req], Raised error)
  end.

(** [range(n)] *)
Definition range (n : Z) : list Z := map Z.of_nat (seq 0 (Z.to_nat n)).

(** A [multiprocessing.Process] object: its number and whether it has been
    started. *)
Record Process : Type := {
  process_number : Z;
  process_started : bool
}.

(** [mp.Process(target=new_process, args=(config, process_num, result_queue))] *)
Definition new_Process (process_num : Z) : Process :=
  {| process_number := process_num; process_started := false |}.

(** [p.kill()]: a process that was never started has no child to signal,
    and the call raises. *)
Definition process_kill (p : Process) : sup unit :=
  if process_started p then sup_emit (SKill (process_number p))
  else ([], Raised AttributeError).

(** [p.join()]: only a started process can be joined. *)
Definition process_join (p : Process) : sup unit :=
  if process_started p then sup_emit (SJoin (process_number p))
  else ([], Raised (OtherError "AssertionError")).

(** The reporting loop with the lines it prints, up to the first iteration
    that raises (consumer.py:330-346). *)
Fixpoint aggregate_printing (cfg : config) (st : AggregateState)
    (inputs : list ((Z * nat) * Z)) : sup AggregateState :=
  match inputs with
  | [] => ([], Ok st)
  | (metric, now) :: rest =>
      match aggregate_step cfg st metric now with
      | Raised e => ([], Raised e)
      | Ok (st', line) =>
          let printed := match line with
                         | Some l => [SPrint (LineStatus l)]
                         | None => []
                         end in
          let '(t, r) := aggregate_printing cfg st' rest in
          (printed ++ t, r)
      end
  end.

(** When the interrupt (CTRL+C) reaches the supervising process: in the
    loop that starts the workers, after [started] of them were started and,
    if [taken], one more was taken from [process_list] but not started; or
    in the reporting loop, while it waits for the metric that would follow
    [inputs], the clock reading [start] having been taken before the
    loop. A [started] of the number of processes or more is the moment
    after the last of them was started. *)
Inductive interrupt : Type :=
| WhileStarting (started : nat) (taken : bool)
| WhileReporting (start : Z) (inputs : list ((Z * nat) * Z)).

(** The handler of the interrupt (consumer.py:347-352). [process_list] is
    a [map] object, an iterator: the loop over it in the handler goes on
    where the loop that started the workers stopped, and the [Process]
    objects it yields are made as it goes. *)
Fixpoint kill_and_join (remaining : list Z) : sup unit :=
  match remaining with
  | [] => ([], Ok tt)
  | process_num :: rest =>
      let p := new_Process process_num in
      (process_kill p >>> process_join p >>> kill_and_join rest)%sup
  end.

Definition on_interrupt (remaining : list Z) : sup unit :=
  (sup_emit (SPrint LineInterrupted) >>>
   kill_and_join remaining >>>
   (([], Raised (SystemExit 1)) : sup unit))%sup.

(** The [try] block of [main] (consumer.py:317-346) with the interrupt
    that ends it. *)
Definition supervise (cfg : config) (interrupted : interrupt) : sup unit :=
  let process_list := range (threads cfg) in
  (sup_emit (SPrint LineWaiting) >>>
   match interrupted with
   | WhileStarting started taken =>
       if (started <? length process_list)%nat
       then
         ((map SStart (firstn started process_list), Ok tt) >>>
          on_interrupt (skipn (if taken then S started else started) process_list))
       else
         ((map SStart process_list, Ok tt) >>> on_interrupt [])
   | WhileReporting start inputs =>
       ((map SStart process_list, Ok tt) >>>
        aggregate_printing cfg (initial_state start) inputs >>>
        on_interrupt [])
   end)%sup.

Section Main.
Context `{PyRuntime}.

(** [main] after the command line is parsed (consumer.py:291-352):
    [config_file] is [args.config]. *)
Definition main (files : filesystem) (b : broker) (splunk : health_endpoint)
    (config_file : str) (interrupted : interrupt) : sup unit :=
  (config <-- get_config files config_file;;
   add_vhost_printing config b >>>
   test_splunk_connection config splunk >>>
   supervise config interrupted)%sup.

End Main.

(** The workers started in a trace, in order. *)
Fixpoint started_workers (t : list supervisor_event) : list Z :=
  match t with
  | [] => []
  | SStart n :: rest => n :: started_workers rest
  | _ :: rest => started_workers rest
  end.

(** The workers killed or joined in a trace. *)
Fixpoint stopped_workers (t : list supervisor_event) : list Z :=
  match t with
  | [] => []
  | SKill n :: rest => n :: stopped_workers rest
  | SJoin n :: rest => n :: stopped_workers rest
  | _ :: rest => stopped_workers rest
  end.

(** The status lines printed in a trace, in order. *)
Fixpoint status_lines (t : list supervisor_event) : list report :=
  match t with
  | [] => []
  | SPrint (LineStatus r) :: rest => r :: status_lines rest
  | _ :: rest => status_lines rest
  end.

(** A value written for an INI file: every ["%"] doubled. *)
Fixpoint escape_percent (s : str) : str :=
  match s with
  | EmptyString => EmptyString
  | String c rest =>
      if Ascii.eqb c "%" then String "%" (String "%" (escape_percent rest))
      else String c (escape_percent rest)
  end.

(** The health checks posted in a trace, in order. *)
Fixpoint health_posts (t : list supervisor_event) : list health_request :=
  match t with
  | [] => []
  | SPost req :: rest => req :: health_posts rest
  | _ :: rest => health_posts rest
  end.

(** The lines printed in a trace, in order. *)
Fixpoint printed_lines (t : list supervisor_event) : list supervisor_line :=
  match t with
  | [] => []
  | SPrint line :: rest => line :: printed_lines rest
  | _ :: rest => printed_lines rest
  end.

(** The options [get_config] reads, in the order it reads them. *)
Definition required_options : list (str * str) :=
  [("rabbitmq", "user"); ("rabbitmq", "password"); ("rabbitmq", "server");
   ("rabbitmq", "amqp_port"); ("rabbitmq", "http_port"); ("rabbitmq", "vhost");
   ("rabbitmq", "exchange"); ("splunk", "url"); ("splunk", "token");
   ("general", "threads"); ("general", "verbose"); ("general", "debug")].

(** An option of the file whose value holds no ["%"]. *)
Definition plain_option (cp : ConfigParser) (section opt value : str) : Prop :=
  is_Some (parser_sections cp !! section)
  /\ chain_lookup cp section opt = Some value
  /\ has_percent value = false.

(** A ["%"] that ["%"] or ["("] does not follow. *)
Definition stray_percent (rest : str) : bool :=
  match rest with
  | String c rest1 =>
      Ascii.eqb c "%"
      && match rest1 with
         | String c1 _ => negb (Ascii.eqb c1 "%") && negb (Ascii.eqb c1 "(")
         | EmptyString => true
         end
  | EmptyString => false
  end.

(** Whether every ["%"] of a text belongs to a ["%%"] or to a reference
    [%(name)s], read from the left as [interpolate_scan] reads it. *)
Fixpoint percent_scan (fuel : nat) (rest : str) : bool :=
  match fuel with
  | O => true
  | S fuel' =>
      match rest with
      | EmptyString => true
      | String c rest1 =>
          if Ascii.eqb c "%" then
            match rest1 with
            | String c1 rest2 =>
                if Ascii.eqb c1 "%" then percent_scan fuel' rest2
                else if Ascii.eqb c1 "(" then
                  match reference_name rest2 with
                  | Some (String _ _, after) => percent_scan fuel' after
                  | _ => false
                  end
                else false
            | EmptyString => false
            end
          else percent_scan fuel' rest1
      end
  end.

Definition percent_ok (value : str) : bool :=
  percent_scan (String.length value) value.

(** The status lines as events. *)
Definition status_events (lines : list report) : list supervisor_event :=
  map (fun r => SPrint (LineStatus r)) lines.


(** What [requests.put] sends to the management API. *)
Record put_request : Type := {
  put_url : str;
  put_verify : bool;
  put_auth : str * str
}.

(** The management API as [add_vhost] sees it: what one [requests.put]
    returns or raises. *)
Definition management_api : Type := put_request -> result response.

(** The request of [add_vhost] (consumer.py:229-240). *)
Definition add_vhost_request (cfg : config) : put_request :=
  {| put_url := vhost_url cfg;
     put_verify := false;
     put_auth := (rabbitmq_user cfg, rabbitmq_password cfg) |}.

(** [except Exception]: every exception but those that derive from
    [BaseException] alone. *)
Definition is_Exception (e : exn) : bool :=
  match e with
  | SystemExit _ => false
  | OtherError class =>
      negb (String.eqb class "KeyboardInterrupt" || String.eqb class "GeneratorExit")
  | _ => true
  end.

(** [add_vhost] (consumer.py:224-247) against any management API. *)
Definition add_vhost_on (cfg : config) (api : management_api) : sup unit :=
  let url := vhost_url cfg in
  match api (add_vhost_request cfg) with
  | Raised error =>
      if is_Exception error
      then ([SPrint (LineVhostRefused url error)], Raised (SystemExit 1))
      else ([], Raised error)
  | Ok reply =>
      if negb (ok reply)
      then ([SPrint (LineVhostFailed reply)], Raised (SystemExit 1))
      else ([], Ok tt)
  end.

(** ** A standard output that can refuse a line

    [print] above is the [print] of a process whose standard output takes
    every line. A [console] tells, line by line, what [print] does
    otherwise: it returns, or it raises ([UnicodeEncodeError] for text the
    encoding of the stream cannot write, [OSError] for a stream that is
    closed). *)
Definition console : Type := log_line -> result unit.

(** [print(line)] on such an output. *)
Definition print_on (out : console) (line : log_line) : io unit :=
  (lift (out line);;; emit (Print line))%io.

Section WorkerOnConsole.
Context `{PyRuntime}.

(** [RabbitToSplunk.send_to_splunk] (consumer.py:132-186), every [print]
    of it on [out]. *)
Definition send_to_splunk_on (out : console) (self : RabbitToSplunk) (splunk : endpoint)
    (content_encoding : option str) (body : bytes) : io nat :=
  (let cfg := self_config self in
   json_str <- lift (decode_body content_encoding body);;
   (if debug cfg then print_on out (LogSending json_str) else ret tt);;;
   json_data <- lift (load_events json_str);;
   events <- lift (event_list json_data);;
   let event_data := join events in
   reply <- try_except
              (reply <- session_post splunk (splunk_request cfg event_data);;
               lift (raise_for_status reply);;;
               ret reply)
              is_RequestException
              (fun error => print_on out (LogConnectivityError error);;; sys_exit 1);;
   (if negb (ok reply)
    then (print_on out (LogFailure (reason reply) (status_code reply));;; sys_exit 1)
    else ret tt);;;
   (if verbose cfg then print_on out LogDot else ret tt);;;
   ret (length json_data))%io.

(** [RabbitToSplunk.rabbit_callback] (consumer.py:188-196) on [out]. *)
Definition rabbit_callback_on (out : console) (self : RabbitToSplunk) (splunk : endpoint)
    (msg : RawMessage) : io unit :=
  (session_count <- send_to_splunk_on out self splunk (content_encoding msg) (body msg);;
   emit (BasicAck (delivery_tag msg));;;
   emit (QueuePut (self_process_num self) session_count))%io.

End WorkerOnConsole.

(** A standard output that takes every line. *)
Definition accepting : console := fun _ => Ok tt.

(** A standard output that cannot write the text of a message. *)
Definition ascii_only : console :=
  fun line =>
    match line with
    | LogSending _ => Raised (OtherError "UnicodeEncodeError")
    | _ => Ok tt
    end.

(** ** Sample data of the supervising process *)

(** A worker that prints everything. *)
Definition chatty_worker : RabbitToSplunk :=
  {| self_config :=
       {| rabbitmq_user := "guest";
          rabbitmq_password := "guest";
          rabbitmq_server := "localhost";
          rabbitmq_amqp_port := "5672";
          rabbitmq_http_port := "15672";
          rabbitmq_vhost := "dx";
          rabbitmq_exchange := "alerts";
          splunk_url := "https://splunk.example:8088/services/collector";
          splunk_token := "00000000-0000-0000-0000-000000000000";
          threads := 2;
          verbose := true;
          debug := true |};
     self_process_num := 0 |}.

(** A second consumer of the same broker, on another exchange. *)
Definition threats_config : config :=
  {| rabbitmq_user := "guest";
     rabbitmq_password := "guest";
     rabbitmq_server := "localhost";
     rabbitmq_amqp_port := "5672";
     rabbitmq_http_port := "15672";
     rabbitmq_vhost := "dx";
     rabbitmq_exchange := "threats";
     splunk_url := "https://splunk.example:8088/services/collector";
     splunk_token := "00000000-0000-0000-0000-000000000000";
     threads := 1;
     verbose := false;
     debug := false |}.

(** [provisioned_broker] after the launch of the second consumer. *)
Definition shared_broker : broker :=
  {| listening := true;
     users := {[ "guest" := "guest" ]};
     vhosts := {[ "dx" ]};
     exchanges := <[ ("dx", "threats") := declared_exchange ]>
                    {[ ("dx", "alerts") := declared_exchange ]};
     queues := <[ ("dx", "threats_q") := declared_queue ]>
                 {[ ("dx", "alerts_q") := declared_queue ]};
     bindings := {[ ("dx", "threats_q", "threats", "") ]}
                 ∪ {[ ("dx", "alerts_q", "alerts", "") ]} |}.

(** [fresh_broker] after [add_vhost]. *)
Definition vhost_only_broker : broker :=
  {| listening := true;
     users := {[ "guest" := "guest" ]};
     vhosts := {[ "dx" ]};
     exchanges := ∅;
     queues := ∅;
     bindings := ∅ |}.


(** The metrics of a short run, each with the clock reading after it. *)
Definition short_run : list ((Z * nat) * Z) :=
  [((0, 3%nat), 102); ((1, 2%nat), 106); ((0, 1%nat), 108); ((1, 4%nat), 112)].

(** The configuration file of [sample_config]. *)
Definition sample_ini : ConfigParser :=
  {| parser_defaults := ∅;
     parser_sections :=
       list_to_map
         [("rabbitmq",
           list_to_map
             [("user", "guest"); ("password", "guest"); ("server", "localhost");
              ("amqp_port", "5672"); ("http_port", "15672"); ("vhost", "dx");
              ("exchange", "alerts")]);
          ("splunk",
           list_to_map
             [("url", "https://splunk.example:8088/services/collector");
              ("token", "00000000-0000-0000-0000-000000000000")]);
          ("general",
           list_to_map [("threads", "2"); ("verbose", "no"); ("debug", "False")])] |}.

(** A configuration file with a ["%"] in two values: doubled in the
    token; doubled, and then alone, in the password. *)
Definition percent_ini : ConfigParser :=
  {| parser_defaults := ∅;
     parser_sections :=
       list_to_map
         [("rabbitmq", list_to_map [("user", "guest"); ("password", "p%%w 50%off")]);
          ("splunk", list_to_map [("token", "100%%sure")])] |}.

(** A host with one configuration file. *)
Definition sample_files : filesystem :=
  fun name => if String.eqb name "consumer.ini" then Parsed sample_ini else Unreadable.

(** An endpoint that accepts the health check. *)
Definition healthy : health_endpoint :=
  fun _ => Ok {| status_code := 200; reason := "OK" |}.

(** * Properties *)

Section WorkerFacts.
Context `{PyRuntime}.

(** ** The delivery path, case by case *)

Lemma raise_for_status_error reply :
  error_status (status_code reply) ->
  raise_for_status reply = Raised (RequestException "HTTPError").
Proof.
  unfold error_status, raise_for_status. intros [Hlo Hhi].
  apply Z.leb_le in Hlo. apply Z.ltb_lt in Hhi. now rewrite Hlo, Hhi.
Qed.

Lemma raise_for_status_pass reply :
  ~ error_status (status_code reply) -> raise_for_status reply = Ok tt.
Proof.
  unfold error_status, raise_for_status. intros Hno.
  destruct (400 <=? status_code reply) eqn:Hlo; [|reflexivity].
  destruct (status_code reply <? 600) eqn:Hhi; [|reflexivity].
  apply Z.leb_le in Hlo. apply Z.ltb_lt in Hhi. exfalso. apply Hno. lia.
Qed.

Lemma error_status_dec code : {error_status code} + {~ error_status code}.
Proof.
  unfold error_status.
  destruct (Z_le_dec 400 code); destruct (Z_lt_dec code 600);
    first [left; lia | right; lia].
Qed.

Lemma ok_iff reply : ok reply = true <-> ~ error_status (status_code reply).
Proof.
  unfold ok. split.
  - intros Hok Herr. rewrite (raise_for_status_error _ Herr) in Hok. discriminate.
  - intros Hno. now rewrite (raise_for_status_pass _ Hno).
Qed.

(** What [send_to_splunk] does, by the stage at which it ends. *)
Lemma send_to_splunk_spec self splunk ce body :
  send_to_splunk self splunk ce body =
  let cfg := self_config self in
  match decode_body ce body with
  | Raised e => ([], Raised e)
  | Ok json_str =>
      match load_events json_str with
      | Raised e => (debug_lines cfg json_str, Raised e)
      | Ok json_data =>
          match event_list json_data with
          | Raised e => (debug_lines cfg json_str, Raised e)
          | Ok events =>
              let req := splunk_request cfg (join events) in
              match splunk req with
              | Raised e =>
                  if is_RequestException e
                  then (debug_lines cfg json_str
                          ++ [Post req; Print (LogConnectivityError e)],
                        Raised (SystemExit 1))
                  else (debug_lines cfg json_str ++ [Post req], Raised e)
              | Ok reply =>
                  if (400 <=? status_code reply) && (status_code reply <? 600)
                  then (debug_lines cfg json_str
                          ++ [Post req;
                              Print (LogConnectivityError (RequestException "HTTPError"))],
                        Raised (SystemExit 1))
                  else (debug_lines cfg json_str ++ [Post req] ++ verbose_lines cfg,
                        Ok (length json_data))
              end
          end
      end
  end.
Proof.
  unfold send_to_splunk, debug_lines, verbose_lines, session_post, print, sys_exit,
    emit, lift, raise, ret, try_except, bind, ok, raise_for_status.
  cbv zeta.
  destruct (decode_body ce body) as [json_str|e]; [|reflexivity].
  destruct (debug (self_config self)); cbn [app];
    (destruct (load_events json_str) as [json_data|e]; [|reflexivity]);
    (destruct (event_list json_data) as [events|e]; [|reflexivity]);
    (destruct (splunk _) as [reply|e]; cbn;
     [ destruct ((400 <=? status_code reply) && (status_code reply <? 600)) eqn:Hrange;
       cbn; rewrite ?Hrange; cbn;
       [reflexivity | destruct (verbose (self_config self)); reflexivity]
     | destruct (is_RequestException e); reflexivity ]).
Qed.

(** What [rabbit_callback] adds to it. *)
Lemma rabbit_callback_spec self splunk msg :
  rabbit_callback self splunk msg =
  match send_to_splunk self splunk (content_encoding msg) (body msg) with
  | (t, Ok session_count) =>
      (t ++ [BasicAck (delivery_tag msg);
             QueuePut (self_process_num self) session_count], Ok tt)
  | (t, Raised e) => (t, Raised e)
  end.
Proof.
  unfold rabbit_callback, bind, emit.
  destruct (send_to_splunk _ _ _ _) as [t [n|e]]; reflexivity.
Qed.

Lemma acked_app t1 t2 : acked (t1 ++ t2) = acked t1 ++ acked t2.
Proof.
  induction t1 as [|ev t1 IH]; [reflexivity|].
  destruct ev; cbn; rewrite IH; reflexivity.
Qed.

Lemma posted_app t1 t2 : posted (t1 ++ t2) = posted t1 ++ posted t2.
Proof.
  induction t1 as [|ev t1 IH]; [reflexivity|].
  destruct ev; cbn; rewrite IH; reflexivity.
Qed.

Lemma acked_debug_lines cfg s : acked (debug_lines cfg s) = [].
Proof. unfold debug_lines. destruct (debug cfg); reflexivity. Qed.

Lemma posted_debug_lines cfg s : posted (debug_lines cfg s) = [].
Proof. unfold debug_lines. destruct (debug cfg); reflexivity. Qed.

Lemma acked_verbose_lines cfg : acked (verbose_lines cfg) = [].
Proof. unfold verbose_lines. destruct (verbose cfg); reflexivity. Qed.

Lemma posted_verbose_lines cfg : posted (verbose_lines cfg) = [].
Proof. unfold verbose_lines. destruct (verbose cfg); reflexivity. Qed.

Lemma in_acked tag t : In (BasicAck tag) t <-> In tag (acked t).
Proof.
  induction t as [|ev t IH]; [reflexivity|].
  destruct ev; cbn; rewrite <- IH; intuition (try discriminate; try congruence).
Qed.

Lemma in_posted req t : In (Post req) t <-> In req (posted t).
Proof.
  induction t as [|ev t IH]; [reflexivity|].
  destruct ev; cbn; rewrite <- IH; intuition (try discriminate; try congruence).
Qed.

(** A worker never acknowledges or posts before it has the batch. *)
Lemma send_to_splunk_never_acks self splunk ce body :
  acked (trace (send_to_splunk self splunk ce body)) = [].
Proof.
  rewrite send_to_splunk_spec. cbv zeta. unfold trace.
  destruct (decode_body ce body) as [json_str|e]; [|reflexivity].
  destruct (load_events json_str) as [json_data|e]; [|apply acked_debug_lines].
  destruct (event_list json_data) as [events|e]; [|apply acked_debug_lines].
  destruct (splunk _) as [reply|e].
  - destruct (_ && _); cbn [fst]; rewrite !acked_app, acked_debug_lines; cbn;
      [reflexivity | apply acked_verbose_lines].
  - destruct (is_RequestException e); cbn [fst];
      rewrite acked_app, acked_debug_lines; reflexivity.
Qed.

(** A send posts at most once, and returns only after a post that the
    endpoint answered with a status outside 400..599. *)
Lemma send_to_splunk_returns self splunk ce body n :
  outcome (send_to_splunk self splunk ce body) = Ok n ->
  exists req reply,
    posted (trace (send_to_splunk self splunk ce body)) = [req]
    /\ splunk req = Ok reply
    /\ ~ error_status (status_code reply).
Proof.
  rewrite send_to_splunk_spec. cbv zeta. unfold trace, outcome.
  destruct (decode_body ce body) as [json_str|e]; [|discriminate].
  destruct (load_events json_str) as [json_data|e]; [|discriminate].
  destruct (event_list json_data) as [events|e]; [|discriminate].
  destruct (splunk _) as [reply|e] eqn:Hreply.
  - destruct (_ && _) eqn:Hrange; [discriminate|]. intros _.
    eexists _, reply. cbn [fst].
    rewrite !posted_app, posted_debug_lines, posted_verbose_lines. cbn.
    split; [reflexivity|]. split; [exact Hreply|].
    unfold error_status. intros [Hlo Hhi].
    apply Z.leb_le in Hlo. apply Z.ltb_lt in Hhi. rewrite Hlo, Hhi in Hrange.
    discriminate.
  - destruct (is_RequestException e); discriminate.
Qed.

(** A rejected or failed post ends the send with an exception. *)
Lemma send_to_splunk_fails self splunk ce body req :
  In req (posted (trace (send_to_splunk self splunk ce body))) ->
  (forall reply, splunk req = Ok reply -> error_status (status_code reply)) ->
  exists e, outcome (send_to_splunk self splunk ce body) = Raised e.
Proof.
  rewrite send_to_splunk_spec. cbv zeta. unfold trace, outcome.
  destruct (decode_body ce body) as [json_str|e]; [|intros []].
  destruct (load_events json_str) as [json_data|e];
    [|cbn [fst snd]; rewrite posted_debug_lines; intros []].
  destruct (event_list json_data) as [events|e];
    [|cbn [fst snd]; rewrite posted_debug_lines; intros []].
  destruct (splunk _) as [reply|e] eqn:Hreply.
  - destruct (_ && _) eqn:Hrange; cbn [fst snd]; [eauto|].
    rewrite !posted_app, posted_debug_lines, posted_verbose_lines. cbn.
    intros [<-|[]] Hbad. specialize (Hbad _ Hreply).
    destruct Hbad as [Hlo Hhi].
    apply Z.leb_le in Hlo. apply Z.ltb_lt in Hhi. rewrite Hlo, Hhi in Hrange.
    discriminate.
  - destruct (is_RequestException e); cbn [snd]; eauto.
Qed.

End WorkerFacts.

Section WorkerTheorems.
Context `{PyRuntime}.

Lemma same_prefix_before_first_ack t pre a b r post :
  acked t = [] -> acked pre = [] ->
  t ++ BasicAck a :: r = pre ++ BasicAck b :: post ->
  t = pre /\ a = b /\ r = post.
Proof.
  revert pre. induction t as [|ev t IH]; intros pre Ht Hpre Heq.
  - destruct pre as [|ev' pre]; cbn in Heq.
    + injection Heq as -> ->. auto.
    + injection Heq as <- _. discriminate Hpre.
  - destruct pre as [|ev' pre]; cbn in Heq.
    + injection Heq as -> _. discriminate Ht.
    + injection Heq as <- Heq.
      assert (Ht' : acked t = []) by (destruct ev; cbn in Ht; congruence).
      assert (Hpre' : acked pre = []) by (destruct ev; cbn in Hpre; congruence).
      destruct (IH pre Ht' Hpre' Heq) as (-> & -> & ->). auto.
Qed.

Lemma metrics_app t1 t2 : metrics (t1 ++ t2) = metrics t1 ++ metrics t2.
Proof.
  induction t1 as [|ev t1 IH]; [reflexivity|].
  destruct ev; cbn; rewrite IH; reflexivity.
Qed.

Lemma send_to_splunk_no_metric self splunk ce body :
  metrics (trace (send_to_splunk self splunk ce body)) = [].
Proof.
  rewrite send_to_splunk_spec. cbv zeta. unfold trace, debug_lines, verbose_lines.
  destruct (decode_body ce body) as [json_str|e]; [|reflexivity].
  destruct (debug (self_config self));
    (destruct (load_events json_str) as [json_data|e]; [|reflexivity]);
    (destruct (event_list json_data) as [events|e]; [|reflexivity]);
    (destruct (splunk _) as [reply|e];
     [ destruct (_ && _); [reflexivity | destruct (verbose (self_config self)); reflexivity]
     | destruct (is_RequestException e); reflexivity ]).
Qed.

(** An accepted post ends the send with the batch size. *)
Lemma send_to_splunk_accepts self splunk ce body req reply :
  In req (posted (trace (send_to_splunk self splunk ce body))) ->
  splunk req = Ok reply -> ~ error_status (status_code reply) ->
  exists n, outcome (send_to_splunk self splunk ce body) = Ok n.
Proof.
  rewrite send_to_splunk_spec. cbv zeta. unfold trace, outcome.
  destruct (decode_body ce body) as [json_str|e]; [|intros []].
  destruct (load_events json_str) as [json_data|e];
    [|cbn [fst snd]; rewrite posted_debug_lines; intros []].
  destruct (event_list json_data) as [events|e];
    [|cbn [fst snd]; rewrite posted_debug_lines; intros []].
  destruct (splunk _) as [reply'|e] eqn:Hreply.
  - destruct (_ && _) eqn:Hrange; cbn [fst snd]; [|eauto].
    rewrite !posted_app, posted_debug_lines. cbn.
    intros [<-|[]] Hok Hgood. exfalso. apply Hgood.
    rewrite Hreply in Hok. injection Hok as <-.
    apply andb_true_iff in Hrange. destruct Hrange as [Hlo Hhi].
    apply Z.leb_le in Hlo. apply Z.ltb_lt in Hhi. split; assumption.
  - destruct (is_RequestException e); cbn [fst snd];
      rewrite !posted_app, posted_debug_lines; cbn;
      intros [<-|[]] Hok; congruence.
Qed.

(** The trace of a callback whose send returned. *)
Lemma rabbit_callback_returned self splunk msg t n :
  send_to_splunk self splunk (content_encoding msg) (body msg) = (t, Ok n) ->
  rabbit_callback self splunk msg
  = (t ++ [BasicAck (delivery_tag msg); QueuePut (self_process_num self) n], Ok tt).
Proof. intros Hsend. rewrite rabbit_callback_spec, Hsend. reflexivity. Qed.

(** The trace of a callback whose send raised. *)
Lemma rabbit_callback_raised self splunk msg t e :
  send_to_splunk self splunk (content_encoding msg) (body msg) = (t, Raised e) ->
  rabbit_callback self splunk msg = (t, Raised e).
Proof. intros Hsend. rewrite rabbit_callback_spec, Hsend. reflexivity. Qed.

Lemma single_ack_split pre tag post a :
  acked (pre ++ BasicAck tag :: post) = [a] -> acked pre = [] /\ tag = a.
Proof.
  rewrite acked_app. cbn. destruct (acked pre) as [|x l]; cbn.
  - intros [= ->]. auto.
  - destruct l; discriminate.
Qed.

(** C1 (as amended): acknowledgment never occurs before a delivery that
    the endpoint accepted. For every message a worker processes: it
    acknowledges at most once, with the message's own delivery tag; an
    acknowledgment comes after exactly one post, which the endpoint
    answered with a status outside 400..599; when the post raises or is
    answered with a 4xx or 5xx status, nothing is acknowledged, no metric
    is emitted and the callback ends with an exception, which ends the
    consuming loop; when the post is answered with any other status, the
    message is acknowledged with its delivery tag. *)
Theorem ack_only_after_accepted_delivery self splunk msg :
  let run := rabbit_callback self splunk msg in
  (acked (trace run) = [] \/ acked (trace run) = [delivery_tag msg])
  /\ (forall pre tag post,
        trace run = pre ++ BasicAck tag :: post ->
        tag = delivery_tag msg /\ acked pre = []
        /\ exists req reply,
             posted pre = [req] /\ splunk req = Ok reply
             /\ ~ error_status (status_code reply))
  /\ (forall req,
        In (Post req) (trace run) ->
        (forall reply, splunk req = Ok reply -> error_status (status_code reply)) ->
        acked (trace run) = [] /\ metrics (trace run) = []
        /\ exists e, outcome run = Raised e
             /\ forall rest,
                  start_consuming self ((splunk, msg) :: rest) = (trace run, Raised e))
  /\ (forall req reply,
        In (Post req) (trace run) -> splunk req = Ok reply ->
        ~ error_status (status_code reply) ->
        acked (trace run) = [delivery_tag msg] /\ outcome run = Ok tt)
  /\ (posted (trace run) = [] -> acked (trace run) = []).
Proof.
  cbv zeta.
  pose proof (send_to_splunk_never_acks self splunk (content_encoding msg) (body msg))
    as Hnone.
  pose proof (send_to_splunk_no_metric self splunk (content_encoding msg) (body msg))
    as Hquiet.
  pose proof (send_to_splunk_returns self splunk (content_encoding msg) (body msg))
    as Hret.
  pose proof (send_to_splunk_accepts self splunk (content_encoding msg) (body msg))
    as Haccept.
  destruct (send_to_splunk self splunk (content_encoding msg) (body msg))
    as [t [n|e]] eqn:Hsend; unfold trace, outcome in *; cbn [fst snd] in *.
  - rewrite (rabbit_callback_returned _ _ _ _ _ Hsend). cbn [fst snd].
    destruct (Hret n eq_refl) as (req0 & reply0 & Hposted & Hreply & Hstatus).
    assert (Hacked : acked (t ++ [BasicAck (delivery_tag msg);
                                  QueuePut (self_process_num self) n])
                     = [delivery_tag msg])
      by (rewrite acked_app, Hnone; reflexivity).
    split; [now right|]. split; [|split; [|split]].
    + intros pre tag post Heq.
      assert (Hsplit : acked pre = [] /\ tag = delivery_tag msg).
      { apply single_ack_split with (post := post). rewrite <- Heq. exact Hacked. }
      destruct Hsplit as [Hpre ->].
      destruct (same_prefix_before_first_ack _ _ _ _ _ _ Hnone Hpre Heq) as (<- & _ & _).
      eauto 8.
    + intros req Hin Hbad. exfalso.
      apply in_posted in Hin. rewrite posted_app, Hposted in Hin.
      cbn in Hin. destruct Hin as [<-|[]]. apply Hstatus. eauto.
    + intros req reply _ _ _. auto.
    + rewrite posted_app, Hposted. discriminate.
  - rewrite (rabbit_callback_raised _ _ _ _ _ Hsend). cbn [fst snd].
    split; [now left|]. split; [|split; [|split]].
    + intros pre tag post Heq. exfalso.
      apply (f_equal acked) in Heq. rewrite Hnone, acked_app in Heq.
      cbn in Heq. destruct (acked pre); discriminate.
    + intros req Hin Hbad. split; [exact Hnone|]. split; [exact Hquiet|].
      exists e. split; [reflexivity|]. intros rest. cbn [start_consuming].
      unfold bind. rewrite (rabbit_callback_raised _ _ _ _ _ Hsend). reflexivity.
    + intros req reply Hin Hreply Hstatus. exfalso.
      apply in_posted in Hin.
      destruct (Haccept req reply Hin Hreply Hstatus) as [n Hn]. discriminate.
    + intros _. exact Hnone.
Qed.

Lemma contains_keys d k : contains (map fst d) k = dict_contains d k.
Proof.
  unfold contains, dict_contains.
  induction d as [|[k' v] d IH]; [reflexivity|].
  cbn. rewrite (String.eqb_sym k k'). destruct (String.eqb k' k); [reflexivity|exact IH].
Qed.

Lemma getitem_contains d k :
  dict_contains d k = true -> exists v, dict_get d k = Some v /\ getitem (JDict d) k = Ok v.
Proof.
  unfold dict_contains, getitem. destruct (dict_get d k) as [v|]; [eauto|discriminate].
Qed.

Lemma dict_contains_in d k : dict_contains d k = true -> In k (map fst d).
Proof.
  unfold dict_contains.
  induction d as [|[k' v] d IH]; [discriminate|].
  cbn. destruct (String.eqb k' k) eqn:Hk.
  - apply String.eqb_eq in Hk. auto.
  - auto.
Qed.

(** Only a [dict] is transformed. *)
Lemma build_event_not_dict x : is_dict x = false -> build_event x = Raised AttributeError.
Proof. destruct x; try reflexivity; discriminate. Qed.

Lemma add_event_not_dict x : is_dict x = false -> add_event x = Raised AttributeError.
Proof. intros Hx. unfold add_event. now rewrite build_event_not_dict. Qed.

(** The record of a [dict] payload, entry by entry. *)
Lemma build_event_spec d :
  build_event (JDict d) =
  (tf <-? time_field d;
   Ok (("event", JDict d) :: tf
         ++ copied_field d "device_name" "host"
         ++ copied_field d "product_name" "source"))%res.
Proof.
  unfold build_event, time_field, copied_field, keys, rbind, getitem.
  rewrite !contains_keys. unfold dict_contains.
  destruct (dict_get d "device_time") as [x|].
  - destruct (py_int x) as [n|e]; [|reflexivity].
    destruct (py_true_div n 1000) as [t|e]; [|reflexivity].
    destruct (dict_get d "device_name"), (dict_get d "product_name"); reflexivity.
  - destruct (dict_get d "device_name"), (dict_get d "product_name"); reflexivity.
Qed.

Lemma build_event_ok payload event :
  build_event payload = Ok event -> exists d, payload = JDict d.
Proof. destruct payload; try discriminate. eauto. Qed.

(** C4: a record is produced only from a [dict] payload, and then its
    [event] entry is the payload itself; it has a [time], [host] or
    [source] entry exactly when the payload has [device_time],
    [device_name] or [product_name]; [host] is the payload's [device_name]
    and [source] its [product_name]; it has no other entry; and what
    [add_event] returns is this record serialised. In particular a payload
    without [device_name] gives a record without [host]. *)
Theorem event_record_fields payload event :
  build_event payload = Ok event ->
  exists d,
    payload = JDict d
    /\ dict_get event "event" = Some payload
    /\ dict_contains event "time" = dict_contains d "device_time"
    /\ dict_contains event "host" = dict_contains d "device_name"
    /\ dict_contains event "source" = dict_contains d "product_name"
    /\ dict_get event "host" = dict_get d "device_name"
    /\ dict_get event "source" = dict_get d "product_name"
    /\ (forall k, dict_contains event k = true ->
                  In k ["event"; "time"; "host"; "source"])
    /\ add_event payload = Ok (json_dumps (JDict event)).
Proof.
  intros Hbuild. destruct (build_event_ok _ _ Hbuild) as [d ->]. exists d.
  split; [reflexivity|].
  assert (Hadd : add_event (JDict d) = Ok (json_dumps (JDict event)))
    by (unfold add_event; rewrite Hbuild; reflexivity).
  rewrite build_event_spec in Hbuild. unfold time_field, copied_field, rbind in Hbuild.
  unfold dict_contains at 2 4 6.
  destruct (dict_get d "device_time") as [x|];
    [destruct (py_int x) as [n|e]; [|discriminate];
     destruct (py_true_div n 1000) as [t|e]; [|discriminate]|];
    destruct (dict_get d "device_name") as [h|];
    destruct (dict_get d "product_name") as [s|];
    injection Hbuild as <-; cbn;
    (repeat split; try reflexivity; try exact Hadd;
     intros k Hk; apply dict_contains_in in Hk; cbn in Hk; tauto).
Qed.

(** C3 (as amended): when the payload has [device_time] and a record is
    produced, its [time] is [int(device_time) / 1000]: [device_time] is
    first converted to an integer, which for a float discards its
    fractional part (rounding toward zero), and the quotient by 1000 is the
    nearest binary64. An integer [device_time] is used as it is; in
    particular [device_time = 1500000] always gives a record, with
    [time = 1500.0]. *)
Theorem time_is_truncated_device_time :
  (forall payload event x,
      build_event payload = Ok event ->
      getitem payload "device_time" = Ok x ->
      exists n t,
        py_int x = Ok n
        /\ py_true_div n 1000 = Ok t
        /\ dict_get event "time" = Some (JFloat t)
        /\ (forall k, x = JInt k -> n = k)
        /\ (forall f, x = JFloat f -> float_trunc f = Ok n))
  /\ (forall d,
        dict_get d "device_time" = Some (JInt 1500000) ->
        exists event,
          build_event (JDict d) = Ok event
          /\ dict_get event "time" = Some (JFloat (float_of_bits 1500 0))).
Proof.
  split.
  - intros payload event x Hbuild Hget.
    destruct (build_event_ok _ _ Hbuild) as [d ->].
    rewrite build_event_spec in Hbuild. unfold time_field, rbind in Hbuild.
    unfold getitem in Hget.
    destruct (dict_get d "device_time") as [x'|]; [|discriminate].
    injection Hget as ->.
    destruct (py_int x) as [n|e] eqn:Hint; [|discriminate].
    destruct (py_true_div n 1000) as [t|e] eqn:Hdiv; [|discriminate].
    injection Hbuild as <-. exists n, t.
    split; [reflexivity|]. split; [exact Hdiv|]. split; [reflexivity|]. split.
    + intros k ->. cbn in Hint. congruence.
    + intros f ->. exact Hint.
  - intros d Hd. rewrite build_event_spec. unfold time_field. rewrite Hd.
    cbn [py_int rbind].
    change (py_true_div 1500000 1000) with (Ok (float_of_bits 1500 0)).
    eexists. split; reflexivity.
Qed.

Lemma map_result_raises {A B} (f : A -> result B) xs x e :
  In x xs -> f x = Raised e -> exists e', map_result f xs = Raised e'.
Proof.
  intros Hin Hx. induction xs as [|y xs IH]; [destruct Hin|].
  cbn. destruct Hin as [->|Hin].
  - rewrite Hx. cbn. eauto.
  - destruct (f y); cbn; [|eauto].
    destruct (IH Hin) as [e' ->]. cbn. eauto.
Qed.

(** The serialised records of a batch are the records, each serialised
    on its own. *)
Lemma event_list_records json_data events :
  event_list json_data = Ok events ->
  exists records,
    map_result build_event json_data = Ok records
    /\ events = map (fun r => json_dumps (JDict r)) records.
Proof.
  unfold event_list. revert events.
  induction json_data as [|x xs IH]; intros events; cbn.
  - intros [= <-]. exists []. auto.
  - unfold add_event at 1. destruct (build_event x) as [r|e]; [|discriminate]. cbn.
    destruct (map_result add_event xs) as [ys|e]; [|discriminate]. cbn.
    intros [= <-]. destruct (IH ys eq_refl) as (rs & -> & ->).
    exists (r :: rs). auto.
Qed.

Lemma string_app_empty_r (s : str) : s +:+ "" = s.
Proof.
  induction s as [|c s IH]; [reflexivity|].
  change (String c s +:+ "") with (String c (s +:+ "")). now rewrite IH.
Qed.

(** ["".join] puts nothing between the parts. *)
Lemma join_cons x xs : join (x :: xs) = x +:+ join xs.
Proof.
  unfold join. destruct xs as [|y ys]; cbn.
  - now rewrite string_app_empty_r.
  - reflexivity.
Qed.

Lemma join_no_separator parts : join parts = concat_no_separator parts.
Proof.
  induction parts as [|x xs IH]; [reflexivity|].
  rewrite join_cons, IH. reflexivity.
Qed.

Lemma string_app_assoc (a b c : str) : (a +:+ b) +:+ c = a +:+ (b +:+ c).
Proof.
  induction a as [|ch a IH]; [reflexivity|].
  change (String ch a +:+ b) with (String ch (a +:+ b)).
  change (String ch (a +:+ b) +:+ c) with (String ch ((a +:+ b) +:+ c)).
  now rewrite IH.
Qed.

Lemma join_app xs ys : join (xs ++ ys) = join xs +:+ join ys.
Proof.
  induction xs as [|x xs IH]; [reflexivity|].
  cbn [app]. rewrite !join_cons, IH, string_app_assoc. reflexivity.
Qed.

(** C2: whenever a message yields a batch, the batch is the list of its
    records, each serialised on its own with [json.dumps]; the one request
    the worker posts carries as its body the concatenation of these texts
    with nothing between them; and the two serialised records
    [{"event":{"a":1}}] and [{"event":{"b":2}}] concatenate to
    [{"event":{"a":1}}{"event":{"b":2}}]. *)
Theorem batch_wire_form self splunk ce body json_data events :
  delivery_batch ce body = Ok (json_data, events) ->
  (exists records,
      map_result build_event json_data = Ok records
      /\ events = map (fun r => json_dumps (JDict r)) records)
  /\ posted (trace (send_to_splunk self splunk ce body))
     = [splunk_request (self_config self) (join events)]
  /\ map req_data (posted (trace (send_to_splunk self splunk ce body)))
     = [join events]
  /\ join events = concat_no_separator events
  /\ (forall more, join (events ++ more) = join events +:+ join more)
  /\ join [Text.dq "{'event':{'a':1}}"; Text.dq "{'event':{'b':2}}"]
     = Text.dq "{'event':{'a':1}}{'event':{'b':2}}".
Proof.
  unfold delivery_batch, rbind. intros Hbatch.
  destruct (decode_body ce body) as [json_str|e] eqn:Hdecode; [|discriminate].
  destruct (load_events json_str) as [json_data'|e] eqn:Hload; [|discriminate].
  destruct (event_list json_data') as [events'|e] eqn:Hevents; [|discriminate].
  injection Hbatch as -> ->.
  split; [exact (event_list_records _ _ Hevents)|].
  assert (Hposted : posted (trace (send_to_splunk self splunk ce body))
                    = [splunk_request (self_config self) (join events)]).
  { rewrite send_to_splunk_spec. cbv zeta. rewrite Hdecode, Hload, Hevents.
    unfold trace.
    destruct (splunk _) as [reply|e].
    + destruct (_ && _); cbn [fst];
        rewrite !posted_app, posted_debug_lines, ?posted_verbose_lines; reflexivity.
    + destruct (is_RequestException e); cbn [fst];
        rewrite !posted_app, posted_debug_lines; reflexivity. }
  split; [exact Hposted|].
  split; [rewrite Hposted; reflexivity|].
  split; [apply join_no_separator|]. split; [intros more; apply join_app|].
  vm_compute. reflexivity.
Qed.

Lemma load_events_count json_str v :
  json_loads json_str = Ok v ->
  exists json_data, load_events json_str = Ok json_data
                    /\ length json_data = json_count v
                    /\ json_data = match v with JList items => items | _ => [v] end.
Proof.
  intros Hv. unfold load_events. rewrite Hv. cbn.
  eexists. split; [reflexivity|]. split; [|reflexivity].
  destruct v; reflexivity.
Qed.


(** C6: a gzip-tagged message and a message with any other tag that
    carries the decompressed bytes of the first decode to the same text
    (or fail with the same error), yield the same batch, and the worker
    behaves the same on both. *)
Theorem gzip_and_identity_agree self splunk ce gz raw tag :
  ce <> Some "gzip" ->
  gzip_decompress gz = Ok raw ->
  decode_body (Some "gzip") gz = decode_body ce raw
  /\ decode_body (Some "gzip") gz = decode_utf8 raw
  /\ delivery_batch (Some "gzip") gz = delivery_batch ce raw
  /\ send_to_splunk self splunk (Some "gzip") gz = send_to_splunk self splunk ce raw
  /\ rabbit_callback self splunk
       {| delivery_tag := tag; content_encoding := Some "gzip"; body := gz |}
     = rabbit_callback self splunk
         {| delivery_tag := tag; content_encoding := ce; body := raw |}.
Proof.
  intros Hce Hgz.
  assert (Hdecode : decode_body (Some "gzip") gz = decode_body ce raw).
  { unfold decode_body. rewrite Hgz.
    destruct (decide (Some "gzip" = Some "gzip")) as [_|Hno]; [|congruence].
    destruct (decide (ce = Some "gzip")) as [Hyes|_]; [congruence|]. reflexivity. }
  split; [exact Hdecode|]. split.
  { rewrite Hdecode. unfold decode_body.
    destruct (decide (ce = Some "gzip")) as [Hyes|_]; [congruence|]. reflexivity. }
  split; [unfold delivery_batch; now rewrite Hdecode|].
  assert (Hsend : send_to_splunk self splunk (Some "gzip") gz
                  = send_to_splunk self splunk ce raw)
    by (rewrite !send_to_splunk_spec; cbv zeta; now rewrite Hdecode).
  split; [exact Hsend|].
  rewrite !rabbit_callback_spec. cbn [content_encoding body delivery_tag].
  now rewrite Hsend.
Qed.

(** C9: the body is decompressed exactly when the content-encoding is
    ['gzip']; with any other value, [None] included, it is decoded directly
    as UTF-8 and the worker behaves as it does for a message with no
    content-encoding at all; the only errors of the decoding step are those
    of [gzip.decompress] and of the UTF-8 decoder. *)
Theorem content_encoding_dispatch ce body :
  (ce = Some "gzip" ->
   decode_body ce body = (raw <-? gzip_decompress body; decode_utf8 raw)%res)
  /\ (ce <> Some "gzip" -> decode_body ce body = decode_utf8 body)
  /\ (ce <> Some "gzip" ->
      forall self splunk,
        send_to_splunk self splunk ce body = send_to_splunk self splunk None body)
  /\ (forall e, decode_body ce body = Raised e ->
        (ce = Some "gzip" /\ gzip_decompress body = Raised e)
        \/ (exists raw, decode_utf8 raw = Raised e)).
Proof.
  unfold decode_body.
  split; [|split; [|split]].
  - intros ->. destruct (decide (Some "gzip" = Some "gzip")); [reflexivity|congruence].
  - intros Hce. destruct (decide (ce = Some "gzip")); [congruence|reflexivity].
  - intros Hce self splunk. rewrite !send_to_splunk_spec. cbv zeta.
    unfold decode_body.
    destruct (decide (ce = Some "gzip")); [congruence|].
    destruct (decide (None = Some "gzip")); [congruence|]. reflexivity.
  - intros e. destruct (decide (ce = Some "gzip")) as [Hce|Hce].
    + unfold rbind. destruct (gzip_decompress body) as [raw|e'] eqn:Hgz.
      * intros Hraw. right. eauto.
      * intros [= ->]. left. auto.
    + intros Hraw. right. eauto.
Qed.

(** C10: when the decoded body parses but one of its elements is not an
    object, [add_event] raises [AttributeError] on that element instead of
    producing a record, and the callback ends with an exception before
    anything is posted, acknowledged or reported; when the body is a single
    value that is neither an object nor a list, that exception is
    [AttributeError]. *)
Theorem non_object_element_is_fatal self splunk msg json_str v x :
  decode_body (content_encoding msg) (body msg) = Ok json_str ->
  json_loads json_str = Ok v ->
  In x (match v with JList items => items | _ => [v] end) ->
  is_dict x = false ->
  let run := rabbit_callback self splunk msg in
  build_event x = Raised AttributeError
  /\ add_event x = Raised AttributeError
  /\ (exists e, outcome run = Raised e)
  /\ posted (trace run) = []
  /\ acked (trace run) = []
  /\ metrics (trace run) = []
  /\ (is_dict v = false -> isinstance_list v = false ->
      outcome run = Raised AttributeError).
Proof.
  intros Hdecode Hv Hin Hx. cbv zeta.
  pose proof (add_event_not_dict x Hx) as Hadd.
  split; [exact (build_event_not_dict x Hx)|]. split; [exact Hadd|].
  destruct (load_events_count _ _ Hv) as (json_data & Hload & _ & Hdata).
  rewrite <- Hdata in Hin.
  destruct (map_result_raises add_event json_data x _ Hin Hadd) as [e He].
  assert (Hrun : rabbit_callback self splunk msg
                 = (debug_lines (self_config self) json_str, Raised e)).
  { rewrite rabbit_callback_spec, send_to_splunk_spec. cbv zeta.
    rewrite Hdecode, Hload. unfold event_list. rewrite He. reflexivity. }
  rewrite Hrun. unfold trace, outcome. cbn [fst snd].
  split; [eauto|]. split; [apply posted_debug_lines|].
  split; [apply acked_debug_lines|]. split.
  - unfold debug_lines. destruct (debug _); reflexivity.
  - intros Hnd Hnl. destruct v; try discriminate; subst json_data;
      cbn in He; congruence.
Qed.

(** ** Further properties of the delivery path *)

(** The check [if not reply.ok] (consumer.py:178-180) never fires: a reply
    that fails it has already been turned into an exception by
    [raise_for_status], so its failure line is never printed. *)
Theorem failure_line_is_never_printed self splunk ce body why code :
  ~ In (Print (LogFailure why code)) (trace (send_to_splunk self splunk ce body)).
Proof.
  rewrite send_to_splunk_spec. cbv zeta. unfold trace, debug_lines, verbose_lines.
  destruct (decode_body ce body) as [json_str|e]; [|intros []].
  destruct (debug (self_config self));
    (destruct (load_events json_str) as [json_data|e];
     [|cbn; intuition discriminate]);
    (destruct (event_list json_data) as [events|e];
     [|cbn; intuition discriminate]);
    (destruct (splunk _) as [reply|e];
     [ destruct (_ && _);
       [|destruct (verbose (self_config self))]
     | destruct (is_RequestException e) ]);
    cbn; intuition discriminate.
Qed.

(** Every request a worker posts goes to the configured URL with
    certificate verification off and the configured token in its
    [Authorization] header, and a callback posts at most once. *)
Theorem posted_requests_shape self splunk msg :
  Forall (fun req =>
            req_url req = splunk_url (self_config self)
            /\ req_verify req = false
            /\ req_headers req
               = [("Authorization", "Splunk " +:+ splunk_token (self_config self))])
         (posted (trace (rabbit_callback self splunk msg)))
  /\ (length (posted (trace (rabbit_callback self splunk msg))) <= 1)%nat.
Proof.
  rewrite rabbit_callback_spec, send_to_splunk_spec. cbv zeta. unfold trace.
  destruct (decode_body _ _) as [json_str|e]; [|cbn; auto].
  destruct (load_events json_str) as [json_data|e];
    [|cbn [fst]; rewrite posted_debug_lines; cbn; auto].
  destruct (event_list json_data) as [events|e];
    [|cbn [fst]; rewrite posted_debug_lines; cbn; auto].
  destruct (splunk _) as [reply|e].
  - destruct (_ && _); cbn [fst];
      rewrite !posted_app, ?posted_debug_lines, ?posted_verbose_lines; cbn;
      (split; [repeat constructor|lia]).
  - destruct (is_RequestException e); cbn [fst];
      rewrite !posted_app, ?posted_debug_lines; cbn;
      (split; [repeat constructor|lia]).
Qed.

Lemma start_consuming_cons self splunk msg rest :
  start_consuming self ((splunk, msg) :: rest) =
  match rabbit_callback self splunk msg with
  | (t, Ok _) =>
      (t ++ trace (start_consuming self rest), outcome (start_consuming self rest))
  | (t, Raised e) => (t, Raised e)
  end.
Proof.
  cbn [start_consuming]. unfold bind, trace, outcome.
  destruct (rabbit_callback self splunk msg) as [t [[]|e]]; [|reflexivity].
  destruct (start_consuming self rest). reflexivity.
Qed.

(** The consuming loop acknowledges the deliveries in the order it gets
    them and stops at the first that fails: the acknowledged tags are a
    prefix of the delivered ones, all of them when the loop runs to the
    end, and one metric is reported per acknowledged message. *)
Theorem consuming_acknowledges_a_prefix self deliveries :
  let run := start_consuming self deliveries in
  let tags := map (fun d => delivery_tag (snd d)) deliveries in
  (exists k, acked (trace run) = firstn k tags)
  /\ (outcome run = Ok tt -> acked (trace run) = tags)
  /\ length (metrics (trace run)) = length (acked (trace run)).
Proof.
  cbv zeta. induction deliveries as [|[splunk msg] rest IH].
  - cbn. split; [exists 0%nat; reflexivity|]. auto.
  - destruct IH as ((k & Hk) & Hall & Hlen).
    rewrite start_consuming_cons, rabbit_callback_spec.
    pose proof (send_to_splunk_never_acks self splunk (content_encoding msg) (body msg))
      as Hnone.
    pose proof (send_to_splunk_no_metric self splunk (content_encoding msg) (body msg))
      as Hquiet.
    destruct (send_to_splunk self splunk (content_encoding msg) (body msg))
      as [t [n|e]]; unfold trace, outcome in *; cbn [fst snd map] in *.
    + rewrite !acked_app, !metrics_app, Hnone, Hquiet. cbn.
      split; [exists (S k); cbn; now rewrite Hk|].
      split; [intros Hok; now rewrite (Hall Hok)|]. now rewrite Hlen.
    + rewrite Hnone, Hquiet.
      split; [exists 0%nat; reflexivity|]. split; [discriminate|reflexivity].
Qed.

End WorkerTheorems.

(** ** The range of a true division *)

Lemma digits2_pos_size p : digits2_pos p = Pos.size p.
Proof. induction p as [p IH|p IH|]; cbn; now rewrite ?IH. Qed.

Lemma Zdigits2_nonneg m : 0 <= Zdigits2 m.
Proof. destruct m; cbn; lia. Qed.

Lemma Zdigits2_upper m : 0 <= m -> m < 2 ^ Zdigits2 m.
Proof.
  destruct m as [|p|p]; cbn; [lia| |lia]. intros _.
  rewrite digits2_pos_size. pose proof (Pos.size_gt p) as Hgt.
  apply Pos2Z.pos_lt_pos in Hgt. now rewrite Pos2Z.inj_pow in Hgt.
Qed.

Lemma Zdigits2_le m k : 0 <= k -> 0 <= m < 2 ^ k -> Zdigits2 m <= k.
Proof.
  intros Hk [Hm Hlt]. destruct m as [|p|p]; cbn; [lia| |lia].
  rewrite digits2_pos_size. pose proof (Pos.size_le p) as Hle.
  apply Pos2Z.pos_le_pos in Hle. rewrite Pos2Z.inj_pow in Hle.
  destruct (Z_le_gt_dec (Zpos (Pos.size p)) k) as [|Hgt]; [assumption|exfalso].
  assert (Hpow : 2 ^ (k + 1) <= 2 ^ Zpos (Pos.size p))
    by (apply Z.pow_le_mono_r; lia).
  rewrite Z.pow_add_r in Hpow by lia. change (Zpos p~0) with (2 * Zpos p) in Hle.
  lia.
Qed.

Lemma shr_1_m r : 0 <= shr_m r -> shr_m (shr_1 r) = shr_m r / 2.
Proof.
  destruct r as [m rb sb]. cbn [shr_m]. intros Hm.
  rewrite <- Z.div2_div. destruct m as [|[p|p|]|p]; try reflexivity; lia.
Qed.

Lemma iter_shr_1_m p r :
  0 <= shr_m r -> shr_m (SpecFloat.iter_pos shr_1 p r) = shr_m r / 2 ^ Zpos p.
Proof.
  revert r. induction p as [p IH|p IH|]; intros r Hr; cbn [SpecFloat.iter_pos].
  - assert (H1 : 0 <= shr_m (shr_1 r)) by (rewrite shr_1_m by lia; apply Z.div_pos; lia).
    assert (H2 : 0 <= shr_m (SpecFloat.iter_pos shr_1 p (shr_1 r)))
      by (rewrite IH by lia; apply Z.div_pos; lia).
    rewrite IH, IH, shr_1_m by lia.
    rewrite !Z.div_div by lia. f_equal.
    rewrite Pos2Z.inj_xI, Z.pow_add_r, Z.pow_mul_r, Z.pow_1_r by lia.
    change (2 ^ 2) with 4. replace (4 ^ Zpos p) with (2 ^ Zpos p * 2 ^ Zpos p); [lia|].
    rewrite <- Z.pow_add_r by lia. replace (Zpos p + Zpos p) with (2 * Zpos p) by lia.
    now rewrite Z.pow_mul_r by lia.
  - assert (H2 : 0 <= shr_m (SpecFloat.iter_pos shr_1 p r))
      by (rewrite IH by lia; apply Z.div_pos; lia).
    rewrite IH, IH by lia. rewrite Z.div_div by lia. f_equal.
    rewrite Pos2Z.inj_xO. rewrite <- Z.pow_add_r by lia. f_equal. lia.
  - rewrite shr_1_m by lia. reflexivity.
Qed.

Lemma shr_record_of_loc_m m l : shr_m (shr_record_of_loc m l) = m.
Proof. destruct l as [|[]]; reflexivity. Qed.

(** After [shr_fexp]: the mantissa is not negative, the exponent is the
    larger of the old one and the canonical one, and the value has not
    grown. *)
Lemma shr_fexp_bounds m e l mrs e' :
  0 <= m ->
  shr_fexp prec emax m e l = (mrs, e') ->
  0 <= shr_m mrs
  /\ e' = Z.max e (fexp prec emax (Zdigits2 m + e))
  /\ Zdigits2 (shr_m mrs) + e' <= Z.max (Zdigits2 m + e) e'.
Proof.
  intros Hm. unfold shr_fexp, shr.
  destruct (fexp prec emax (Zdigits2 m + e) - e) as [|n|n] eqn:Hn.
  - intros [= <- <-]. rewrite shr_record_of_loc_m. lia.
  - intros [= <- <-].
    rewrite iter_shr_1_m by (rewrite shr_record_of_loc_m; lia).
    rewrite shr_record_of_loc_m.
    assert (Hq : 0 <= m / 2 ^ Zpos n) by (apply Z.div_pos; lia).
    split; [exact Hq|]. split; [lia|].
    pose proof (Zdigits2_upper m Hm) as Hup.
    pose proof (Zdigits2_nonneg m) as Hd.
    destruct (Z_le_gt_dec (Zdigits2 m) (Zpos n)) as [Hsmall|Hbig].
    + assert (Hzero : m / 2 ^ Zpos n = 0).
      { apply Z.div_small. split; [lia|].
        apply Z.lt_le_trans with (2 ^ Zdigits2 m); [lia|].
        apply Z.pow_le_mono_r; lia. }
      rewrite Hzero. cbn [Zdigits2]. lia.
    + assert (Hle : Zdigits2 (m / 2 ^ Zpos n) <= Zdigits2 m - Zpos n).
      { apply Zdigits2_le; [lia|]. split; [lia|].
        apply Z.div_lt_upper_bound; [lia|].
        rewrite <- Z.pow_add_r by lia.
        replace (Zpos n + (Zdigits2 m - Zpos n)) with (Zdigits2 m) by lia. lia. }
      lia.
  - intros [= <- <-]. rewrite shr_record_of_loc_m. lia.
Qed.

Lemma round_nearest_even_bounds m l :
  0 <= m -> m <= round_nearest_even m l <= m + 1.
Proof.
  intros Hm. unfold round_nearest_even.
  destruct l as [|[]]; try destruct (Z.even m); lia.
Qed.

Lemma Zdigits2_succ m k : 0 <= m -> m <= k <= m + 1 -> Zdigits2 k <= Zdigits2 m + 1.
Proof.
  intros Hm Hk. pose proof (Zdigits2_upper m Hm). pose proof (Zdigits2_nonneg m).
  apply Zdigits2_le; [lia|]. split; [lia|].
  rewrite Z.pow_add_r by lia. lia.
Qed.

(** Rounding a value below [2^1001] gives a zero or a finite float. *)
Lemma binary_round_aux_finite s m e l :
  0 <= m -> e <= 0 -> Zdigits2 m + e <= 1000 ->
  match binary_round_aux prec emax s m e l with
  | S754_zero _ | S754_finite _ _ _ => True
  | _ => False
  end.
Proof.
  intros Hm He Hd. unfold binary_round_aux.
  destruct (shr_fexp prec emax m e l) as [mrs1 e1] eqn:H1.
  destruct (shr_fexp_bounds _ _ _ _ _ Hm H1) as (Hm1 & He1 & Hd1).
  pose proof (round_nearest_even_bounds (shr_m mrs1) (loc_of_shr_record mrs1) Hm1)
    as Hround.
  set (m2 := round_nearest_even (shr_m mrs1) (loc_of_shr_record mrs1)) in *.
  destruct (shr_fexp prec emax m2 e1 loc_Exact) as [mrs2 e2] eqn:H2.
  assert (Hm2 : 0 <= m2) by lia.
  destruct (shr_fexp_bounds _ _ _ _ _ Hm2 H2) as (Hm3 & He2 & _).
  pose proof (Zdigits2_succ _ _ Hm1 Hround) as Hsucc.
  unfold fexp, SpecFloat.emin, prec, emax in *.
  destruct (shr_m mrs2) as [|p|p]; [exact I| |lia].
  destruct (e2 <=? 1024 - 53) eqn:Hle; [exact I|].
  apply Z.leb_gt in Hle. lia.
Qed.

(** The quotient digits that [SFdiv] computes for two integers. *)
Lemma SFdiv_core_bounds pa pb q e l :
  SFdiv_core_binary prec emax (Zpos pa) 0 (Zpos pb) 0 = (q, e, l) ->
  0 <= q /\ e <= 0 /\ Zdigits2 q + e <= Zdigits2 (Zpos pa).
Proof.
  unfold SFdiv_core_binary.
  set (d1 := Zdigits2 (Zpos pa)). set (d2 := Zdigits2 (Zpos pb)).
  set (e' := Z.min (fexp prec emax (d1 + 0 - (d2 + 0))) (0 - 0)).
  assert (He' : e' <= 0) by (subst e'; lia).
  pose proof (Zdigits2_upper (Zpos pa) ltac:(lia)) as Hup. fold d1 in Hup.
  pose proof (Zdigits2_nonneg (Zpos pa)) as Hd1. fold d1 in Hd1.
  assert (Hshift : forall m', (m' = Zpos pa /\ e' = 0) \/ (m' = Zpos pa * 2 ^ (- e') /\ e' < 0) ->
             forall q r, Z.div_eucl m' (Zpos pb) = (q, r) ->
             0 <= q /\ Zdigits2 q + e' <= d1).
  { intros m' Hm' q0 r0 Hdiv.
    assert (Hq0 : q0 = m' / Zpos pb) by (unfold Z.div; now rewrite Hdiv).
    assert (Hm'0 : 0 <= m' < 2 ^ (d1 - e')).
    { destruct Hm' as [[-> ->]|[-> Hneg]].
      - rewrite Z.sub_0_r. lia.
      - split; [apply Z.mul_nonneg_nonneg; [lia|apply Z.pow_nonneg; lia]|].
        replace (d1 - e') with (d1 + - e') by lia. rewrite Z.pow_add_r by lia.
        apply Z.mul_lt_mono_pos_r; [apply Z.pow_pos_nonneg; lia|lia]. }
    assert (Hq : 0 <= q0 <= m').
    { subst q0. split; [apply Z.div_pos; lia|].
      apply Z.div_le_upper_bound; [lia|]. nia. }
    split; [lia|].
    assert (Zdigits2 q0 <= d1 - e'); [|lia].
    apply Zdigits2_le; lia. }
  destruct (0 - 0 - e') as [|s|s] eqn:Hs.
  - destruct (Z.div_eucl (Zpos pa) (Zpos pb)) as [q0 r0] eqn:Hdiv.
    intros [= <- <- <-].
    destruct (Hshift (Zpos pa) ltac:(left; split; [reflexivity|lia]) _ _ Hdiv). lia.
  - destruct (Z.div_eucl (Z.shiftl (Zpos pa) (Zpos s)) (Zpos pb)) as [q0 r0] eqn:Hdiv.
    intros [= <- <- <-].
    rewrite Z.shiftl_mul_pow2 in Hdiv by lia.
    assert (Hse : Zpos s = - e') by lia. rewrite Hse in Hdiv.
    destruct (Hshift _ ltac:(right; split; [reflexivity|lia]) _ _ Hdiv). lia.
  - lia.
Qed.

(** [a / b] is defined for every [a] below [2^1000] in magnitude and every
    [b] other than zero, and its integer part can be taken. *)
Lemma py_true_div_defined a b :
  b <> 0 -> Z.abs a < 2 ^ 1000 ->
  exists q n, py_true_div a b = Ok q /\ float_trunc q = Ok n.
Proof.
  intros Hb Ha. unfold py_true_div.
  destruct (b =? 0) eqn:Hb0; [apply Z.eqb_eq in Hb0; contradiction|].
  assert (Hcase : forall sa pa sb pb,
             Zpos pa < 2 ^ 1000 ->
             exists q n,
               match SFdiv prec emax (S754_finite sa pa 0) (S754_finite sb pb 0) with
               | S754_infinity _ | S754_nan => Raised OverflowError
               | q => Ok q
               end = Ok q /\ float_trunc q = Ok n).
  { intros sa pa sb pb Hpa. unfold SFdiv.
    destruct (SFdiv_core_binary prec emax (Zpos pa) 0 (Zpos pb) 0) as [[q e] l] eqn:Hcore.
    destruct (SFdiv_core_bounds _ _ _ _ _ Hcore) as (Hq & He & Hd).
    assert (Hdig : Zdigits2 (Zpos pa) <= 1000) by (apply Zdigits2_le; lia).
    pose proof (binary_round_aux_finite (xorb sa sb) q e l Hq He ltac:(lia)) as Hfin.
    destruct (binary_round_aux prec emax (xorb sa sb) q e l) as [s| | |s m e0];
      try contradiction; eexists _, _; split; reflexivity. }
  destruct a as [|pa|pa]; destruct b as [|pb|pb]; try contradiction;
    try (cbn; eexists _, _; split; reflexivity); cbn [Z2SF]; apply Hcase; lia.
Qed.

(** ** The aggregator *)

Lemma aggregate_step_defined cfg st metric now :
  Z.abs (total_msg_count st + 1 - last_total_msg_count st) < 2 ^ 1000 ->
  Z.abs (total_session_count st + Z.of_nat (snd metric) - last_total_session_count st)
    < 2 ^ 1000 ->
  exists st' line,
    aggregate_step cfg st metric now = Ok (st', line)
    /\ total_msg_count st' = total_msg_count st + 1
    /\ total_session_count st' = total_session_count st + Z.of_nat (snd metric)
    /\ (5 <= now - last_time st ->
        exists r,
          line = Some r
          /\ py_true_div (total_msg_count st' - last_total_msg_count st)
               (now - last_time st) = Ok (rep_msg_per_second r)
          /\ (exists q,
                py_true_div (total_session_count st' - last_total_session_count st)
                  (now - last_time st) = Ok q
                /\ float_trunc q = Ok (rep_sessions_per_second r))
          /\ rep_total_messages r = total_msg_count st'
          /\ last_time st' = now
          /\ last_total_msg_count st' = total_msg_count st'
          /\ last_total_session_count st' = total_session_count st')
    /\ (now - last_time st < 5 ->
        line = None
        /\ last_time st' = last_time st
        /\ last_total_msg_count st' = last_total_msg_count st
        /\ last_total_session_count st' = last_total_session_count st).
Proof.
  intros Hmsg Hsess. unfold aggregate_step. destruct metric as [process_num session_count].
  cbn [snd] in Hsess.
  destruct (5 <=? now - last_time st) eqn:Hdelta.
  - apply Z.leb_le in Hdelta.
    destruct (py_true_div_defined _ (now - last_time st) ltac:(lia) Hmsg)
      as (qm & nm & Hqm & _).
    destruct (py_true_div_defined _ (now - last_time st) ltac:(lia) Hsess)
      as (qs & ns & Hqs & Hns).
    rewrite Hqm, Hqs. cbn [rbind]. rewrite Hns. cbn [rbind].
    eexists _, _. split; [reflexivity|]. cbn.
    split; [reflexivity|]. split; [reflexivity|]. split.
    + intros _. eexists. split; [reflexivity|]. cbn.
      split; [exact Hqm|]. split; [exists qs; auto|]. auto.
    + intros Hlt. lia.
  - apply Z.leb_gt in Hdelta.
    eexists _, _. split; [reflexivity|]. cbn.
    split; [reflexivity|]. split; [reflexivity|]. split.
    + intros Hge. lia.
    + intros _. auto.
Qed.

Lemma aggregate_step_totals cfg st metric now st' line :
  aggregate_step cfg st metric now = Ok (st', line) ->
  total_msg_count st' = total_msg_count st + 1
  /\ total_session_count st' = total_session_count st + Z.of_nat (snd metric)
  /\ (last_total_msg_count st' = last_total_msg_count st
      \/ last_total_msg_count st' = total_msg_count st')
  /\ (last_total_session_count st' = last_total_session_count st
      \/ last_total_session_count st' = total_session_count st').
Proof.
  unfold aggregate_step. destruct metric as [process_num session_count].
  destruct (5 <=? now - last_time st).
  - destruct (py_true_div _ _); [|discriminate]. cbn [rbind].
    destruct (py_true_div _ _); [|discriminate]. cbn [rbind].
    destruct (float_trunc _); [|discriminate]. cbn [rbind].
    intros [= <- <-]. cbn. auto.
  - intros [= <- <-]. cbn. auto.
Qed.

Lemma aggregate_loop_totals cfg inputs :
  forall st st' lines,
    aggregate_loop cfg st inputs = Ok (st', lines) ->
    total_msg_count st' = total_msg_count st + Z.of_nat (length inputs)
    /\ total_session_count st' = total_session_count st + sessions_of inputs.
Proof.
  induction inputs as [|[metric now] rest IH]; intros st st' lines; cbn [aggregate_loop].
  - intros [= <- <-]. cbn. lia.
  - destruct (aggregate_step cfg st metric now) as [[st1 line]|e] eqn:Hstep;
      [|discriminate]. cbn [rbind].
    destruct (aggregate_loop cfg st1 rest) as [[st2 lines2]|e] eqn:Hloop;
      [|discriminate]. cbn [rbind].
    intros [= <- <-].
    destruct (aggregate_step_totals _ _ _ _ _ _ Hstep) as (Hm & Hs & _).
    destruct (IH _ _ _ Hloop) as (Hm' & Hs').
    cbn [length sessions_of fold_right fst snd]. unfold sessions_of in Hs'. lia.
Qed.

Lemma aggregate_loop_defined cfg inputs :
  forall st,
    window_within_totals st ->
    total_msg_count st + Z.of_nat (length inputs) < 2 ^ 1000 ->
    total_session_count st + sessions_of inputs < 2 ^ 1000 ->
    exists st' lines,
      aggregate_loop cfg st inputs = Ok (st', lines) /\ window_within_totals st'.
Proof.
  induction inputs as [|[metric now] rest IH]; intros st Hwf Hmsg Hsess;
    cbn [aggregate_loop].
  - eauto.
  - cbn [length sessions_of fold_right fst snd] in Hmsg, Hsess.
    fold (sessions_of rest) in Hsess.
    assert (Hrest : 0 <= sessions_of rest).
    { clear. induction rest as [|i rest IH]; cbn; [lia|].
      unfold sessions_of in IH. lia. }
    destruct Hwf as (Hm & Hs).
    destruct (aggregate_step_defined cfg st metric now ltac:(lia) ltac:(lia))
      as (st1 & line & Hstep & _).
    destruct (aggregate_step_totals _ _ _ _ _ _ Hstep) as (Hm1 & Hs1 & Hlm & Hls).
    assert (Hwf1 : window_within_totals st1) by (unfold window_within_totals; lia).
    destruct (IH st1 Hwf1 ltac:(lia) ltac:(lia)) as (st2 & lines & Hloop & Hwf2).
    rewrite Hstep. cbn [rbind]. rewrite Hloop. cbn [rbind]. eauto.
Qed.

(** C7: while the window of an iteration stays within the range of a
    float (below 2^1000), the loop consumes every metric; it adds one to
    the total of messages and the metric's count to the total of records;
    when at least 5 seconds have passed since the last report it prints
    the messages per second and the records per second over the interval
    since that report (the increase of each total divided by the elapsed
    seconds) and then sets the last-report time and the last-report
    counters to the present ones; otherwise it prints nothing and leaves
    the window as it is. Over a whole run from the start the totals are
    the number of metrics received and the sum of their counts, and along
    any run they never decrease. *)
Theorem aggregator_reports_and_keeps_totals cfg :
  (forall st metric now,
      Z.abs (total_msg_count st + 1 - last_total_msg_count st) < 2 ^ 1000 ->
      Z.abs (total_session_count st + Z.of_nat (snd metric)
             - last_total_session_count st) < 2 ^ 1000 ->
      exists st' line,
        aggregate_step cfg st metric now = Ok (st', line)
        /\ total_msg_count st' = total_msg_count st + 1
        /\ total_session_count st' = total_session_count st + Z.of_nat (snd metric)
        /\ total_msg_count st <= total_msg_count st'
        /\ total_session_count st <= total_session_count st'
        /\ (5 <= now - last_time st ->
            exists r,
              line = Some r
              /\ py_true_div (total_msg_count st' - last_total_msg_count st)
                   (now - last_time st) = Ok (rep_msg_per_second r)
              /\ (exists q,
                    py_true_div (total_session_count st' - last_total_session_count st)
                      (now - last_time st) = Ok q
                    /\ float_trunc q = Ok (rep_sessions_per_second r))
              /\ rep_total_messages r = total_msg_count st'
              /\ last_time st' = now
              /\ last_total_msg_count st' = total_msg_count st'
              /\ last_total_session_count st' = total_session_count st')
        /\ (now - last_time st < 5 ->
            line = None
            /\ last_time st' = last_time st
            /\ last_total_msg_count st' = last_total_msg_count st
            /\ last_total_session_count st' = last_total_session_count st))
  /\ (forall start inputs,
        Z.of_nat (length inputs) < 2 ^ 1000 ->
        sessions_of inputs < 2 ^ 1000 ->
        exists st' lines,
          aggregate_loop cfg (initial_state start) inputs = Ok (st', lines)
          /\ total_msg_count st' = Z.of_nat (length inputs)
          /\ total_session_count st' = sessions_of inputs)
  /\ (forall st inputs st' lines,
        aggregate_loop cfg st inputs = Ok (st', lines) ->
        total_msg_count st <= total_msg_count st'
        /\ total_session_count st <= total_session_count st').
Proof.
  split; [|split].
  - intros st metric now Hmsg Hsess.
    destruct (aggregate_step_defined cfg st metric now Hmsg Hsess)
      as (st' & line & Hstep & Hm & Hs & Hreport & Hquiet).
    exists st', line. repeat (split; [first [assumption | lia]|]). exact Hquiet.
  - intros start inputs Hlen Hsum.
    destruct (aggregate_loop_defined cfg inputs (initial_state start))
      as (st' & lines & Hloop & _).
    + unfold window_within_totals. cbn. lia.
    + cbn. lia.
    + cbn. lia.
    + destruct (aggregate_loop_totals _ _ _ _ _ Hloop) as (Hm & Hs). cbn in Hm, Hs.
      eauto.
  - intros st inputs st' lines Hloop.
    destruct (aggregate_loop_totals _ _ _ _ _ Hloop) as (Hm & Hs).
    assert (0 <= sessions_of inputs).
    { clear. induction inputs as [|i rest IH]; cbn; [lia|].
      unfold sessions_of in IH. lia. }
    lia.
Qed.

(** ** The topology set-up *)

Lemma broker_eta b :
  {| listening := listening b; users := users b; vhosts := vhosts b;
     exchanges := exchanges b; queues := queues b; bindings := bindings b |} = b.
Proof. destruct b; reflexivity. Qed.

Lemma authenticated_true b user password :
  authenticated b user password = true <-> users b !! user = Some password.
Proof. unfold authenticated. apply bool_decide_eq_true. Qed.

(** On a provisioned broker every step of the set-up changes nothing. *)
Lemma add_vhost_provisioned cfg b : provisioned cfg b -> add_vhost cfg b = Ok b.
Proof.
  intros (Hup & Hauth & Hv & _). unfold add_vhost, put_vhost.
  rewrite Hup. cbn [negb].
  apply authenticated_true in Hauth. rewrite Hauth. cbn [negb].
  rewrite bool_decide_eq_true_2 by exact Hv. reflexivity.
Qed.

Lemma start_provisioned cfg b :
  provisioned cfg b ->
  start cfg b = Ok (b, {| channel_vhost := rabbitmq_vhost cfg; prefetch_count := 10 |}).
Proof.
  intros (Hup & Hauth & Hv & Hex & Hq & Hb). unfold start, connect.
  rewrite Hup. cbn [negb].
  apply authenticated_true in Hauth. rewrite Hauth.
  rewrite bool_decide_eq_true_2 by exact Hv. cbn [andb rbind].
  unfold exchange_declare. cbn [channel_vhost]. rewrite Hex.
  rewrite bool_decide_eq_true_2 by reflexivity. cbn [rbind].
  unfold queue_declare. cbn [channel_vhost]. rewrite Hq.
  rewrite bool_decide_eq_true_2 by reflexivity. cbn [rbind].
  unfold queue_bind. cbn [channel_vhost]. rewrite Hq, Hex. cbn [rbind].
  unfold basic_qos, with_bindings. cbn [channel_vhost].
  rewrite (subseteq_union_1_L _ (bindings b))
    by (apply singleton_subseteq_l; exact Hb).
  now rewrite broker_eta.
Qed.

(** A set-up that succeeds leaves the broker provisioned. *)
Lemma add_vhost_ok cfg b b' :
  add_vhost cfg b = Ok b' ->
  listening b' = true
  /\ users b' !! rabbitmq_user cfg = Some (rabbitmq_password cfg)
  /\ rabbitmq_vhost cfg ∈ vhosts b'.
Proof.
  unfold add_vhost, put_vhost.
  destruct (listening b) eqn:Hup; cbn [negb]; [|discriminate].
  destruct (authenticated b _ _) eqn:Hauth; cbn [negb]; [|discriminate].
  apply authenticated_true in Hauth.
  destruct (bool_decide (rabbitmq_vhost cfg ∈ vhosts b)) eqn:Hv; cbn.
  - intros [= <-]. apply bool_decide_eq_true in Hv. auto.
  - intros [= <-]. cbn. split; [assumption|]. split; [assumption|]. set_solver.
Qed.

Lemma exchange_declare_ok b ch exchange b' :
  exchange_declare b ch exchange true = Ok b' ->
  listening b' = listening b /\ users b' = users b /\ vhosts b' = vhosts b
  /\ queues b' = queues b /\ bindings b' = bindings b
  /\ exchanges b' !! (channel_vhost ch, exchange) = Some declared_exchange.
Proof.
  unfold exchange_declare. fold declared_exchange.
  destruct (exchanges b !! (channel_vhost ch, exchange)) as [found|] eqn:Hfound.
  - destruct (bool_decide (found = declared_exchange)) eqn:Heq; [|discriminate].
    apply bool_decide_eq_true in Heq. subst found. intros [= <-]. auto 10.
  - intros [= <-]. cbn. rewrite lookup_insert_eq. auto 10.
Qed.

Lemma queue_declare_ok b ch queue b' :
  queue_declare b ch queue = Ok b' ->
  listening b' = listening b /\ users b' = users b /\ vhosts b' = vhosts b
  /\ exchanges b' = exchanges b /\ bindings b' = bindings b
  /\ queues b' !! (channel_vhost ch, queue) = Some declared_queue.
Proof.
  unfold queue_declare. fold declared_queue.
  destruct (queues b !! (channel_vhost ch, queue)) as [found|] eqn:Hfound.
  - destruct (bool_decide (found = declared_queue)) eqn:Heq; [|discriminate].
    apply bool_decide_eq_true in Heq. subst found. intros [= <-]. auto 10.
  - intros [= <-]. cbn. rewrite lookup_insert_eq. auto 10.
Qed.

Lemma queue_bind_ok b ch queue exchange routing_key b' :
  queue_bind b ch queue exchange routing_key = Ok b' ->
  listening b' = listening b /\ users b' = users b /\ vhosts b' = vhosts b
  /\ exchanges b' = exchanges b /\ queues b' = queues b
  /\ (channel_vhost ch, queue, exchange, routing_key) ∈ bindings b'.
Proof.
  unfold queue_bind.
  destruct (queues b !! (channel_vhost ch, queue)); [|discriminate].
  destruct (exchanges b !! (channel_vhost ch, exchange)); [|discriminate].
  intros [= <-]. cbn. repeat split; try reflexivity. set_solver.
Qed.

Lemma start_ok cfg b b' ch :
  start cfg b = Ok (b', ch) ->
  ch = {| channel_vhost := rabbitmq_vhost cfg; prefetch_count := 10 |}
  /\ provisioned cfg b'.
Proof.
  unfold start, connect.
  destruct (listening b) eqn:Hup; cbn [negb]; [|discriminate].
  destruct (authenticated b _ _) eqn:Hauth; cbn [andb]; [|discriminate].
  apply authenticated_true in Hauth.
  destruct (bool_decide (rabbitmq_vhost cfg ∈ vhosts b)) eqn:Hv; [|discriminate].
  apply bool_decide_eq_true in Hv. cbn [rbind].
  destruct (exchange_declare b _ _ true) as [b1|e] eqn:H1; [|discriminate].
  cbn [rbind].
  destruct (queue_declare b1 _ _) as [b2|e] eqn:H2; [|discriminate].
  cbn [rbind].
  destruct (queue_bind b2 _ _ _ _) as [b3|e] eqn:H3; [|discriminate].
  cbn [rbind]. intros [= <- <-].
  apply exchange_declare_ok in H1. apply queue_declare_ok in H2.
  apply queue_bind_ok in H3. cbn [channel_vhost] in *.
  destruct H1 as (Hl1 & Hu1 & Hv1 & _ & _ & Hex1).
  destruct H2 as (Hl2 & Hu2 & Hv2 & Hex2 & _ & Hq2).
  destruct H3 as (Hl3 & Hu3 & Hv3 & Hex3 & Hq3 & Hb3).
  split; [reflexivity|]. unfold provisioned.
  rewrite Hl3, Hl2, Hl1, Hu3, Hu2, Hu1, Hv3, Hv2, Hv1, Hex3, Hex2, Hq3.
  auto 10.
Qed.

(** C8: when one launch of the set-up succeeds, a second launch with the
    same parameters on the broker it left succeeds as well and leaves the
    broker exactly as it found it: the virtual host exists, the exchange
    is durable, the queue is named after the exchange with [_q] appended,
    it is bound to the exchange with the empty routing key, and the
    channel's prefetch count is 10. *)
Theorem topology_initializer_idempotent cfg b b1 ch1 :
  topology_initializer cfg b = Ok (b1, ch1) ->
  topology_initializer cfg b1 = Ok (b1, ch1)
  /\ add_vhost cfg b1 = Ok b1
  /\ start cfg b1 = Ok (b1, ch1)
  /\ rabbitmq_vhost cfg ∈ vhosts b1
  /\ (exists decl,
        exchanges b1 !! (rabbitmq_vhost cfg, rabbitmq_exchange cfg) = Some decl
        /\ exchange_durable decl = true)
  /\ is_Some (queues b1 !! (rabbitmq_vhost cfg, rabbitmq_exchange cfg +:+ "_q"))
  /\ (rabbitmq_vhost cfg, rabbitmq_exchange cfg +:+ "_q", rabbitmq_exchange cfg, "")
       ∈ bindings b1
  /\ prefetch_count ch1 = 10.
Proof.
  unfold topology_initializer. intros Hfirst.
  destruct (add_vhost cfg b) as [b0|e] eqn:Hvhost; [|discriminate].
  cbn [rbind] in Hfirst.
  destruct (start_ok _ _ _ _ Hfirst) as (-> & Hprov).
  pose proof (add_vhost_provisioned _ _ Hprov) as Hagain.
  pose proof (start_provisioned _ _ Hprov) as Hstart.
  rewrite Hagain. cbn [rbind].
  destruct Hprov as (_ & _ & Hv & Hex & Hq & Hb).
  split; [exact Hstart|]. split; [reflexivity|]. split; [exact Hstart|].
  split; [exact Hv|]. split; [exists declared_exchange; auto|].
  split; [rewrite Hq; eauto|]. split; [exact Hb|reflexivity].
Qed.

(** ** The program on sample messages *)

(** C1 as stated does not hold: 304 is not a 2xx status, and a worker
    whose post is answered with 304 acknowledges the message. *)
Lemma reply_304_is_acknowledged :
  let splunk := always 304 "Not Modified" in
  let run := rabbit_callback sample_worker splunk three_events in
  ~ success_status 304
  /\ posted (trace run) = [splunk_request sample_config three_events_wire]
  /\ splunk (splunk_request sample_config three_events_wire)
     = Ok {| status_code := 304; reason := "Not Modified" |}
  /\ acked (trace run) = [7]
  /\ outcome run = Ok tt.
Proof.
  cbv zeta. split; [unfold success_status; lia|].
  repeat split; vm_compute; reflexivity.
Qed.

(** A 500 reply: nothing is acknowledged and the consuming loop ends, the
    next delivery is never looked at. *)
Lemma reply_500_is_not_acknowledged :
  let splunk := always 500 "Internal Server Error" in
  let run := rabbit_callback sample_worker splunk three_events in
  posted (trace run) = [splunk_request sample_config three_events_wire]
  /\ acked (trace run) = []
  /\ metrics (trace run) = []
  /\ exists e,
       outcome run = Raised e
       /\ start_consuming sample_worker
            [(splunk, three_events); (always 200 "OK", two_events)]
          = (trace run, Raised e).
Proof.
  cbv zeta. split; [vm_compute; reflexivity|].
  destruct (ack_only_after_accepted_delivery sample_worker
              (always 500 "Internal Server Error") three_events)
    as (_ & _ & Hfail & _).
  destruct (Hfail (splunk_request sample_config three_events_wire))
    as (Hack & Hmetrics & e & He & Hloop).
  - vm_compute. left. reflexivity.
  - intros reply [= <-]. unfold error_status. cbn. lia.
  - split; [exact Hack|]. split; [exact Hmetrics|].
    exists e. split; [exact He|]. apply Hloop.
Defined.

(** C3 as stated does not hold: for [device_time = 1500000.75] the
    quotient by 1000 is 1500.00075, and the record's [time] is 1500.0. *)
Lemma fractional_device_time_is_truncated :
  let payload := JDict [("device_time", JFloat fractional_time)] in
  json_loads (Text.dq "{'device_time': 1500000.75}") = Ok payload
  /\ SFdiv prec emax fractional_time (float_of_bits 1000 0)
     = PyFloat.of_decimal false 150000075 (-5)
  /\ exists event,
       build_event payload = Ok event
       /\ dict_get event "time" = Some (JFloat (float_of_bits 1500 0))
       /\ float_of_bits 1500 0 <> PyFloat.of_decimal false 150000075 (-5)
       /\ add_event payload
          = Ok (Text.dq "{'event': {'device_time': 1500000.75}, 'time': 1500.0}").
Proof.
  cbv zeta. split; [vm_compute; reflexivity|]. split; [vm_compute; reflexivity|].
  eexists. split; [vm_compute; reflexivity|]. split; [vm_compute; reflexivity|].
  split; [vm_compute; discriminate|vm_compute; reflexivity].
Qed.

(** An integer and a fractional [device_time] in one batch. *)
Lemma time_of_sample_payloads :
  (exists event,
      build_event (JDict [("device_time", JInt 1500000)]) = Ok event
      /\ dict_get event "time" = Some (JFloat (float_of_bits 1500 0)))
  /\ exists n t,
       py_int (JFloat fractional_time) = Ok n
       /\ n = 1500000
       /\ py_true_div n 1000 = Ok t
       /\ PyFloat.repr t = "1500.0".
Proof.
  destruct time_is_truncated_device_time as (Hany & Hint).
  split.
  - apply (Hint [("device_time", JInt 1500000)]). reflexivity.
  - destruct (Hany (JDict [("device_time", JFloat fractional_time)])
                [("event", JDict [("device_time", JFloat fractional_time)]);
                 ("time", JFloat (float_of_bits 1500 0))]
                (JFloat fractional_time))
      as (n & t & Hn & Ht & Htime & _ & Htrunc).
    + vm_compute. reflexivity.
    + vm_compute. reflexivity.
    + exists n, t. split; [exact Hn|].
      assert (Hval : n = 1500000).
      { specialize (Htrunc fractional_time eq_refl). vm_compute in Htrunc. congruence. }
      split; [exact Hval|]. split; [exact Ht|].
      subst n. vm_compute in Ht. injection Ht as <-. vm_compute. reflexivity.
Defined.

(** Two records on the wire. *)
Lemma wire_form_of_two_events :
  delivery_batch None (body two_events)
  = Ok ([JDict [("a", JInt 1)]; JDict [("b", JInt 2)]],
        [Text.dq "{'event': {'a': 1}}"; Text.dq "{'event': {'b': 2}}"])
  /\ posted (trace (send_to_splunk sample_worker (always 200 "OK") None (body two_events)))
     = [splunk_request sample_config (Text.dq "{'event': {'a': 1}}{'event': {'b': 2}}")]
  /\ map req_data
       (posted (trace (send_to_splunk sample_worker (always 200 "OK") None
                         (body two_events))))
     = [Text.dq "{'event': {'a': 1}}{'event': {'b': 2}}"].
Proof.
  assert (Hbatch : delivery_batch None (body two_events)
                   = Ok ([JDict [("a", JInt 1)]; JDict [("b", JInt 2)]],
                         [Text.dq "{'event': {'a': 1}}"; Text.dq "{'event': {'b': 2}}"]))
    by (vm_compute; reflexivity).
  split; [exact Hbatch|].
  destruct (batch_wire_form sample_worker (always 200 "OK") None (body two_events)
              _ _ Hbatch) as (_ & Hposted & Hdata & _).
  split; [rewrite Hposted; vm_compute; reflexivity|].
  rewrite Hdata. vm_compute. reflexivity.
Defined.

(** A payload without [device_name]: no [host] in the record. *)
Lemma record_without_host :
  let payload := JDict [("device_time", JInt 1500000);
                        ("product_name", JStr "Security Analytics")] in
  let event := [("event", payload); ("time", JFloat (float_of_bits 1500 0));
                ("source", JStr "Security Analytics")] in
  build_event payload = Ok event
  /\ dict_get event "event" = Some payload
  /\ dict_contains event "host" = false
  /\ dict_contains event "time" = true
  /\ dict_contains event "source" = true.
Proof.
  cbv zeta.
  assert (Hbuild : build_event (JDict [("device_time", JInt 1500000);
                                        ("product_name", JStr "Security Analytics")])
                   = Ok [("event", JDict [("device_time", JInt 1500000);
                                          ("product_name", JStr "Security Analytics")]);
                         ("time", JFloat (float_of_bits 1500 0));
                         ("source", JStr "Security Analytics")])
    by (vm_compute; reflexivity).
  split; [exact Hbuild|].
  destruct (event_record_fields _ _ Hbuild)
    as (d & Hd & Hevent & Htime & Hhost & Hsource & _).
  injection Hd as <-.
  split; [exact Hevent|]. split; [rewrite Hhost; reflexivity|].
  split; [rewrite Htime; reflexivity|rewrite Hsource; reflexivity].
Defined.


(** The gzip form and the plain form of one text. *)
Lemma gzip_sample_agrees :
  gzip_decompress three_events_gzip = Ok (Text.encode three_events_text)
  /\ decode_body (Some "gzip") three_events_gzip = Ok three_events_text
  /\ rabbit_callback sample_worker (always 200 "OK")
       {| delivery_tag := 7; content_encoding := Some "gzip"; body := three_events_gzip |}
     = rabbit_callback sample_worker (always 200 "OK")
         {| delivery_tag := 7; content_encoding := Some "identity";
            body := Text.encode three_events_text |}.
Proof.
  assert (Hgz : gzip_decompress three_events_gzip = Ok (Text.encode three_events_text))
    by (vm_compute; reflexivity).
  destruct (gzip_and_identity_agree sample_worker (always 200 "OK") (Some "identity")
              three_events_gzip (Text.encode three_events_text) 7
              ltac:(discriminate) Hgz) as (_ & Hdecode & _ & _ & Hcallback).
  split; [exact Hgz|]. split; [|exact Hcallback].
  rewrite Hdecode. vm_compute. reflexivity.
Defined.

(** The decoding of one body under several content-encodings. *)
Lemma dispatch_of_sample_encodings :
  decode_body None (Text.encode "[]") = Ok "[]"
  /\ decode_body (Some "identity") (Text.encode "[]") = Ok "[]"
  /\ decode_body (Some "deflate") (Text.encode "[]") = Ok "[]"
  /\ decode_body (Some "GZIP") (Text.encode "[]") = Ok "[]"
  /\ decode_body (Some "gzip") (Text.encode "[]") = Raised BadGzipFile
  /\ decode_body (Some "gzip") three_events_gzip = Ok three_events_text.
Proof.
  assert (Hplain : forall ce, ce <> Some "gzip" ->
                              decode_body ce (Text.encode "[]") = Ok "[]").
  { intros ce Hce.
    destruct (content_encoding_dispatch ce (Text.encode "[]")) as (_ & Hother & _).
    rewrite (Hother Hce). vm_compute. reflexivity. }
  split; [apply Hplain; discriminate|]. split; [apply Hplain; discriminate|].
  split; [apply Hplain; discriminate|]. split; [apply Hplain; discriminate|].
  split.
  - destruct (content_encoding_dispatch (Some "gzip") (Text.encode "[]")) as (Hgz & _).
    etransitivity; [exact (Hgz eq_refl)|]. vm_compute. reflexivity.
  - destruct (content_encoding_dispatch (Some "gzip") three_events_gzip) as (Hgz & _).
    etransitivity; [exact (Hgz eq_refl)|]. vm_compute. reflexivity.
Defined.

(** A number among the objects: nothing is posted. *)
Lemma number_among_events_is_fatal :
  json_loads (Text.dq "[{'a': 1}, 5]") = Ok (JList [JDict [("a", JInt 1)]; JInt 5])
  /\ add_event (JInt 5) = Raised AttributeError
  /\ rabbit_callback sample_worker (always 200 "OK") number_among_events
     = ([], Raised AttributeError).
Proof.
  assert (Hloads : json_loads (Text.dq "[{'a': 1}, 5]")
                   = Ok (JList [JDict [("a", JInt 1)]; JInt 5]))
    by (vm_compute; reflexivity).
  destruct (non_object_element_is_fatal sample_worker (always 200 "OK")
              number_among_events (Text.dq "[{'a': 1}, 5]")
              (JList [JDict [("a", JInt 1)]; JInt 5]) (JInt 5))
    as (_ & Hadd & _).
  - vm_compute. reflexivity.
  - exact Hloads.
  - right. left. reflexivity.
  - reflexivity.
  - split; [exact Hloads|]. split; [exact Hadd|]. vm_compute. reflexivity.
Defined.

(** One report: after 6 seconds with one message of 3 records, 1/6
    message and 0.5 record per second, printed as 0 records per second. *)
Lemma first_report_of_a_run :
  exists st' r q,
    aggregate_step sample_config (initial_state 100) (0, 3%nat) 106 = Ok (st', Some r)
    /\ total_msg_count st' = 1
    /\ total_session_count st' = 3
    /\ PyFloat.repr (rep_msg_per_second r) = "0.16666666666666666"
    /\ py_true_div 3 6 = Ok q
    /\ PyFloat.repr q = "0.5"
    /\ rep_sessions_per_second r = 0
    /\ last_time st' = 106
    /\ last_total_msg_count st' = 1
    /\ last_total_session_count st' = 3.
Proof.
  destruct (aggregator_reports_and_keeps_totals sample_config) as (Hstep & _).
  destruct (Hstep (initial_state 100) (0, 3%nat) 106) as (st' & line & Hrun & _).
  - vm_compute. reflexivity.
  - vm_compute. reflexivity.
  - vm_compute in Hrun. injection Hrun as <- <-.
    eexists _, _, _. split; [vm_compute; reflexivity|].
    repeat split; vm_compute; reflexivity.
Defined.

(** Two launches on a fresh broker. *)
Lemma second_launch_changes_nothing :
  topology_initializer sample_config fresh_broker
  = Ok (provisioned_broker, {| channel_vhost := "dx"; prefetch_count := 10 |})
  /\ topology_initializer sample_config provisioned_broker
     = Ok (provisioned_broker, {| channel_vhost := "dx"; prefetch_count := 10 |}).
Proof.
  assert (Hfirst : topology_initializer sample_config fresh_broker
                   = Ok (provisioned_broker,
                         {| channel_vhost := "dx"; prefetch_count := 10 |})).
  { vm_compute. reflexivity. }
  split; [exact Hfirst|].
  apply (topology_initializer_idempotent _ _ _ _ Hfirst).
Defined.

(** ** Further coverage of the delivery path *)

Section WorkerCoverage.
Context `{PyRuntime}.

(** A send that has a batch posts it, once. *)
Lemma batch_wire_form_posts self splunk ce body json_data events :
  delivery_batch ce body = Ok (json_data, events) ->
  posted (trace (send_to_splunk self splunk ce body))
  = [splunk_request (self_config self) (join events)].
Proof.
  unfold delivery_batch, rbind. intros Hbatch.
  destruct (decode_body ce body) as [json_str|e] eqn:Hdecode; [|discriminate].
  destruct (load_events json_str) as [json_data'|e] eqn:Hload; [|discriminate].
  destruct (event_list json_data') as [events'|e] eqn:Hevents; [|discriminate].
  injection Hbatch as -> ->.
  rewrite send_to_splunk_spec. cbv zeta. rewrite Hdecode, Hload, Hevents.
  unfold trace.
  destruct (splunk _) as [reply|e].
  - destruct (_ && _); cbn [fst];
      rewrite !posted_app, posted_debug_lines, ?posted_verbose_lines; reflexivity.
  - destruct (is_RequestException e); cbn [fst];
      rewrite !posted_app, posted_debug_lines; reflexivity.
Qed.

(** ** Failures before the post *)

(** What a callback does when there is no batch. *)
Lemma rabbit_callback_no_batch self splunk msg e :
  delivery_batch (content_encoding msg) (body msg) = Raised e ->
  exists t, rabbit_callback self splunk msg = (t, Raised e)
            /\ posted t = [] /\ acked t = [] /\ metrics t = [].
Proof.
  unfold delivery_batch, rbind. intros Hbatch.
  rewrite rabbit_callback_spec, send_to_splunk_spec. cbv zeta.
  destruct (decode_body _ _) as [json_str|e1]; [|injection Hbatch as ->; eauto].
  destruct (load_events json_str) as [json_data|e1].
  - destruct (event_list json_data) as [events|e1]; [discriminate|].
    injection Hbatch as ->. eexists. split; [reflexivity|].
    rewrite posted_debug_lines, acked_debug_lines.
    unfold debug_lines. destruct (debug _); auto.
  - injection Hbatch as ->. eexists. split; [reflexivity|].
    rewrite posted_debug_lines, acked_debug_lines.
    unfold debug_lines. destruct (debug _); auto.
Qed.

(** A body that cannot be decoded, parsed or transformed is fatal to the
    worker: the callback ends with the exception of the step that failed,
    and it has posted, acknowledged and reported nothing. A callback posts
    exactly when the message has a batch. *)
Theorem no_batch_no_post self splunk msg :
  let run := rabbit_callback self splunk msg in
  (forall e,
      delivery_batch (content_encoding msg) (body msg) = Raised e ->
      outcome run = Raised e
      /\ posted (trace run) = [] /\ acked (trace run) = [] /\ metrics (trace run) = [])
  /\ (forall e json_str,
        decode_body (content_encoding msg) (body msg) = Ok json_str ->
        json_loads json_str = Raised e ->
        outcome run = Raised e /\ posted (trace run) = [])
  /\ (posted (trace run) = [] <->
      exists e, delivery_batch (content_encoding msg) (body msg) = Raised e).
Proof.
  cbv zeta. split; [|split].
  - intros e Hbatch.
    destruct (rabbit_callback_no_batch self splunk msg e Hbatch) as (t & -> & Hp & Ha & Hm).
    auto.
  - intros e json_str Hdecode Hloads.
    assert (Hbatch : delivery_batch (content_encoding msg) (body msg) = Raised e).
    { unfold delivery_batch, load_events, rbind. now rewrite Hdecode, Hloads. }
    destruct (rabbit_callback_no_batch self splunk msg e Hbatch) as (t & -> & Hp & _).
    auto.
  - split.
    + destruct (delivery_batch (content_encoding msg) (body msg)) as [[jd evs]|e] eqn:Hbatch;
        [|eauto].
      intros Hnone. exfalso.
      pose proof (batch_wire_form_posts self splunk _ _ _ _ Hbatch) as Hposted.
      rewrite rabbit_callback_spec in Hnone.
      destruct (send_to_splunk self splunk (content_encoding msg) (body msg))
        as [t [n|e]]; unfold trace in *; cbn [fst] in *.
      * rewrite posted_app, Hposted in Hnone. discriminate.
      * rewrite Hposted in Hnone. discriminate.
    + intros [e Hbatch].
      destruct (rabbit_callback_no_batch self splunk msg e Hbatch) as (t & -> & Hp & _).
      exact Hp.
Qed.


(** ** The diagnostic flags *)

(** [send_to_splunk] on a console, case by case. *)
Lemma send_to_splunk_on_spec out self splunk ce body :
  send_to_splunk_on out self splunk ce body =
  let cfg := self_config self in
  match decode_body ce body with
  | Raised e => ([], Raised e)
  | Ok json_str =>
      match (if debug cfg then out (LogSending json_str) else Ok tt) with
      | Raised e => ([], Raised e)
      | Ok _ =>
          match load_events json_str with
          | Raised e => (debug_lines cfg json_str, Raised e)
          | Ok json_data =>
              match event_list json_data with
              | Raised e => (debug_lines cfg json_str, Raised e)
              | Ok events =>
                  let req := splunk_request cfg (join events) in
                  let failed error :=
                    match out (LogConnectivityError error) with
                    | Ok _ =>
                        (debug_lines cfg json_str
                           ++ [Post req; Print (LogConnectivityError error)],
                         Raised (SystemExit 1))
                    | Raised e' => (debug_lines cfg json_str ++ [Post req], Raised e')
                    end in
                  match splunk req with
                  | Raised e =>
                      if is_RequestException e then failed e
                      else (debug_lines cfg json_str ++ [Post req], Raised e)
                  | Ok reply =>
                      if (400 <=? status_code reply) && (status_code reply <? 600)
                      then failed (RequestException "HTTPError")
                      else
                        match (if verbose cfg then out LogDot else Ok tt) with
                        | Ok _ =>
                            (debug_lines cfg json_str ++ [Post req] ++ verbose_lines cfg,
                             Ok (length json_data))
                        | Raised e => (debug_lines cfg json_str ++ [Post req], Raised e)
                        end
                  end
              end
          end
      end
  end.
Proof.
  unfold send_to_splunk_on, debug_lines, verbose_lines, session_post, print_on, sys_exit,
    emit, lift, raise, ret, try_except, bind, ok, raise_for_status.
  cbv zeta.
  destruct (decode_body ce body) as [json_str|e]; [|reflexivity].
  destruct (debug (self_config self)); cbn [app].
  - destruct (out (LogSending json_str)) as [[]|e]; [|reflexivity].
    destruct (load_events json_str) as [json_data|e]; [|reflexivity].
    destruct (event_list json_data) as [events|e]; [|reflexivity].
    destruct (splunk _) as [reply|e]; cbn.
    + destruct ((400 <=? status_code reply) && (status_code reply <? 600)) eqn:Hrange;
        cbn; rewrite ?Hrange; cbn.
      * destruct (out (LogConnectivityError _)) as [[]|e']; reflexivity.
      * destruct (verbose (self_config self)); [|reflexivity].
        destruct (out LogDot) as [[]|e']; reflexivity.
    + destruct (is_RequestException e); [|reflexivity].
      destruct (out (LogConnectivityError e)) as [[]|e']; reflexivity.
  - destruct (load_events json_str) as [json_data|e]; [|reflexivity].
    destruct (event_list json_data) as [events|e]; [|reflexivity].
    destruct (splunk _) as [reply|e]; cbn.
    + destruct ((400 <=? status_code reply) && (status_code reply <? 600)) eqn:Hrange;
        cbn; rewrite ?Hrange; cbn.
      * destruct (out (LogConnectivityError _)) as [[]|e']; reflexivity.
      * destruct (verbose (self_config self)); [|reflexivity].
        destruct (out LogDot) as [[]|e']; reflexivity.
    + destruct (is_RequestException e); [|reflexivity].
      destruct (out (LogConnectivityError e)) as [[]|e']; reflexivity.
Qed.

Lemma rabbit_callback_on_spec out self splunk msg :
  rabbit_callback_on out self splunk msg =
  match send_to_splunk_on out self splunk (content_encoding msg) (body msg) with
  | (t, Ok session_count) =>
      (t ++ [BasicAck (delivery_tag msg);
             QueuePut (self_process_num self) session_count], Ok tt)
  | (t, Raised e) => (t, Raised e)
  end.
Proof.
  unfold rabbit_callback_on, bind, emit.
  destruct (send_to_splunk_on _ _ _ _ _) as [t [n|e]]; reflexivity.
Qed.

(** On a standard output that takes every line the worker is the one
    whose [print] cannot fail. *)
Lemma send_to_splunk_on_accepting out self splunk ce body :
  (forall line, out line = Ok tt) ->
  send_to_splunk_on out self splunk ce body = send_to_splunk self splunk ce body.
Proof.
  intros Hout. rewrite send_to_splunk_on_spec, send_to_splunk_spec. cbv zeta.
  destruct (decode_body ce body) as [json_str|e]; [|reflexivity].
  rewrite ?Hout. destruct (debug (self_config self));
    (destruct (load_events json_str) as [json_data|e]; [|reflexivity]);
    (destruct (event_list json_data) as [events|e]; [|reflexivity]);
    (destruct (splunk _) as [reply|e];
     [destruct (_ && _); rewrite ?Hout; [reflexivity|destruct (verbose _); reflexivity]
     |destruct (is_RequestException e); rewrite ?Hout; reflexivity]).
Qed.

(** [verbose] and [debug] only add printed lines as long as standard
    output takes them: two workers with the same URL, token and process
    number then post the same requests, acknowledge the same tags, report
    the same metrics and end the same way, as does the worker whose
    [print] cannot fail. A debugging worker whose standard output refuses
    the text of the message ends with that exception before it parses or
    posts; a verbose worker whose standard output refuses the dot after an
    accepted post ends with that exception, the batch posted and the
    message not acknowledged. *)
Theorem flags_only_print out self1 self2 splunk msg :
  splunk_url (self_config self1) = splunk_url (self_config self2) ->
  splunk_token (self_config self1) = splunk_token (self_config self2) ->
  self_process_num self1 = self_process_num self2 ->
  let run1 := rabbit_callback_on out self1 splunk msg in
  let run2 := rabbit_callback_on out self2 splunk msg in
  ((forall line, out line = Ok tt) ->
   run1 = rabbit_callback self1 splunk msg
   /\ posted (trace run1) = posted (trace run2)
   /\ acked (trace run1) = acked (trace run2)
   /\ metrics (trace run1) = metrics (trace run2)
   /\ outcome run1 = outcome run2)
  /\ (forall json_str e,
        debug (self_config self1) = true ->
        decode_body (content_encoding msg) (body msg) = Ok json_str ->
        out (LogSending json_str) = Raised e ->
        run1 = ([], Raised e))
  /\ (forall json_data events reply e,
        verbose (self_config self1) = true ->
        delivery_batch (content_encoding msg) (body msg) = Ok (json_data, events) ->
        (forall line, line <> LogDot -> out line = Ok tt) ->
        splunk (splunk_request (self_config self1) (join events)) = Ok reply ->
        ~ error_status (status_code reply) ->
        out LogDot = Raised e ->
        posted (trace run1) = [splunk_request (self_config self1) (join events)]
        /\ acked (trace run1) = []
        /\ metrics (trace run1) = []
        /\ outcome run1 = Raised e).
Proof.
  intros Hurl Htoken Hnum. cbv zeta. split; [|split].
  - intros Hout. rewrite !rabbit_callback_on_spec, !send_to_splunk_on_accepting by exact Hout.
    split; [symmetry; apply rabbit_callback_spec|].
    assert (Hreq : forall data,
               splunk_request (self_config self1) data
               = splunk_request (self_config self2) data)
      by (intros data; unfold splunk_request; now rewrite Hurl, Htoken).
    rewrite !send_to_splunk_spec. cbv zeta. rewrite Hnum.
    destruct (decode_body _ _) as [json_str|e]; [|auto].
    destruct (load_events json_str) as [json_data|e];
      [|unfold trace, outcome; cbn [fst snd];
        rewrite !posted_debug_lines, !acked_debug_lines;
        unfold debug_lines; destruct (debug _), (debug _); auto].
    destruct (event_list json_data) as [events|e];
      [|unfold trace, outcome; cbn [fst snd];
        rewrite !posted_debug_lines, !acked_debug_lines;
        unfold debug_lines; destruct (debug _), (debug _); auto].
    rewrite Hreq.
    destruct (splunk _) as [reply|e].
    + destruct (_ && _); unfold trace, outcome; cbn [fst snd];
        rewrite ?posted_app, ?acked_app, ?metrics_app,
          ?posted_debug_lines, ?acked_debug_lines,
          ?posted_verbose_lines, ?acked_verbose_lines;
        unfold debug_lines, verbose_lines;
        destruct (debug (self_config self1)), (debug (self_config self2)),
          (verbose (self_config self1)), (verbose (self_config self2)); cbn; auto.
    + destruct (is_RequestException e); unfold trace, outcome; cbn [fst snd];
        rewrite ?posted_app, ?acked_app, ?metrics_app,
          ?posted_debug_lines, ?acked_debug_lines;
        unfold debug_lines;
        destruct (debug (self_config self1)), (debug (self_config self2)); cbn; auto.
  - intros json_str e Hdebug Hdecode Hrefused.
    rewrite rabbit_callback_on_spec, send_to_splunk_on_spec. cbv zeta.
    rewrite Hdecode, Hdebug, Hrefused. reflexivity.
  - intros json_data events reply e Hverbose Hbatch Hothers Hreply Hfine Hdot.
    unfold delivery_batch, rbind in Hbatch.
    destruct (decode_body _ _) as [json_str|e0] eqn:Hdecode; [|discriminate].
    destruct (load_events json_str) as [json_data'|e0] eqn:Hload; [|discriminate].
    destruct (event_list json_data') as [events'|e0] eqn:Hevents; [|discriminate].
    injection Hbatch as -> ->.
    rewrite rabbit_callback_on_spec, send_to_splunk_on_spec. cbv zeta.
    rewrite Hdecode, Hload, Hevents, Hreply, Hverbose, Hdot.
    assert (Hsending : (if debug (self_config self1)
                        then out (LogSending json_str) else Ok tt) = Ok tt).
    { destruct (debug _); [apply Hothers; discriminate|reflexivity]. }
    rewrite Hsending.
    assert (Hrange : (400 <=? status_code reply) && (status_code reply <? 600) = false).
    { apply not_true_is_false. intros [Hlow%Z.leb_le Hhigh%Z.ltb_lt]%andb_true_iff.
      apply Hfine. unfold error_status. lia. }
    rewrite Hrange. unfold trace, outcome. cbn [fst snd].
    rewrite !posted_app, !acked_app, !metrics_app, posted_debug_lines, acked_debug_lines.
    unfold debug_lines. destruct (debug (self_config self1)); cbn; auto.
Qed.

(** ** The empty batch *)


(** ** One post at a time *)

Lemma posted_length_send self splunk ce body :
  (length (posted (trace (send_to_splunk self splunk ce body))) <= 1)%nat
  /\ (forall n, outcome (send_to_splunk self splunk ce body) = Ok n ->
        length (posted (trace (send_to_splunk self splunk ce body))) = 1%nat).
Proof.
  rewrite send_to_splunk_spec. cbv zeta. unfold trace, outcome.
  destruct (decode_body ce body) as [json_str|e]; [|cbn; split; [lia|discriminate]].
  destruct (load_events json_str) as [json_data|e];
    [|cbn [fst snd]; rewrite posted_debug_lines; cbn; split; [lia|discriminate]].
  destruct (event_list json_data) as [events|e];
    [|cbn [fst snd]; rewrite posted_debug_lines; cbn; split; [lia|discriminate]].
  destruct (splunk _) as [reply|e].
  - destruct (_ && _); cbn [fst snd];
      rewrite !posted_app, ?posted_debug_lines, ?posted_verbose_lines; cbn;
      (split; [lia|first [discriminate | reflexivity]]).
  - destruct (is_RequestException e); cbn [fst snd];
      rewrite !posted_app, ?posted_debug_lines; cbn; (split; [lia|discriminate]).
Qed.

(** Over any sequence of deliveries a worker has at most one batch posted
    and not acknowledged: it never posts more often than it has
    acknowledged plus once, and when the loop runs to the end every
    delivery was posted once and acknowledged. *)
Theorem at_most_one_unacknowledged_post self deliveries :
  let run := start_consuming self deliveries in
  (length (acked (trace run)) <= length (posted (trace run)))%nat
  /\ (length (posted (trace run)) <= length (acked (trace run)) + 1)%nat
  /\ (outcome run = Ok tt ->
      length (posted (trace run)) = length deliveries
      /\ length (acked (trace run)) = length deliveries)
  /\ (forall e, outcome run = Raised e ->
        (length (acked (trace run)) < length deliveries)%nat).
Proof.
  cbv zeta. induction deliveries as [|[splunk msg] rest IH].
  - cbn. repeat split; try lia. discriminate.
  - destruct IH as (Hlow & Hhigh & Hall & Hfail).
    rewrite start_consuming_cons, rabbit_callback_spec.
    pose proof (send_to_splunk_never_acks self splunk (content_encoding msg) (body msg))
      as Hnone.
    pose proof (posted_length_send self splunk (content_encoding msg) (body msg))
      as (Hle & Hone).
    destruct (send_to_splunk self splunk (content_encoding msg) (body msg))
      as [t [n|e]]; unfold trace, outcome in *; cbn [fst snd length] in *.
    + specialize (Hone n eq_refl).
      rewrite !acked_app, !posted_app, !length_app, Hnone. cbn.
      split; [lia|]. split; [lia|]. split.
      * intros Hok. destruct (Hall Hok). lia.
      * intros e He. specialize (Hfail e He). lia.
    + rewrite Hnone. cbn. split; [lia|]. split; [lia|]. split; [discriminate|].
      intros _ _. lia.
Qed.


(** ** When the transformer fails *)



End WorkerCoverage.

(** ** What the aggregator never does *)



Lemma aggregate_step_report cfg st metric now st' line :
  aggregate_step cfg st metric now = Ok (st', line) ->
  (line = None /\ last_time st' = last_time st)
  \/ (exists r, line = Some r /\ last_time st' = now /\ 5 <= now - last_time st
                /\ rep_total_messages r = total_msg_count st').
Proof.
  unfold aggregate_step. destruct metric as [process_num session_count].
  destruct (5 <=? now - last_time st) eqn:Hdelta.
  - apply Z.leb_le in Hdelta. unfold rbind.
    destruct (py_true_div _ _); [|discriminate].
    destruct (py_true_div _ _); [|discriminate].
    destruct (float_trunc _); [|discriminate].
    intros [= <- <-]. right. eexists. cbn. auto.
  - intros [= <- <-]. left. auto.
Qed.

(** Reports are at least 5 seconds apart by the loop's own clock readings:
    over any run, five times the number of printed lines is at most the
    advance of the last-report time, which never goes back even if the
    clock does; there is at most one line per metric; and every line shows
    a total of messages that was reached during the run. *)
Theorem reports_are_five_seconds_apart cfg st inputs st' lines :
  aggregate_loop cfg st inputs = Ok (st', lines) ->
  5 * Z.of_nat (length lines) <= last_time st' - last_time st
  /\ (length lines <= length inputs)%nat
  /\ Forall (fun r => total_msg_count st < rep_total_messages r <= total_msg_count st')
       lines.
Proof.
  revert st st' lines.
  induction inputs as [|[metric now] rest IH]; intros st st' lines; cbn [aggregate_loop].
  - intros [= <- <-]. cbn. split; [lia|]. split; [lia|constructor].
  - destruct (aggregate_step cfg st metric now) as [[st1 line]|e] eqn:Hstep;
      [|discriminate]. cbn [rbind].
    destruct (aggregate_loop cfg st1 rest) as [[st2 lines2]|e] eqn:Hloop;
      [|discriminate]. cbn [rbind].
    intros [= <- <-].
    destruct (IH _ _ _ Hloop) as (Htime & Hlen & Hall).
    destruct (aggregate_step_totals _ _ _ _ _ _ Hstep) as (Hm1 & _).
    destruct (aggregate_loop_totals _ _ _ _ _ Hloop) as (Hm2 & _).
    assert (Hgrow : Forall (fun r => total_msg_count st < rep_total_messages r
                                     <= total_msg_count st2) lines2).
    { eapply Forall_impl; [exact Hall|]. cbn. intros r Hr. lia. }
    destruct (aggregate_step_report _ _ _ _ _ _ Hstep)
      as [(-> & Hsame)|(r & -> & Hnow & Hdelta & Hr)].
    + cbn [length]. split; [lia|]. split; [lia|exact Hgrow].
    + cbn [length]. split; [lia|]. split; [lia|].
      constructor; [lia|exact Hgrow].
Qed.

(** ** What the set-up leaves alone *)

Lemma add_vhost_frame cfg b b' :
  add_vhost cfg b = Ok b' ->
  listening b' = listening b /\ users b' = users b
  /\ vhosts b' = {[rabbitmq_vhost cfg]} ∪ vhosts b
  /\ exchanges b' = exchanges b /\ queues b' = queues b /\ bindings b' = bindings b.
Proof.
  unfold add_vhost, put_vhost.
  destruct (listening b) eqn:Hup; cbn [negb]; [|discriminate].
  destruct (authenticated b _ _); cbn [negb]; [|discriminate].
  destruct (bool_decide (rabbitmq_vhost cfg ∈ vhosts b)) eqn:Hv; cbn.
  - intros [= <-]. apply bool_decide_eq_true in Hv.
    assert (Hunion : {[rabbitmq_vhost cfg]} ∪ vhosts b = vhosts b)
      by (apply subseteq_union_1_L, singleton_subseteq_l, Hv).
    rewrite Hunion. auto 10.
  - intros [= <-]. cbn. auto 10.
Qed.

Lemma exchange_declare_frame b ch exchange b' :
  exchange_declare b ch exchange true = Ok b' ->
  exchanges b ⊆ exchanges b'
  /\ forall key, key <> (channel_vhost ch, exchange) ->
                 exchanges b' !! key = exchanges b !! key.
Proof.
  unfold exchange_declare. fold declared_exchange.
  destruct (exchanges b !! (channel_vhost ch, exchange)) as [found|] eqn:Hfound.
  - destruct (bool_decide (found = declared_exchange)); [|discriminate].
    intros [= <-]. auto.
  - intros [= <-]. cbn. split.
    + now apply insert_subseteq.
    + intros key Hkey. now rewrite lookup_insert_ne.
Qed.

Lemma queue_declare_frame b ch queue b' :
  queue_declare b ch queue = Ok b' ->
  queues b ⊆ queues b'
  /\ forall key, key <> (channel_vhost ch, queue) -> queues b' !! key = queues b !! key.
Proof.
  unfold queue_declare. fold declared_queue.
  destruct (queues b !! (channel_vhost ch, queue)) as [found|] eqn:Hfound.
  - destruct (bool_decide (found = declared_queue)); [|discriminate].
    intros [= <-]. auto.
  - intros [= <-]. cbn. split.
    + now apply insert_subseteq.
    + intros key Hkey. now rewrite lookup_insert_ne.
Qed.

Lemma queue_bind_frame b ch queue exchange routing_key b' :
  queue_bind b ch queue exchange routing_key = Ok b' ->
  bindings b' = {[(channel_vhost ch, queue, exchange, routing_key)]} ∪ bindings b.
Proof.
  unfold queue_bind.
  destruct (queues b !! (channel_vhost ch, queue)); [|discriminate].
  destruct (exchanges b !! (channel_vhost ch, exchange)); [|discriminate].
  intros [= <-]. reflexivity.
Qed.

Lemma start_frame cfg b b' ch :
  start cfg b = Ok (b', ch) ->
  listening b' = listening b /\ users b' = users b /\ vhosts b' = vhosts b
  /\ exchanges b ⊆ exchanges b'
  /\ (forall key, key <> (rabbitmq_vhost cfg, rabbitmq_exchange cfg) ->
                  exchanges b' !! key = exchanges b !! key)
  /\ queues b ⊆ queues b'
  /\ (forall key, key <> (rabbitmq_vhost cfg, rabbitmq_exchange cfg +:+ "_q") ->
                  queues b' !! key = queues b !! key)
  /\ bindings b'
     = {[(rabbitmq_vhost cfg, rabbitmq_exchange cfg +:+ "_q", rabbitmq_exchange cfg, "")]}
       ∪ bindings b.
Proof.
  unfold start, connect.
  destruct (listening b) eqn:Hup; cbn [negb]; [|discriminate].
  destruct (authenticated b _ _); cbn [andb]; [|discriminate].
  destruct (bool_decide (rabbitmq_vhost cfg ∈ vhosts b)); [|discriminate].
  cbn [rbind].
  destruct (exchange_declare b _ _ true) as [b1|e] eqn:H1; [|discriminate].
  cbn [rbind].
  destruct (queue_declare b1 _ _) as [b2|e] eqn:H2; [|discriminate].
  cbn [rbind].
  destruct (queue_bind b2 _ _ _ _) as [b3|e] eqn:H3; [|discriminate].
  cbn [rbind]. intros [= <- <-].
  pose proof (exchange_declare_frame _ _ _ _ H1) as (Hsub1 & Hother1).
  pose proof (queue_declare_frame _ _ _ _ H2) as (Hsub2 & Hother2).
  pose proof (queue_bind_frame _ _ _ _ _ _ H3) as Hbind.
  apply exchange_declare_ok in H1. apply queue_declare_ok in H2.
  apply queue_bind_ok in H3. cbn [channel_vhost] in *.
  destruct H1 as (Hl1 & Hu1 & Hv1 & Hq1 & Hb1 & _).
  destruct H2 as (Hl2 & Hu2 & Hv2 & Hex2 & Hb2 & _).
  destruct H3 as (Hl3 & Hu3 & Hv3 & Hex3 & Hq3 & _).
  rewrite Hq1 in Hsub2, Hother2.
  split; [congruence|]. split; [congruence|]. split; [congruence|].
  split; [rewrite Hex3, Hex2; exact Hsub1|].
  split; [intros key Hkey; rewrite Hex3, Hex2; auto|].
  split; [rewrite Hq3; exact Hsub2|].
  split; [intros key Hkey; rewrite Hq3; auto|].
  rewrite Hbind, Hb2, Hb1. reflexivity.
Qed.

(** A launch of the set-up removes nothing and alters nothing: every
    user, virtual host, exchange, queue and binding that was on the broker
    is still there afterwards, the exchanges and queues with the attributes
    they had, in the virtual host of the launch and in every other. *)
Theorem topology_initializer_removes_nothing cfg b b' ch :
  topology_initializer cfg b = Ok (b', ch) ->
  users b ⊆ users b'
  /\ vhosts b ⊆ vhosts b'
  /\ exchanges b ⊆ exchanges b'
  /\ queues b ⊆ queues b'
  /\ bindings b ⊆ bindings b'
  /\ (forall key d, exchanges b !! key = Some d -> exchanges b' !! key = Some d)
  /\ (forall key d, queues b !! key = Some d -> queues b' !! key = Some d).
Proof.
  unfold topology_initializer. intros Hrun.
  destruct (add_vhost cfg b) as [b0|e] eqn:Hvhost; [|discriminate].
  cbn [rbind] in Hrun.
  destruct (add_vhost_frame _ _ _ Hvhost) as (Hl0 & Hu0 & Hv0 & Hex0 & Hq0 & Hb0).
  destruct (start_frame _ _ _ _ Hrun) as (Hl & Hu & Hv & Hex & _ & Hq & _ & Hb).
  rewrite Hex0 in Hex. rewrite Hq0 in Hq.
  split; [rewrite Hu, Hu0; reflexivity|].
  split; [rewrite Hv, Hv0; apply union_subseteq_r|].
  split; [exact Hex|]. split; [exact Hq|].
  split; [rewrite Hb, Hb0; apply union_subseteq_r|].
  split; [intros key d Hd; exact (lookup_weaken _ _ _ _ Hd Hex)|].
  intros key d Hd. exact (lookup_weaken _ _ _ _ Hd Hq).
Qed.

Lemma string_length_app (s t : str) :
  String.length (s +:+ t) = (String.length s + String.length t)%nat.
Proof.
  induction s as [|c s IH]; [reflexivity|].
  change (String c s +:+ t) with (String c (s +:+ t)). cbn. now rewrite IH.
Qed.

Lemma string_app_inj_r (s1 s2 t : str) : s1 +:+ t = s2 +:+ t -> s1 = s2.
Proof.
  revert s2. induction s1 as [|c s1 IH]; intros [|c2 s2] Heq.
  - reflexivity.
  - exfalso. apply (f_equal String.length) in Heq.
    rewrite !string_length_app in Heq. cbn in Heq. lia.
  - exfalso. apply (f_equal String.length) in Heq.
    rewrite !string_length_app in Heq. cbn in Heq. lia.
  - change (String c (s1 +:+ t) = String c2 (s2 +:+ t)) in Heq.
    injection Heq as -> Heq. f_equal. now apply IH.
Qed.

(** Consumers coexist: a broker that is provisioned for one configuration
    stays provisioned for it after the set-up of any other configuration,
    and two configurations with different exchanges get different
    queues. *)
Theorem other_consumers_keep_their_topology cfg1 cfg2 b b' ch :
  provisioned cfg1 b ->
  topology_initializer cfg2 b = Ok (b', ch) ->
  provisioned cfg1 b'
  /\ (rabbitmq_exchange cfg1 <> rabbitmq_exchange cfg2 ->
      rabbitmq_exchange cfg1 +:+ "_q" <> rabbitmq_exchange cfg2 +:+ "_q").
Proof.
  intros (Hup & Hauth & Hv & Hex & Hq & Hb). unfold topology_initializer. intros Hrun.
  destruct (add_vhost cfg2 b) as [b0|e] eqn:Hvhost; [|discriminate].
  cbn [rbind] in Hrun.
  destruct (add_vhost_frame _ _ _ Hvhost) as (Hl0 & Hu0 & Hv0 & Hex0 & Hq0 & Hb0).
  destruct (start_frame _ _ _ _ Hrun) as (Hl' & Hu' & Hv' & Hex' & _ & Hq' & _ & Hb').
  rewrite Hex0 in Hex'. rewrite Hq0 in Hq'.
  split.
  - unfold provisioned. rewrite Hl', Hu', Hv', Hb', Hl0, Hu0, Hv0, Hb0.
    split; [exact Hup|]. split; [exact Hauth|].
    split; [apply elem_of_union; right; exact Hv|].
    split; [exact (lookup_weaken _ _ _ _ Hex Hex')|].
    split; [exact (lookup_weaken _ _ _ _ Hq Hq')|].
    apply elem_of_union. right. exact Hb.
  - intros Hne Heq. apply Hne. exact (string_app_inj_r _ _ _ Heq).
Qed.

(** ** The configuration file *)

Lemma reference_name_shorter s name after :
  reference_name s = Some (name, after) ->
  (String.length after < String.length s)%nat.
Proof.
  revert name after. induction s as [|c s IH]; intros name after; cbn.
  - discriminate.
  - destruct (Ascii.eqb c ")").
    + destruct s as [|c' s']; [discriminate|].
      destruct (Ascii.eqb c' "s"); [|discriminate].
      intros [= <- <-]. cbn. lia.
    + destruct (reference_name s) as [[name' after']|] eqn:Hs; [|discriminate].
      intros [= <- <-]. specialize (IH _ _ eq_refl). lia.
Qed.

(** The bound on the characters read is never reached: any bound of at
    least the length of the text gives the same result. *)
Lemma interpolate_scan_fuel nested lookup fuel1 fuel2 rest :
  (String.length rest <= fuel1)%nat -> (String.length rest <= fuel2)%nat ->
  interpolate_scan nested lookup fuel1 rest = interpolate_scan nested lookup fuel2 rest.
Proof.
  revert fuel2 rest. induction fuel1 as [|fuel1 IH]; intros fuel2 rest H1 H2.
  - destruct rest; cbn in H1; [|lia]. destruct fuel2; reflexivity.
  - destruct rest as [|c rest1]; [destruct fuel2; reflexivity|].
    destruct fuel2 as [|fuel2]; [cbn in H2; lia|].
    cbn in H1, H2. cbn [interpolate_scan].
    destruct (Ascii.eqb c "%").
    + destruct rest1 as [|c1 rest2]; [reflexivity|]. cbn in H1, H2.
      destruct (Ascii.eqb c1 "%").
      * rewrite (IH fuel2 rest2) by lia. reflexivity.
      * destruct (Ascii.eqb c1 "("); [|reflexivity].
        destruct (reference_name rest2) as [[name after]|] eqn:Hname; [|reflexivity].
        apply reference_name_shorter in Hname.
        destruct name as [|n name]; [reflexivity|].
        destruct (lookup _); [|reflexivity].
        rewrite (IH fuel2 after) by lia. reflexivity.
    + rewrite (IH fuel2 rest1) by lia. reflexivity.
Qed.

Lemma interpolate_scan_plain nested lookup fuel s :
  has_percent s = false -> (String.length s <= fuel)%nat ->
  interpolate_scan nested lookup fuel s = Ok s.
Proof.
  revert fuel. induction s as [|c s IH]; intros fuel Hs Hfuel.
  - destruct fuel; reflexivity.
  - destruct fuel as [|fuel]; [cbn in Hfuel; lia|]. cbn in Hs, Hfuel.
    apply orb_false_iff in Hs as [Hc Hs]. cbn [interpolate_scan]. rewrite Hc.
    rewrite IH by (auto; lia). reflexivity.
Qed.

Lemma escape_percent_length s :
  (String.length s <= String.length (escape_percent s))%nat.
Proof.
  induction s as [|c s IH]; cbn; [lia|]. destruct (Ascii.eqb c "%"); cbn; lia.
Qed.

Lemma interpolate_scan_escaped nested lookup fuel s :
  (String.length (escape_percent s) <= fuel)%nat ->
  interpolate_scan nested lookup fuel (escape_percent s) = Ok s.
Proof.
  revert fuel. induction s as [|c s IH]; intros fuel Hfuel.
  - destruct fuel; reflexivity.
  - cbn [escape_percent] in *. destruct (Ascii.eqb c "%") eqn:Hc.
    + apply Ascii.eqb_eq in Hc as ->.
      destruct fuel as [|fuel]; [cbn in Hfuel; lia|]. cbn in Hfuel.
      cbn [interpolate_scan]. rewrite Ascii.eqb_refl.
      rewrite IH by lia. reflexivity.
    + destruct fuel as [|fuel]; [cbn in Hfuel; lia|]. cbn in Hfuel.
      cbn [interpolate_scan]. rewrite Hc.
      rewrite IH by lia. reflexivity.
Qed.


Lemma interpolate_scan_stray nested lookup fuel before rest :
  has_percent before = false -> stray_percent rest = true ->
  (String.length (before +:+ rest) <= fuel)%nat ->
  interpolate_scan nested lookup fuel (before +:+ rest) = Raised InterpolationSyntaxError.
Proof.
  revert fuel. induction before as [|c s IH]; intros fuel Hs Hrest Hfuel.
  - change (EmptyString +:+ rest) with rest in *.
    destruct rest as [|c rest1]; [discriminate|]. cbn in Hrest.
    apply andb_true_iff in Hrest as [Hc Hnext].
    destruct fuel as [|fuel]; [cbn in Hfuel; lia|].
    cbn [interpolate_scan]. rewrite Hc.
    destruct rest1 as [|c1 rest2]; [reflexivity|].
    apply andb_true_iff in Hnext as [H1 H2].
    apply negb_true_iff in H1, H2. rewrite H1, H2. reflexivity.
  - change (String c s +:+ rest) with (String c (s +:+ rest)) in *.
    destruct fuel as [|fuel]; [cbn in Hfuel; lia|]. cbn in Hs, Hfuel.
    apply orb_false_iff in Hs as [Hc Hs]. cbn [interpolate_scan]. rewrite Hc.
    rewrite IH by (auto; lia). reflexivity.
Qed.

Lemma config_get_value cp section opt value :
  is_Some (parser_sections cp !! section) ->
  chain_lookup cp section (lower opt) = Some value ->
  config_get cp section opt = interpolate (chain_lookup cp section) value.
Proof.
  intros [own Hown] Hvalue. unfold config_get. rewrite Hown, Hvalue. reflexivity.
Qed.

Lemma interpolate_plain lookup value :
  has_percent value = false -> interpolate lookup value = Ok value.
Proof.
  intros Hvalue. unfold interpolate. cbn [interpolate_some].
  apply interpolate_scan_plain; [exact Hvalue|lia].
Qed.

(** A value in which every ["%"] is written ["%%"] is read back as
    the value itself, whatever it holds, and a value without any ["%"] is
    returned as written. *)
Theorem escaped_value_is_read_back cp section opt value :
  is_Some (parser_sections cp !! section) ->
  chain_lookup cp section (lower opt) = Some (escape_percent value) ->
  config_get cp section opt = Ok value
  /\ (has_percent value = false -> escape_percent value = value).
Proof.
  intros Hsection Hvalue. split.
  - rewrite (config_get_value _ _ _ _ Hsection Hvalue).
    unfold interpolate. cbn [interpolate_some].
    apply interpolate_scan_escaped. lia.
  - clear. induction value as [|c s IH]; cbn; [reflexivity|].
    intros Hs. apply orb_false_iff in Hs as [Hc Hs]. rewrite Hc, IH by exact Hs.
    reflexivity.
Qed.

Lemma reference_name_closed name after :
  ~ In ")"%char (list_ascii_of_string name) ->
  reference_name (name +:+ ")s" +:+ after) = Some (name, after).
Proof.
  induction name as [|c name IH]; intros Hname.
  - reflexivity.
  - change (String c name +:+ ")s" +:+ after)
      with (String c (name +:+ ")s" +:+ after)).
    cbn [reference_name]. cbn in Hname.
    destruct (Ascii.eqb_spec c ")") as [->|_]; [tauto|].
    rewrite IH by tauto. reflexivity.
Qed.

Lemma interpolate_some_cycle depth lookup name :
  name <> EmptyString ->
  ~ In ")"%char (list_ascii_of_string name) ->
  lookup (lower name) = Some ("%(" +:+ name +:+ ")s") ->
  interpolate_some depth lookup ("%(" +:+ name +:+ ")s") = Raised InterpolationDepthError.
Proof.
  intros Hnonempty Hname Hlookup. induction depth as [|depth IH]; [reflexivity|].
  cbn [interpolate_some].
  change ("%(" +:+ name +:+ ")s") with (String "%" (String "(" (name +:+ ")s"))) in *.
  cbn [String.length interpolate_scan Ascii.eqb Bool.eqb].
  pose proof (reference_name_closed name EmptyString Hname) as Href.
  change (")s" +:+ EmptyString) with ")s" in Href. rewrite Href.
  destruct name as [|n name]; [contradiction|].
  rewrite Hlookup. cbn [has_percent Ascii.eqb Bool.eqb orb]. rewrite IH. reflexivity.
Qed.

(** An option whose value refers to the option itself is not expanded
    for ever: [get] gives up at the depth limit with
    [InterpolationDepthError]. *)
Theorem self_reference_is_rejected cp section name :
  is_Some (parser_sections cp !! section) ->
  name <> EmptyString ->
  ~ In ")"%char (list_ascii_of_string name) ->
  chain_lookup cp section (lower name) = Some ("%(" +:+ name +:+ ")s") ->
  config_get cp section name = Raised InterpolationDepthError.
Proof.
  intros Hsection Hnonempty Hname Hvalue.
  rewrite (config_get_value _ _ _ _ Hsection Hvalue).
  apply interpolate_some_cycle; assumption.
Qed.

Section SupervisorFacts.
Context `{PyRuntime}.

Lemma config_get_plain cp section opt value :
  plain_option cp section (lower opt) value -> config_get cp section opt = Ok value.
Proof.
  intros (Hsection & Hvalue & Hplain).
  rewrite (config_get_value _ _ _ _ Hsection Hvalue). apply interpolate_plain, Hplain.
Qed.

Lemma config_get_found cp section opt value :
  config_get cp section opt = Ok value -> String.eqb section "DEFAULT" = false ->
  is_Some (parser_sections cp !! section)
  /\ is_Some (chain_lookup cp section (lower opt)).
Proof.
  unfold config_get. intros Hget Hsection.
  destruct (parser_sections cp !! section) as [own|] eqn:Hown.
  - split; [eauto|]. destruct (chain_lookup cp section (lower opt)); [eauto|discriminate].
  - rewrite Hsection in Hget. discriminate.
Qed.

(** A file whose twelve options are plain text, with a number for
    [threads] and a word of [BOOLEAN_STATES] for [verbose] and [debug], is
    read without a line printed, and the configuration holds the values as
    written. *)
Theorem get_config_of_plain_file files config_file cp cfg
    threads_text verbose_text debug_text :
  files config_file = Parsed cp ->
  plain_option cp "rabbitmq" "user" (rabbitmq_user cfg) ->
  plain_option cp "rabbitmq" "password" (rabbitmq_password cfg) ->
  plain_option cp "rabbitmq" "server" (rabbitmq_server cfg) ->
  plain_option cp "rabbitmq" "amqp_port" (rabbitmq_amqp_port cfg) ->
  plain_option cp "rabbitmq" "http_port" (rabbitmq_http_port cfg) ->
  plain_option cp "rabbitmq" "vhost" (rabbitmq_vhost cfg) ->
  plain_option cp "rabbitmq" "exchange" (rabbitmq_exchange cfg) ->
  plain_option cp "splunk" "url" (splunk_url cfg) ->
  plain_option cp "splunk" "token" (splunk_token cfg) ->
  plain_option cp "general" "threads" threads_text ->
  int_of_str threads_text = Ok (threads cfg) ->
  plain_option cp "general" "verbose" verbose_text ->
  boolean_state (lower verbose_text) = Some (verbose cfg) ->
  plain_option cp "general" "debug" debug_text ->
  boolean_state (lower debug_text) = Some (debug cfg) ->
  get_config files config_file = ([], Ok cfg).
Proof.
  intros Hfile Huser Hpassword Hserver Hamqp Hhttp Hvhost Hexchange Hurl Htoken
    Hthreads Hint Hverbose Hverbose_word Hdebug Hdebug_word.
  unfold get_config, sup_lift, config_getint, config_getboolean. rewrite Hfile.
  rewrite (config_get_plain _ _ "user" _ Huser),
    (config_get_plain _ _ "password" _ Hpassword),
    (config_get_plain _ _ "server" _ Hserver),
    (config_get_plain _ _ "amqp_port" _ Hamqp),
    (config_get_plain _ _ "http_port" _ Hhttp),
    (config_get_plain _ _ "vhost" _ Hvhost),
    (config_get_plain _ _ "exchange" _ Hexchange),
    (config_get_plain _ _ "url" _ Hurl),
    (config_get_plain _ _ "token" _ Htoken),
    (config_get_plain _ _ "threads" _ Hthreads),
    (config_get_plain _ _ "verbose" _ Hverbose),
    (config_get_plain _ _ "debug" _ Hdebug).
  cbn [rbind]. rewrite Hint. cbn [rbind]. rewrite Hverbose_word, Hdebug_word.
  destruct cfg; reflexivity.
Qed.

Lemma rbind_ok {A B} (r : result A) (k : A -> result B) b :
  rbind r k = Ok b -> exists a, r = Ok a /\ k a = Ok b.
Proof. destruct r as [a|e]; cbn; [eauto|discriminate]. Qed.

(** [get_config] returns a configuration only for a file that was
    parsed and has each of the twelve options, in its section or in
    [DEFAULT]; it has then printed nothing. A file that cannot be opened
    ends the program with exit status 1 after one line, and a parsed file
    without a [rabbitmq] section raises [NoSectionError]. *)
Theorem get_config_needs_every_option files config_file :
  (forall cfg, snd (get_config files config_file) = Ok cfg ->
     fst (get_config files config_file) = []
     /\ exists cp, files config_file = Parsed cp
        /\ Forall (fun '(section, opt) =>
                     is_Some (parser_sections cp !! section)
                     /\ is_Some (chain_lookup cp section opt)) required_options)
  /\ (files config_file = Unreadable ->
      get_config files config_file
      = ([SPrint (LineConfigUnreadable config_file)], Raised (SystemExit 1)))
  /\ (forall cp, files config_file = Parsed cp ->
      parser_sections cp !! "rabbitmq" = None ->
      get_config files config_file = ([], Raised NoSectionError)).
Proof.
  split; [|split].
  - intros cfg. unfold get_config.
    destruct (files config_file) as [|cp|error]; cbn [fst snd]; [discriminate| |discriminate].
    unfold sup_lift, config_getint, config_getboolean. cbn [fst snd]. intros Hget.
    split; [reflexivity|]. exists cp. split; [reflexivity|].
    repeat
      match type of Hget with
      | rbind (config_get _ _ _) _ = Ok _ =>
          let Hfound := fresh "Hfound" in
          apply rbind_ok in Hget as (? & Hfound & Hget);
          apply config_get_found in Hfound; [|reflexivity]
      | rbind (rbind (config_get _ _ _) _) _ = Ok _ =>
          let Hfound := fresh "Hfound" in
          let Hconv := fresh "Hconv" in
          apply rbind_ok in Hget as (? & Hconv & Hget);
          apply rbind_ok in Hconv as (? & Hfound & _);
          apply config_get_found in Hfound; [|reflexivity]
      end.
    unfold required_options. repeat (apply Forall_cons; split; [assumption|]).
    apply Forall_nil. exact I.
  - intros Hfile. unfold get_config. rewrite Hfile. reflexivity.
  - intros cp Hfile Hsection. unfold get_config, sup_lift. rewrite Hfile.
    unfold config_get at 1. rewrite Hsection. reflexivity.
Qed.

End SupervisorFacts.


Lemma reference_name_app s t name after :
  reference_name s = Some (name, after) ->
  reference_name (s +:+ t) = Some (name, after +:+ t).
Proof.
  revert name after. induction s as [|c s IH]; intros name after; [discriminate|].
  change (String c s +:+ t) with (String c (s +:+ t)). cbn [reference_name].
  destruct (Ascii.eqb c ")").
  - destruct s as [|c' s']; [discriminate|].
    change (String c' s' +:+ t) with (String c' (s' +:+ t)). cbv beta iota.
    destruct (Ascii.eqb c' "s"); [|discriminate]. intros [= <- <-]. reflexivity.
  - destruct (reference_name s) as [[name' after']|]; [|discriminate].
    intros [= <- <-]. rewrite (IH _ _ eq_refl). reflexivity.
Qed.

(** A scan that returns has met no ["%"] outside a ["%%"] or a reference. *)
Lemma interpolate_scan_percent_ok nested lookup fuel rest r :
  interpolate_scan nested lookup fuel rest = Ok r -> percent_scan fuel rest = true.
Proof.
  revert rest r. induction fuel as [|fuel IH]; intros rest r; [reflexivity|].
  cbn [interpolate_scan percent_scan]. destruct rest as [|c rest1]; [reflexivity|].
  destruct (Ascii.eqb c "%").
  - destruct rest1 as [|c1 rest2]; [discriminate|].
    destruct (Ascii.eqb c1 "%").
    + destruct (interpolate_scan nested lookup fuel rest2) eqn:Hrest; [|discriminate].
      intros _. exact (IH _ _ Hrest).
    + destruct (Ascii.eqb c1 "("); [|discriminate].
      destruct (reference_name rest2) as [[[|n name] after]|]; try discriminate.
      destruct (lookup _) as [v|]; [|discriminate].
      destruct (if has_percent v then nested v else Ok v); [|discriminate].
      cbn [rbind].
      destruct (interpolate_scan nested lookup fuel after) eqn:Hrest; [|discriminate].
      intros _. exact (IH _ _ Hrest).
  - destruct (interpolate_scan nested lookup fuel rest1) eqn:Hrest; [|discriminate].
    intros _. exact (IH _ _ Hrest).
Qed.

(** Text whose ["%"] are all paired, followed by a stray ["%"]. *)
Lemma percent_scan_stray fuel before rest :
  (String.length before <= fuel)%nat ->
  percent_scan fuel before = true ->
  stray_percent rest = true ->
  forall fuel', (String.length (before +:+ rest) <= fuel')%nat ->
                percent_scan fuel' (before +:+ rest) = false.
Proof.
  revert before. induction fuel as [|fuel IH]; intros before Hfuel Hok Hrest fuel' Hfuel'.
  - destruct before; [|cbn in Hfuel; lia].
    change (EmptyString +:+ rest) with rest in *.
    destruct rest as [|c rest1]; [discriminate|]. cbn in Hrest.
    apply andb_true_iff in Hrest as [Hc Hnext].
    destruct fuel' as [|fuel']; [cbn in Hfuel'; lia|].
    cbn [percent_scan]. rewrite Hc. destruct rest1 as [|c1 rest2]; [reflexivity|].
    apply andb_true_iff in Hnext as [H1%negb_true_iff H2%negb_true_iff].
    rewrite H1, H2. reflexivity.
  - destruct before as [|c before1].
    { apply (IH EmptyString); [cbn; lia|destruct fuel; reflexivity|exact Hrest|exact Hfuel']. }
    change (String c before1 +:+ rest) with (String c (before1 +:+ rest)) in *.
    destruct fuel' as [|fuel']; [cbn in Hfuel'; lia|].
    cbn in Hfuel, Hfuel'. cbn [percent_scan] in *.
    destruct (Ascii.eqb c "%").
    + destruct before1 as [|c1 before2]; [discriminate|].
      change (String c1 before2 +:+ rest) with (String c1 (before2 +:+ rest)) in *.
      cbn in Hfuel, Hfuel'. cbv beta iota.
      destruct (Ascii.eqb c1 "%").
      * apply (IH before2); [lia|exact Hok|exact Hrest|lia].
      * destruct (Ascii.eqb c1 "("); [|discriminate].
        destruct (reference_name before2) as [[name after]|] eqn:Hname; [|discriminate].
        rewrite (reference_name_app _ rest _ _ Hname).
        pose proof (reference_name_shorter _ _ _ Hname) as Hshort.
        destruct name as [|n name]; [discriminate|].
        apply (IH after); [lia|exact Hok|exact Hrest|].
        rewrite string_length_app in *. lia.
    + apply (IH before1); [lia|exact Hok|exact Hrest|lia].
Qed.

Lemma interpolate_scan_escaped_stray nested lookup fuel text rest :
  stray_percent rest = true ->
  (String.length (escape_percent text +:+ rest) <= fuel)%nat ->
  interpolate_scan nested lookup fuel (escape_percent text +:+ rest)
  = Raised InterpolationSyntaxError.
Proof.
  revert fuel. induction text as [|c text IH]; intros fuel Hrest Hfuel.
  - apply (interpolate_scan_stray nested lookup fuel EmptyString rest);
      [reflexivity|exact Hrest|exact Hfuel].
  - cbn [escape_percent] in *. destruct (Ascii.eqb c "%") eqn:Hc.
    + change (String "%" (String "%" (escape_percent text)) +:+ rest)
        with (String "%" (String "%" (escape_percent text +:+ rest))) in *.
      destruct fuel as [|fuel]; [cbn in Hfuel; lia|]. cbn in Hfuel.
      cbn [interpolate_scan Ascii.eqb Bool.eqb].
      rewrite IH by (auto; lia). reflexivity.
    + change (String c (escape_percent text) +:+ rest)
        with (String c (escape_percent text +:+ rest)) in *.
      destruct fuel as [|fuel]; [cbn in Hfuel; lia|]. cbn in Hfuel.
      cbn [interpolate_scan]. rewrite Hc.
      rewrite IH by (auto; lia). reflexivity.
Qed.

Section ConfigFacts.
Context `{PyRuntime}.

(** A configuration that was returned had every option read. *)
Lemma get_config_reads files config_file cp cfg :
  files config_file = Parsed cp ->
  snd (get_config files config_file) = Ok cfg ->
  Forall (fun '(section, opt) => exists value, config_get cp section opt = Ok value)
    required_options.
Proof.
  intros Hfile. unfold get_config. rewrite Hfile.
  unfold sup_lift, config_getint, config_getboolean. cbn [fst snd]. intros Hget.
  repeat
    match type of Hget with
    | rbind (config_get _ _ _) _ = Ok _ =>
        let Hfound := fresh "Hfound" in
        apply rbind_ok in Hget as (? & Hfound & Hget)
    | rbind (rbind (config_get _ _ _) _) _ = Ok _ =>
        let Hfound := fresh "Hfound" in
        let Hconv := fresh "Hconv" in
        apply rbind_ok in Hget as (? & Hconv & Hget);
        apply rbind_ok in Hconv as (? & Hfound & _)
    end.
  unfold required_options. repeat (apply Forall_cons; split; [eauto|]).
  apply Forall_nil. exact I.
Qed.

(** A ["%"] that neither ["%"] nor ["("] follows, standing after text
    whose own ["%"] are all in a ["%%"] or in a reference, is fatal: [get]
    raises, with [InterpolationSyntaxError] when the text before holds no
    reference, and [get_config] returns no configuration from a file that
    has such a value in one of the options it reads. *)
Theorem stray_percent_is_rejected cp section opt before rest :
  is_Some (parser_sections cp !! section) ->
  chain_lookup cp section (lower opt) = Some (before +:+ rest) ->
  percent_ok before = true ->
  stray_percent rest = true ->
  (exists e, config_get cp section opt = Raised e)
  /\ (forall text, before = escape_percent text ->
      config_get cp section opt = Raised InterpolationSyntaxError)
  /\ (forall files config_file cfg,
        files config_file = Parsed cp ->
        In (section, opt) required_options ->
        snd (get_config files config_file) <> Ok cfg).
Proof.
  intros Hsection Hvalue Hbefore Hrest.
  pose proof (config_get_value _ _ _ _ Hsection Hvalue) as Hget.
  assert (Hraised : exists e, config_get cp section opt = Raised e).
  { rewrite Hget. unfold interpolate. cbn [interpolate_some].
    destruct (interpolate_scan _ _ _ _) as [r|e] eqn:Hscan; [|eauto].
    apply interpolate_scan_percent_ok in Hscan.
    rewrite (percent_scan_stray (String.length before) before rest) in Hscan;
      [discriminate|lia|exact Hbefore|exact Hrest|lia]. }
  split; [exact Hraised|]. split.
  - intros text ->. rewrite Hget. unfold interpolate. cbn [interpolate_some].
    apply interpolate_scan_escaped_stray; [exact Hrest|lia].
  - intros files config_file cfg Hfile Hin Hcfg.
    pose proof (get_config_reads _ _ _ _ Hfile Hcfg) as Hall.
    rewrite List.Forall_forall in Hall. specialize (Hall _ Hin). cbn in Hall.
    destruct Hall as [value Hok]. destruct Hraised as [e He]. congruence.
Qed.

End ConfigFacts.

(** ** The checks before the launch *)

Lemma ok_true_iff reply : ok reply = true <-> ~ error_status (status_code reply).
Proof.
  unfold ok, raise_for_status, error_status.
  destruct (400 <=? status_code reply) eqn:Hlow;
    destruct (status_code reply <? 600) eqn:Hhigh; cbn; split; intros Hok; try lia;
    try reflexivity; try discriminate.
Qed.

Lemma requests_classes e :
  (is_HTTPError e = true -> is_RequestException e = true)
  /\ (is_ConnectionError e = true -> is_RequestException e = true).
Proof. destruct e; cbn; split; congruence. Qed.

(** The health check posts exactly once, whatever the answer. It
    returns exactly when the endpoint answers with a status outside
    400..599; an exception of [requests], the [HTTPError] of such a status
    included, ends the program with exit status 1; any other exception of
    the post leaves the function as it is, with nothing printed. *)
Theorem health_check_outcome cfg splunk :
  let run := test_splunk_connection cfg splunk in
  let req := health_check_request cfg in
  health_posts (fst run) = [req]
  /\ (snd run = Ok tt
      <-> exists reply, splunk req = Ok reply /\ ~ error_status (status_code reply))
  /\ (forall e, splunk req = Raised e -> is_RequestException e = true ->
      snd run = Raised (SystemExit 1) /\ length (printed_lines (fst run)) = 1%nat)
  /\ (forall reply, splunk req = Ok reply -> error_status (status_code reply) ->
      fst run = [SPost req; SPrint (LineSplunkHTTPError (RequestException "HTTPError"))]
      /\ snd run = Raised (SystemExit 1))
  /\ (forall e, splunk req = Raised e -> is_RequestException e = false ->
      run = ([SPost req], Raised e)).
Proof.
  cbv zeta. unfold test_splunk_connection.
  destruct (splunk (health_check_request cfg)) as [reply|e] eqn:Hpost; cbn [rbind].
  - unfold raise_for_status.
    destruct ((400 <=? status_code reply) && (status_code reply <? 600)) eqn:Hrange;
      cbn [is_HTTPError String.eqb Ascii.eqb Bool.eqb fst snd health_posts].
    + apply andb_true_iff in Hrange as [Hlow%Z.leb_le Hhigh%Z.ltb_lt].
      split; [reflexivity|]. split.
      { split; [discriminate|]. intros (reply' & [= <-] & Hno).
        exfalso. apply Hno. unfold error_status. lia. }
      split; [discriminate|]. split; [|discriminate].
      intros reply' [= <-] _. split; reflexivity.
    + split; [reflexivity|]. split.
      { split; [|reflexivity]. intros _. exists reply. split; [reflexivity|].
        unfold error_status. intros [Hlow%Z.leb_le Hhigh%Z.ltb_lt].
        rewrite Hlow, Hhigh in Hrange. discriminate. }
      split; [discriminate|]. split; [|discriminate].
      intros reply' [= <-] [Hlow%Z.leb_le Hhigh%Z.ltb_lt].
      rewrite Hlow, Hhigh in Hrange. discriminate.
  - destruct (requests_classes e) as [Hhttp Hconn].
    destruct (is_HTTPError e) eqn:Hh;
      [|destruct (is_ConnectionError e) eqn:Hc;
        [|destruct (is_RequestException e) eqn:Hr]];
      cbn [fst snd health_posts printed_lines length].
    + split; [reflexivity|]. split; [split; [discriminate|intros (? & [=] & _)]|].
      split; [intros e' [= <-] _; split; reflexivity|]. split; [discriminate|].
      intros e' [= <-] He'. rewrite Hhttp in He' by reflexivity. discriminate.
    + split; [reflexivity|]. split; [split; [discriminate|intros (? & [=] & _)]|].
      split; [intros e' [= <-] _; split; reflexivity|]. split; [discriminate|].
      intros e' [= <-] He'. rewrite Hconn in He' by reflexivity. discriminate.
    + split; [reflexivity|]. split; [split; [discriminate|intros (? & [=] & _)]|].
      split; [intros e' [= <-] _; split; reflexivity|]. split; [discriminate|].
      intros e' [= <-] He'. congruence.
    + split; [reflexivity|]. split; [split; [discriminate|intros (? & [=] & _)]|].
      split; [intros e' [= <-] He'; congruence|]. split; [discriminate|].
      intros e' [= <-] _. reflexivity.
Qed.

Section HealthAndDelivery.
Context `{PyRuntime}.


End HealthAndDelivery.

(** [add_vhost] sends one request, to
    [http://<server>:<http_port>/api/vhosts/<vhost>] with the configured
    user and password and without certificate verification. It returns
    exactly when the reply has a status outside 400..599; any [Exception]
    of the request prints the line of the refused connection, with that
    URL and the exception, and any reply with an error status prints the
    line of the failure, both ending the program by [sys.exit(1)]; an
    exception that is no [Exception] passes through. Against the modelled
    broker this is [add_vhost] as the launch uses it. *)
Theorem add_vhost_prints_on_failure cfg api :
  let run := add_vhost_on cfg api in
  let req := add_vhost_request cfg in
  put_url req = "http://" +:+ rabbitmq_server cfg +:+ ":" +:+ rabbitmq_http_port cfg
                +:+ "/api/vhosts/" +:+ rabbitmq_vhost cfg
  /\ put_auth req = (rabbitmq_user cfg, rabbitmq_password cfg)
  /\ put_verify req = false
  /\ (snd run = Ok tt
      <-> exists reply, api req = Ok reply /\ ~ error_status (status_code reply))
  /\ (forall e, api req = Raised e -> is_Exception e = true ->
      run = ([SPrint (LineVhostRefused
                        ("http://" +:+ rabbitmq_server cfg +:+ ":"
                         +:+ rabbitmq_http_port cfg +:+ "/api/vhosts/"
                         +:+ rabbitmq_vhost cfg) e)],
             Raised (SystemExit 1)))
  /\ (forall reply, api req = Ok reply -> error_status (status_code reply) ->
      run = ([SPrint (LineVhostFailed reply)], Raised (SystemExit 1)))
  /\ (forall e, api req = Raised e -> is_Exception e = false -> run = ([], Raised e))
  /\ (forall b,
        api req = (r <-? put_vhost b (rabbitmq_user cfg) (rabbitmq_password cfg)
                           (rabbitmq_vhost cfg);
                   Ok (snd r))%res ->
        fst run = fst (add_vhost_printing cfg b)
        /\ (snd run = Ok tt <-> exists b', add_vhost cfg b = Ok b')).
Proof.
  cbv zeta. split; [reflexivity|]. split; [reflexivity|]. split; [reflexivity|].
  unfold add_vhost_on.
  destruct (api (add_vhost_request cfg)) as [reply|e] eqn:Hput.
  - pose proof (ok_true_iff reply) as Hok.
    destruct (ok reply) eqn:Hreply; cbn [negb fst snd].
    + assert (Hfine : ~ error_status (status_code reply)) by (apply Hok; reflexivity).
      split; [split; [intros _; exists reply; auto|reflexivity]|].
      split; [discriminate|].
      split; [intros reply' [= <-] Herr; contradiction|].
      split; [discriminate|].
      intros b Hbroker. unfold add_vhost_printing, add_vhost.
      destruct (put_vhost b _ _ _) as [[b1 reply1]|e1]; cbn [rbind snd] in Hbroker;
        [|discriminate].
      injection Hbroker as <-. rewrite Hreply. cbn [negb fst].
      split; [reflexivity|]. split; eauto.
    + assert (Herr : error_status (status_code reply)).
      { destruct (error_status_dec (status_code reply)) as [Hyes|Hno]; [exact Hyes|].
        apply Hok in Hno. discriminate. }
      split; [split; [discriminate|intros (reply' & [= <-] & Hno); contradiction]|].
      split; [discriminate|].
      split; [intros reply' [= <-] _; reflexivity|].
      split; [discriminate|].
      intros b Hbroker. unfold add_vhost_printing, add_vhost.
      destruct (put_vhost b _ _ _) as [[b1 reply1]|e1]; cbn [rbind snd] in Hbroker;
        [|discriminate].
      injection Hbroker as <-. rewrite Hreply. cbn [negb fst].
      split; [reflexivity|]. split; [discriminate|intros [b' [=]]].
  - destruct (is_Exception e) eqn:Hclass; cbn [fst snd].
    + split; [split; [discriminate|intros (reply' & [=] & _)]|].
      split; [intros e' [= <-] _; reflexivity|].
      split; [discriminate|].
      split; [intros e' [= <-] He'; congruence|].
      intros b Hbroker. unfold add_vhost_printing, add_vhost.
      destruct (put_vhost b _ _ _) as [[b1 reply1]|e1]; cbn [rbind snd] in Hbroker;
        [discriminate|].
      injection Hbroker as <-. cbn [fst].
      split; [reflexivity|]. split; [discriminate|intros [b' [=]]].
    + split; [split; [discriminate|intros (reply' & [=] & _)]|].
      split; [intros e' [= <-] He'; congruence|].
      split; [discriminate|].
      split; [intros e' [= <-] _; reflexivity|].
      intros b Hbroker. exfalso. unfold put_vhost in Hbroker.
      destruct (negb (listening b)); cbn [rbind] in Hbroker;
        [injection Hbroker as ->; discriminate|].
      destruct (negb (authenticated b _ _)); cbn [rbind] in Hbroker; [discriminate|].
      destruct (bool_decide _); discriminate.
Qed.

Lemma started_workers_app t1 t2 :
  started_workers (t1 ++ t2) = started_workers t1 ++ started_workers t2.
Proof.
  induction t1 as [|[] t1 IH]; cbn; rewrite ?IH; reflexivity.
Qed.

Lemma stopped_workers_app t1 t2 :
  stopped_workers (t1 ++ t2) = stopped_workers t1 ++ stopped_workers t2.
Proof.
  induction t1 as [|[] t1 IH]; cbn; rewrite ?IH; reflexivity.
Qed.

Lemma started_workers_starts l : started_workers (map SStart l) = l.
Proof. induction l as [|n l IH]; cbn; rewrite ?IH; reflexivity. Qed.

Lemma stopped_workers_starts l : stopped_workers (map SStart l) = [].
Proof. induction l as [|n l IH]; cbn; rewrite ?IH; reflexivity. Qed.

Lemma started_workers_status lines : started_workers (status_events lines) = [].
Proof. induction lines as [|r l IH]; [reflexivity|exact IH]. Qed.

Lemma stopped_workers_status lines : stopped_workers (status_events lines) = [].
Proof. induction lines as [|r l IH]; [reflexivity|exact IH]. Qed.

(** The reporting loop prints the lines [aggregate_loop] collects; when an
    iteration raises, the lines of the iterations before it are out. *)
Lemma aggregate_printing_spec cfg st inputs :
  exists lines,
    fst (aggregate_printing cfg st inputs) = status_events lines
    /\ match aggregate_loop cfg st inputs with
       | Ok (st', lines') =>
           lines = lines' /\ snd (aggregate_printing cfg st inputs) = Ok st'
       | Raised e => snd (aggregate_printing cfg st inputs) = Raised e
       end.
Proof.
  revert st. induction inputs as [|[metric now] rest IH]; intros st.
  - exists []. split; [reflexivity|]. cbn. split; reflexivity.
  - cbn [aggregate_printing aggregate_loop].
    destruct (aggregate_step cfg st metric now) as [[st' line]|e]; cbn [rbind].
    + destruct (IH st') as (lines & Hprinted & Hloop).
      destruct (aggregate_printing cfg st' rest) as [t r]. cbn [fst snd] in *.
      exists (match line with Some l => l :: lines | None => lines end).
      split; [destruct line; cbn; rewrite Hprinted; reflexivity|].
      destruct (aggregate_loop cfg st' rest) as [[st'' lines']|e]; cbn [rbind].
      * destruct Hloop as [-> ->]. split; reflexivity.
      * exact Hloop.
    + exists []. split; reflexivity.
Qed.

Lemma kill_and_join_spec remaining :
  kill_and_join remaining
  = ([], match remaining with [] => Ok tt | _ :: _ => Raised AttributeError end).
Proof. destruct remaining; reflexivity. Qed.

Lemma on_interrupt_spec remaining :
  on_interrupt remaining
  = ([SPrint LineInterrupted],
     Raised (match remaining with [] => SystemExit 1 | _ :: _ => AttributeError end)).
Proof.
  unfold on_interrupt. rewrite kill_and_join_spec. destruct remaining; reflexivity.
Qed.

Lemma range_length n : length (range n) = Z.to_nat n.
Proof. unfold range. rewrite length_map, length_seq. reflexivity. Qed.

Lemma range_bounds n : Forall (fun i => 0 <= i < n) (range n).
Proof.
  unfold range. apply List.Forall_forall. intros i Hi.
  apply in_map_iff in Hi as (k & <- & Hk%in_seq). lia.
Qed.

Lemma range_NoDup n : NoDup (range n).
Proof.
  unfold range. apply NoDup_fmap_2; [intros ? ?; lia|]. apply NoDup_seq.
Qed.

(** ** The supervising process *)

Lemma test_splunk_connection_passed cfg splunk :
  snd (test_splunk_connection cfg splunk) = Ok tt ->
  test_splunk_connection cfg splunk = ([SPost (health_check_request cfg)], Ok tt).
Proof.
  unfold test_splunk_connection.
  destruct (rbind _ _) as [[]|e]; [reflexivity|].
  destruct (is_HTTPError e); [discriminate|].
  destruct (is_ConnectionError e); [discriminate|].
  destruct (is_RequestException e); discriminate.
Qed.

Lemma test_splunk_connection_trace cfg splunk :
  started_workers (fst (test_splunk_connection cfg splunk)) = []
  /\ stopped_workers (fst (test_splunk_connection cfg splunk)) = [].
Proof.
  unfold test_splunk_connection.
  destruct (rbind _ _) as [[]|e]; [split; reflexivity|].
  destruct (is_HTTPError e); [split; reflexivity|].
  destruct (is_ConnectionError e); [split; reflexivity|].
  destruct (is_RequestException e); split; reflexivity.
Qed.

Lemma add_vhost_printing_passed cfg b b' :
  add_vhost cfg b = Ok b' -> add_vhost_printing cfg b = ([], Ok b').
Proof.
  unfold add_vhost, add_vhost_printing.
  destruct (put_vhost _ _ _ _) as [[b1 reply]|e]; [|discriminate].
  destruct (negb (ok reply)); [discriminate|]. intros [= ->]. reflexivity.
Qed.

Lemma add_vhost_printing_outcome cfg b :
  snd (add_vhost_printing cfg b) = add_vhost cfg b
  /\ started_workers (fst (add_vhost_printing cfg b)) = []
  /\ stopped_workers (fst (add_vhost_printing cfg b)) = [].
Proof.
  unfold add_vhost, add_vhost_printing.
  destruct (put_vhost _ _ _ _) as [[b1 reply]|e]; [|repeat split].
  destruct (negb (ok reply)); repeat split.
Qed.

(** Whatever the interrupt, the [try] block starts the first workers of
    [process_list], in order, and stops none; it never returns. *)
Lemma supervise_spec cfg interrupted :
  exists k tail e,
    supervise cfg interrupted
    = (SPrint LineWaiting :: map SStart (firstn k (range (threads cfg))) ++ tail,
       Raised e)
    /\ started_workers tail = [] /\ stopped_workers tail = [].
Proof.
  unfold supervise. destruct interrupted as [started taken|start inputs].
  - destruct (started <? length (range (threads cfg)))%nat.
    + exists started, [SPrint LineInterrupted]. rewrite on_interrupt_spec.
      eexists. split; [reflexivity|]. split; reflexivity.
    + exists (length (range (threads cfg))), [SPrint LineInterrupted].
      rewrite on_interrupt_spec, firstn_all.
      eexists. split; [reflexivity|]. split; reflexivity.
  - destruct (aggregate_printing_spec cfg (initial_state start) inputs)
      as (lines & Hprinted & Hloop).
    destruct (aggregate_printing cfg (initial_state start) inputs) as [t r].
    cbn [fst snd] in *. subst t.
    exists (length (range (threads cfg))). rewrite firstn_all.
    destruct r as [st|e].
    + exists (status_events lines ++ [SPrint LineInterrupted]), (SystemExit 1).
      rewrite on_interrupt_spec. split; [reflexivity|].
      rewrite started_workers_app, stopped_workers_app,
        started_workers_status, stopped_workers_status. split; reflexivity.
    + exists (status_events lines), e. cbn. rewrite ?app_nil_r.
      split; [reflexivity|].
      rewrite started_workers_status, stopped_workers_status. split; reflexivity.
Qed.

Section MainFacts.
Context `{PyRuntime}.

Lemma get_config_silent files config_file cfg :
  snd (get_config files config_file) = Ok cfg ->
  get_config files config_file = ([], Ok cfg).
Proof.
  unfold get_config. destruct (files config_file); cbn; try discriminate.
  intros ->. reflexivity.
Qed.

Lemma get_config_trace files config_file :
  started_workers (fst (get_config files config_file)) = []
  /\ stopped_workers (fst (get_config files config_file)) = [].
Proof.
  unfold get_config. destruct (files config_file); split; reflexivity.
Qed.

(** [main] once its three checks have passed. *)
Lemma main_after_checks files b splunk config_file interrupted cfg b' :
  snd (get_config files config_file) = Ok cfg ->
  add_vhost cfg b = Ok b' ->
  snd (test_splunk_connection cfg splunk) = Ok tt ->
  main files b splunk config_file interrupted
  = (SPost (health_check_request cfg) :: fst (supervise cfg interrupted),
     snd (supervise cfg interrupted)).
Proof.
  intros Hconfig Hvhost Hhealth. unfold main.
  rewrite (get_config_silent _ _ _ Hconfig). cbn [sup_bind].
  rewrite (add_vhost_printing_passed _ _ _ Hvhost). cbn [sup_bind].
  rewrite (test_splunk_connection_passed _ _ Hhealth). cbn [sup_bind].
  destruct (supervise cfg interrupted) as [t r]. reflexivity.
Qed.

(** [main] when one of its three checks fails: no worker is started. *)
Lemma main_without_checks files b splunk config_file interrupted :
  (exists cfg b',
     snd (get_config files config_file) = Ok cfg
     /\ add_vhost cfg b = Ok b'
     /\ snd (test_splunk_connection cfg splunk) = Ok tt)
  \/ (started_workers (fst (main files b splunk config_file interrupted)) = []
      /\ stopped_workers (fst (main files b splunk config_file interrupted)) = []
      /\ exists e, snd (main files b splunk config_file interrupted) = Raised e).
Proof.
  unfold main.
  destruct (get_config_trace files config_file) as [Hc1 Hc2].
  destruct (get_config files config_file) as [t1 [cfg|e1]]; cbn [fst snd sup_bind] in *;
    [|right; eauto].
  destruct (add_vhost_printing_outcome cfg b) as (Hvhost & Hv1 & Hv2).
  destruct (add_vhost_printing cfg b) as [t2 [b'|e2]]; cbn [fst snd sup_bind] in *;
    [|right; rewrite started_workers_app, stopped_workers_app, Hc1, Hc2, Hv1, Hv2;
      eauto].
  destruct (test_splunk_connection_trace cfg splunk) as [Hh1 Hh2].
  destruct (test_splunk_connection cfg splunk) as [t3 [[]|e3]] eqn:Hhealth;
    cbn [fst snd sup_bind] in *.
  - left. exists cfg, b'. rewrite Hhealth. split; [reflexivity|]. split; [congruence|reflexivity].
  - right.
    rewrite !started_workers_app, !stopped_workers_app, Hc1, Hc2, Hv1, Hv2, Hh1, Hh2.
    eauto.
Qed.

(** A worker is started only after the configuration was read, the
    virtual host was put and the health check passed; the trace is then the
    health check, the waiting line, and the first workers of
    [range(threads)] in order, each number once and below [threads], which
    is positive. *)
Theorem workers_start_after_the_checks files b splunk config_file interrupted :
  let run := main files b splunk config_file interrupted in
  started_workers (fst run) <> [] ->
  exists cfg b' k tail,
    get_config files config_file = ([], Ok cfg)
    /\ add_vhost cfg b = Ok b'
    /\ snd (test_splunk_connection cfg splunk) = Ok tt
    /\ fst run = SPost (health_check_request cfg) :: SPrint LineWaiting
                 :: map SStart (firstn k (range (threads cfg))) ++ tail
    /\ started_workers (fst run) = firstn k (range (threads cfg))
    /\ NoDup (started_workers (fst run))
    /\ Forall (fun i => 0 <= i < threads cfg) (started_workers (fst run)).
Proof.
  cbv zeta. intros Hstarted.
  destruct (main_without_checks files b splunk config_file interrupted)
    as [(cfg & b' & Hconfig & Hvhost & Hhealth)|(Hnone & _)]; [|contradiction].
  rewrite (main_after_checks _ _ _ _ _ _ _ Hconfig Hvhost Hhealth) in *.
  destruct (supervise_spec cfg interrupted) as (k & tail & e & -> & Htail & _).
  cbn [fst snd] in *.
  assert (Hlist : started_workers
                    (SPost (health_check_request cfg) :: SPrint LineWaiting
                     :: map SStart (firstn k (range (threads cfg))) ++ tail)
                  = firstn k (range (threads cfg))).
  { cbn [started_workers].
    rewrite started_workers_app, started_workers_starts, Htail. apply app_nil_r. }
  exists cfg, b', k, tail.
  split; [exact (get_config_silent _ _ _ Hconfig)|].
  split; [exact Hvhost|]. split; [exact Hhealth|]. split; [reflexivity|].
  split; [exact Hlist|]. rewrite Hlist. split.
  - pose proof (range_NoDup (threads cfg)) as Hdistinct.
    rewrite <- (firstn_skipn k (range (threads cfg))) in Hdistinct.
    apply NoDup_app in Hdistinct as [Hfirst _]. exact Hfirst.
  - pose proof (range_bounds (threads cfg)) as Hbounds.
    rewrite <- (firstn_skipn k (range (threads cfg))) in Hbounds.
    apply Forall_app in Hbounds as [Hfirst _]. exact Hfirst.
Qed.

(** [main] never returns, and it never kills or joins a worker: the
    handler of the interrupt loops over what is left of [process_list],
    which holds no worker that was started. *)
Theorem main_never_stops_a_worker files b splunk config_file interrupted :
  let run := main files b splunk config_file interrupted in
  stopped_workers (fst run) = [] /\ exists e, snd run = Raised e.
Proof.
  cbv zeta.
  destruct (main_without_checks files b splunk config_file interrupted)
    as [(cfg & b' & Hconfig & Hvhost & Hhealth)|(_ & Hnone & Hraised)];
    [|split; assumption].
  rewrite (main_after_checks _ _ _ _ _ _ _ Hconfig Hvhost Hhealth).
  destruct (supervise_spec cfg interrupted) as (k & tail & e & -> & _ & Htail).
  cbn [fst snd stopped_workers].
  rewrite stopped_workers_app, stopped_workers_starts, Htail. eauto.
Qed.

(** An interrupt in the reporting loop: [main] has then started every
    worker of [range(threads)], printed the status lines of the loop in
    order and the line of the interrupt, and it ends by raising
    [SystemExit(1)] from [sys.exit(1)]; its handler has killed and joined
    no worker. *)
Theorem interrupt_while_reporting files b splunk config_file start inputs
    cfg b' st lines :
  snd (get_config files config_file) = Ok cfg ->
  add_vhost cfg b = Ok b' ->
  snd (test_splunk_connection cfg splunk) = Ok tt ->
  aggregate_loop cfg (initial_state start) inputs = Ok (st, lines) ->
  main files b splunk config_file (WhileReporting start inputs)
  = (SPost (health_check_request cfg) :: SPrint LineWaiting
     :: map SStart (range (threads cfg))
     ++ map (fun r => SPrint (LineStatus r)) lines
     ++ [SPrint LineInterrupted],
     Raised (SystemExit 1)).
Proof.
  intros Hconfig Hvhost Hhealth Hloop.
  rewrite (main_after_checks _ _ _ _ _ _ _ Hconfig Hvhost Hhealth).
  unfold supervise.
  destruct (aggregate_printing_spec cfg (initial_state start) inputs)
    as (lines' & Hprinted & Hspec).
  rewrite Hloop in Hspec. destruct Hspec as [-> Hstate].
  destruct (aggregate_printing cfg (initial_state start) inputs) as [t r].
  cbn [fst snd] in *. subst t r. rewrite on_interrupt_spec. reflexivity.
Qed.

(** An interrupt while the workers are being started, [started] of
    them running: the handler of [main] meets a process that was never
    started, [kill()] raises, and [main] ends by raising [AttributeError];
    the [sys.exit(1)] of the handler is not reached, unless the last
    process had just been taken from [process_list], in which case the
    handler has nothing to loop over and [main] raises [SystemExit(1)].
    The handler kills and joins no worker, and [main] starts no further
    one. *)
Theorem interrupt_while_starting files b splunk config_file started taken cfg b' :
  let run := main files b splunk config_file (WhileStarting started taken) in
  snd (get_config files config_file) = Ok cfg ->
  add_vhost cfg b = Ok b' ->
  snd (test_splunk_connection cfg splunk) = Ok tt ->
  (started < Z.to_nat (threads cfg))%nat ->
  fst run = [SPost (health_check_request cfg); SPrint LineWaiting]
            ++ map SStart (firstn started (range (threads cfg)))
            ++ [SPrint LineInterrupted]
  /\ snd run = Raised (if taken && (S started =? Z.to_nat (threads cfg))%nat
                       then SystemExit 1 else AttributeError).
Proof.
  cbv zeta. intros Hconfig Hvhost Hhealth Hstarted.
  rewrite (main_after_checks _ _ _ _ _ _ _ Hconfig Hvhost Hhealth).
  unfold supervise. rewrite range_length.
  destruct (Nat.ltb_spec started (Z.to_nat (threads cfg))) as [_|]; [|lia].
  rewrite on_interrupt_spec. cbn [sup_bind sup_emit fst snd app].
  split; [reflexivity|]. f_equal.
  destruct (skipn (if taken then S started else started) (range (threads cfg)))
    as [|p rest] eqn:Hrest.
  - apply (f_equal (@length Z)) in Hrest. rewrite length_skipn, range_length in Hrest.
    cbn in Hrest. destruct taken; [|lia].
    destruct (Nat.eqb_spec (S started) (Z.to_nat (threads cfg))); [reflexivity|lia].
  - apply (f_equal (@length Z)) in Hrest. rewrite length_skipn, range_length in Hrest.
    cbn [length] in Hrest. destruct taken; [|reflexivity].
    destruct (Nat.eqb_spec (S started) (Z.to_nat (threads cfg))); [lia|reflexivity].
Qed.

End MainFacts.

(** ** The properties on sample data *)

(** A silent worker and a chatty one on the same message: on a standard
    output that takes every line, and on one that cannot write the text of
    the message. *)
Lemma chatty_worker_posts_the_same :
  (let run1 := rabbit_callback_on accepting chatty_worker (always 200 "OK") two_events in
   let run2 := rabbit_callback_on accepting sample_worker (always 200 "OK") two_events in
   run1 = rabbit_callback chatty_worker (always 200 "OK") two_events
   /\ posted (trace run1) = posted (trace run2)
   /\ acked (trace run1) = acked (trace run2)
   /\ metrics (trace run1) = metrics (trace run2)
   /\ outcome run1 = outcome run2)
  /\ rabbit_callback_on ascii_only chatty_worker (always 200 "OK") two_events
     = ([], Raised (OtherError "UnicodeEncodeError"))
  /\ acked (trace (rabbit_callback_on ascii_only sample_worker (always 200 "OK") two_events))
     = [8].
Proof.
  split; [|split].
  - apply (flags_only_print accepting chatty_worker sample_worker (always 200 "OK")
             two_events eq_refl eq_refl eq_refl).
    reflexivity.
  - destruct (flags_only_print ascii_only chatty_worker sample_worker (always 200 "OK")
                two_events eq_refl eq_refl eq_refl) as (_ & Hrefused & _).
    destruct (decode_body (content_encoding two_events) (body two_events))
      as [json_str|e] eqn:Hdecode; [|vm_compute in Hdecode; discriminate].
    exact (Hrefused json_str _ eq_refl eq_refl eq_refl).
  - vm_compute. reflexivity.
Defined.



(** The reports of a short run. *)
Lemma reports_of_a_short_run :
  exists st' lines,
    aggregate_loop sample_config (initial_state 100) short_run = Ok (st', lines)
    /\ length lines = 2%nat
    /\ 5 * Z.of_nat (length lines) <= last_time st' - last_time (initial_state 100)
    /\ (length lines <= length short_run)%nat
    /\ Forall (fun r => total_msg_count (initial_state 100) < rep_total_messages r
                        <= total_msg_count st') lines.
Proof.
  destruct (aggregate_loop sample_config (initial_state 100) short_run)
    as [[st' lines]|e] eqn:Hrun; [|vm_compute in Hrun; discriminate].
  exists st', lines. split; [reflexivity|]. split.
  - vm_compute in Hrun. injection Hrun as <- <-. reflexivity.
  - exact (reports_are_five_seconds_apart _ _ _ _ _ Hrun).
Defined.

(** The launch of a second consumer on a provisioned broker. *)
Lemma second_consumer_removes_nothing :
  topology_initializer threats_config provisioned_broker
  = Ok (shared_broker, {| channel_vhost := "dx"; prefetch_count := 10 |})
  /\ users provisioned_broker ⊆ users shared_broker
  /\ vhosts provisioned_broker ⊆ vhosts shared_broker
  /\ exchanges provisioned_broker ⊆ exchanges shared_broker
  /\ queues provisioned_broker ⊆ queues shared_broker
  /\ bindings provisioned_broker ⊆ bindings shared_broker
  /\ exchanges shared_broker !! ("dx", "alerts") = Some declared_exchange
  /\ queues shared_broker !! ("dx", "alerts_q") = Some declared_queue.
Proof.
  assert (Hlaunch : topology_initializer threats_config provisioned_broker
                    = Ok (shared_broker,
                          {| channel_vhost := "dx"; prefetch_count := 10 |})).
  { vm_compute. reflexivity. }
  split; [exact Hlaunch|].
  destruct (topology_initializer_removes_nothing _ _ _ _ Hlaunch)
    as (Husers & Hvhosts & Hexchanges & Hqueues & Hbindings & Hexchange & Hqueue).
  split; [exact Husers|]. split; [exact Hvhosts|]. split; [exact Hexchanges|].
  split; [exact Hqueues|]. split; [exact Hbindings|].
  split; [apply Hexchange|apply Hqueue]; vm_compute; reflexivity.
Defined.

(** The first consumer is still provisioned after the launch of the
    second. *)
Lemma first_consumer_is_kept :
  provisioned sample_config shared_broker
  /\ (rabbitmq_exchange sample_config <> rabbitmq_exchange threats_config ->
      rabbitmq_exchange sample_config +:+ "_q" <> rabbitmq_exchange threats_config +:+ "_q").
Proof.
  apply (other_consumers_keep_their_topology sample_config threats_config
           provisioned_broker shared_broker
           {| channel_vhost := "dx"; prefetch_count := 10 |}).
  - unfold provisioned.
    split; [reflexivity|]. split; [vm_compute; reflexivity|].
    split; [refine (bool_decide_unpack _ _); vm_compute; exact I|].
    split; [vm_compute; reflexivity|]. split; [vm_compute; reflexivity|].
    refine (bool_decide_unpack _ _); vm_compute; exact I.
  - vm_compute. reflexivity.
Defined.

(** A doubled ["%"] in the token. *)
Lemma doubled_percent_in_the_token :
  config_get percent_ini "splunk" "token" = Ok "100%sure"
  /\ (has_percent "100%sure" = false -> escape_percent "100%sure" = "100%sure").
Proof.
  apply (escaped_value_is_read_back percent_ini "splunk" "token" "100%sure").
  - refine (bool_decide_unpack _ _); vm_compute; exact I.
  - vm_compute. reflexivity.
Defined.

(** A single ["%"] in the password, after a doubled one. *)
Lemma single_percent_in_the_password :
  config_get percent_ini "rabbitmq" "password" = Raised InterpolationSyntaxError
  /\ (forall cfg,
        snd (get_config (fun _ => Parsed percent_ini) "consumer.ini") <> Ok cfg).
Proof.
  destruct (stray_percent_is_rejected percent_ini "rabbitmq" "password" "p%%w 50" "%off")
    as (_ & Hsyntax & Hconfig).
  - refine (bool_decide_unpack _ _); vm_compute; exact I.
  - vm_compute. reflexivity.
  - reflexivity.
  - reflexivity.
  - split.
    + apply (Hsyntax "p%w 50"). reflexivity.
    + intros cfg.
      apply (Hconfig (fun _ => Parsed percent_ini) "consumer.ini" cfg); [reflexivity|].
      right. left. reflexivity.
Defined.

(** The request of [add_vhost] for the sample configuration, and the
    launch against a management API that cannot be reached. *)
Lemma vhost_request_of_the_sample :
  put_url (add_vhost_request sample_config) = "http://localhost:15672/api/vhosts/dx"
  /\ put_auth (add_vhost_request sample_config) = ("guest", "guest")
  /\ add_vhost_on sample_config (fun _ => Raised (RequestException "ConnectionError"))
     = ([SPrint (LineVhostRefused "http://localhost:15672/api/vhosts/dx"
                   (RequestException "ConnectionError"))],
        Raised (SystemExit 1)).
Proof.
  destruct (add_vhost_prints_on_failure sample_config
              (fun _ => Raised (RequestException "ConnectionError")))
    as (Hurl & Hauth & _ & _ & Hrefused & _).
  split; [etransitivity; [exact Hurl|vm_compute; reflexivity]|].
  split; [exact Hauth|].
  etransitivity; [exact (Hrefused _ eq_refl eq_refl)|]. vm_compute. reflexivity.
Defined.

Lemma sample_ini_option section opt value :
  bool_decide (is_Some (parser_sections sample_ini !! section)) = true ->
  chain_lookup sample_ini section opt = Some value ->
  has_percent value = false ->
  plain_option sample_ini section opt value.
Proof.
  intros Hsection Hvalue Hplain. split; [|split; assumption].
  apply bool_decide_eq_true in Hsection. exact Hsection.
Qed.

(** The sample file gives the sample configuration. *)
Lemma sample_file_is_read :
  get_config sample_files "consumer.ini" = ([], Ok sample_config).
Proof.
  apply (get_config_of_plain_file sample_files "consumer.ini" sample_ini sample_config
           "2" "no" "False");
    first [ apply sample_ini_option; vm_compute; reflexivity
          | vm_compute; reflexivity ].
Defined.


(** A launch on the sample host, interrupted before the first metric. *)
Lemma sample_launch_starts_after_the_checks :
  exists cfg b' k tail,
    get_config sample_files "consumer.ini" = ([], Ok cfg)
    /\ add_vhost cfg fresh_broker = Ok b'
    /\ snd (test_splunk_connection cfg healthy) = Ok tt
    /\ fst (main sample_files fresh_broker healthy "consumer.ini" (WhileReporting 100 []))
       = SPost (health_check_request cfg) :: SPrint LineWaiting
         :: map SStart (firstn k (range (threads cfg))) ++ tail
    /\ started_workers
         (fst (main sample_files fresh_broker healthy "consumer.ini" (WhileReporting 100 [])))
       = firstn k (range (threads cfg))
    /\ NoDup (started_workers
                (fst (main sample_files fresh_broker healthy "consumer.ini"
                        (WhileReporting 100 []))))
    /\ Forall (fun i => 0 <= i < threads cfg)
         (started_workers
            (fst (main sample_files fresh_broker healthy "consumer.ini"
                    (WhileReporting 100 [])))).
Proof.
  apply (workers_start_after_the_checks sample_files fresh_broker healthy "consumer.ini"
           (WhileReporting 100 [])).
  vm_compute. discriminate.
Defined.

(** The same launch, interrupted after the short run. *)
Lemma sample_launch_interrupted_while_reporting :
  exists st lines,
    aggregate_loop sample_config (initial_state 100) short_run = Ok (st, lines)
    /\ main sample_files fresh_broker healthy "consumer.ini" (WhileReporting 100 short_run)
       = (SPost (health_check_request sample_config) :: SPrint LineWaiting
          :: map SStart [0; 1]
          ++ map (fun r => SPrint (LineStatus r)) lines
          ++ [SPrint LineInterrupted],
          Raised (SystemExit 1)).
Proof.
  destruct (aggregate_loop sample_config (initial_state 100) short_run)
    as [[st lines]|e] eqn:Hrun; [|vm_compute in Hrun; discriminate].
  exists st, lines. split; [reflexivity|].
  apply (interrupt_while_reporting sample_files fresh_broker healthy "consumer.ini"
           100 short_run sample_config vhost_only_broker st lines).
  - vm_compute. reflexivity.
  - vm_compute. reflexivity.
  - vm_compute. reflexivity.
  - exact Hrun.
Defined.

(** The same launch, interrupted after the first of its two workers was
    started. *)
Lemma sample_launch_interrupted_while_starting :
  fst (main sample_files fresh_broker healthy "consumer.ini" (WhileStarting 1 false))
  = [SPost (health_check_request sample_config); SPrint LineWaiting]
    ++ map SStart [0] ++ [SPrint LineInterrupted]
  /\ snd (main sample_files fresh_broker healthy "consumer.ini" (WhileStarting 1 false))
     = Raised AttributeError.
Proof.
  apply (interrupt_while_starting sample_files fresh_broker healthy "consumer.ini"
           1%nat false sample_config vhost_only_broker).
  - vm_compute. reflexivity.
  - vm_compute. reflexivity.
  - vm_compute. reflexivity.
  - vm_compute. lia.
Defined.

(** An option that is defined by itself. *)
Lemma option_defined_by_itself :
  config_get
    {| parser_defaults := ∅;
       parser_sections := {[ "splunk" := {[ "url" := "%(url)s" ]} ]} |}
    "splunk" "url"
  = Raised InterpolationDepthError.
Proof.
  apply self_reference_is_rejected.
  - refine (bool_decide_unpack _ _); vm_compute; exact I.
  - discriminate.
  - cbn. intros [Hc|[Hc|[Hc|[]]]]; discriminate.
  - vm_compute. reflexivity.
Defined.
